(** * Medi-Scribe Enterprise: the response parser and the patient workflow

    A shallow embedding of [app.py].  Python strings are sequences of Unicode
    code points, so a [str] is a list of code points; the string methods the
    program calls ([in], [split], [strip], [replace]) are written out with
    Python's semantics.  The Streamlit script is embedded in a small state and
    exception monad over the session, the external stores and the widgets
    drawn during one run of the script. *)

From Equations Require Import Equations.
From Stdlib Require Import List NArith Arith Bool Lia Ascii.
From Stdlib Require String DecimalString.
Import String.StringSyntax.
Delimit Scope string_scope with string.
Import ListNotations.

Set Implicit Arguments.

(** ** Python strings *)

Module PyStr.

Definition char := N.
Definition str := list char.

(** A string literal of the source, whose characters are all ASCII. *)
Fixpoint lit (s : String.string) : str :=
  match s with
  | String.EmptyString => []
  | String.String a s' => N_of_ascii a :: lit s'
  end.
Arguments lit _%_string.

Definition NL : char := 10%N.
Definition STAR : char := 42%N.

Definition str_eqb (a b : str) : bool :=
  if list_eq_dec N.eq_dec a b then true else false.

(** [strip_prefix p s] is [Some r] when [s = p + r] ([s.startswith(p)]). *)
Fixpoint strip_prefix (p s : str) : option str :=
  match p, s with
  | [], _ => Some s
  | _ :: _, [] => None
  | a :: p', b :: s' => if N.eqb a b then strip_prefix p' s' else None
  end.

(** [sub in s]: some position of [s] starts with [sub]. *)
Fixpoint contains (sub s : str) : bool :=
  match strip_prefix sub s with
  | Some _ => true
  | None => match s with
            | [] => false
            | _ :: s' => contains sub s'
            end
  end.

(** [s.split(sep, 1)] when [sep in s]: the text before the leftmost
    occurrence of [sep] and the text after it; [None] when [sep] does not
    occur (Python then returns the one-element list [[s]]). *)
Fixpoint split_once (sep s : str) : option (str * str) :=
  match strip_prefix sep s with
  | Some r => Some ([], r)
  | None => match s with
            | [] => None
            | c :: s' => match split_once sep s' with
                         | Some (a, b) => Some (c :: a, b)
                         | None => None
                         end
            end
  end.

Definition inspect {A} (a : A) : {b : A | a = b} := exist _ a eq_refl.

(** [s.split(sep)]: cut at the leftmost occurrence of [sep] and go on in the
    text after it.  Python raises ValueError on the empty separator; the
    program only passes the literals ["SUMMARY:"] and the line break, so that
    call is outside this model and its equation returns the text uncut. *)
Equations? split (sep : str) (s : str) : list str by wf (length s) lt :=
  split [] s := [s];
  split (c :: sep) s with inspect (split_once (c :: sep) s) => {
    | exist _ None _ := [s];
    | exist _ (Some (a, b)) E := a :: split (c :: sep) b }.
Proof.
  clear split.
  assert (P : forall (p t r : str),
             strip_prefix p t = Some r -> length r <= length t).
  { induction p as [|x p IH]; intros [|y t] r; simpl; intros H;
      try discriminate.
    - inversion H. simpl. lia.
    - inversion H. simpl. lia.
    - destruct (N.eqb x y); [|discriminate]. apply IH in H. lia. }
  assert (Q : forall (t a' b' : str),
             split_once (c :: sep) t = Some (a', b') -> length b' < length t).
  { induction t as [|y t IH]; intros a' b'; simpl; [discriminate|].
    destruct (N.eqb c y).
    - destruct (strip_prefix sep t) eqn:Ep.
      + intros [= <- <-]. apply P in Ep. lia.
      + destruct (split_once (c :: sep) t) as [[a2 b2]|] eqn:E2;
          [|discriminate].
        intros [= <- <-]. specialize (IH _ _ eq_refl). lia.
    - destruct (split_once (c :: sep) t) as [[a2 b2]|] eqn:E2;
        [|discriminate].
      intros [= <- <-]. specialize (IH _ _ eq_refl). lia. }
  eapply Q; eassumption.
Qed.

(** [s.split(sep, 1)]: at most one cut. *)
Definition split_max1 (sep s : str) : list str :=
  match split_once sep s with
  | Some (a, b) => [a; b]
  | None => [s]
  end.

(** [sep.join(xs)]. *)
Fixpoint join (sep : str) (xs : list str) : str :=
  match xs with
  | [] => []
  | [x] => x
  | x :: xs' => x ++ sep ++ join sep xs'
  end.

(** [s.replace(old, new)] for [old] not empty. *)
Definition replace (old new s : str) : str := join new (split old s).

(** [c.isspace()], the white-space code points of CPython's
    [_PyUnicode_IsWhitespace]. *)
Definition isspace (c : char) : bool :=
  ((9 <=? c) && (c <=? 13) || (28 <=? c) && (c <=? 32)
   || (c =? 133) || (c =? 160) || (c =? 5760)
   || (8192 <=? c) && (c <=? 8202)
   || (c =? 8232) || (c =? 8233) || (c =? 8239) || (c =? 8287)
   || (c =? 12288))%N.

Fixpoint lstrip (s : str) : str :=
  match s with
  | [] => []
  | c :: s' => if isspace c then lstrip s' else s
  end.

Definition rstrip (s : str) : str := rev (lstrip (rev s)).

(** [s.strip()]. *)
Definition strip (s : str) : str := rstrip (lstrip s).

(** [str(n)] for a natural number. *)
Definition str_of_N (n : N) : str :=
  lit (DecimalString.NilEmpty.string_of_uint (N.to_uint n)).

(** Python truthiness of a string. *)
Definition nonempty (s : str) : bool :=
  match s with [] => false | _ :: _ => true end.

End PyStr.
Import PyStr.

(** ** Exceptions *)

Inductive exn :=
| IndexError
| ValueError
| TypeError
| AttributeError
| ServiceError (msg : str)
| RerunException.

Inductive result (A : Type) :=
| Ok (a : A)
| Raise (e : exn).
Arguments Ok {A} a.
Arguments Raise {A} e.

Definition rbind {A B} (r : result A) (k : A -> result B) : result B :=
  match r with
  | Ok a => k a
  | Raise e => Raise e
  end.

Declare Scope result_scope.
Delimit Scope result_scope with result.
Notation "x <- r ;; k" := (rbind r (fun x => k))
  (at level 61, r at next level, right associativity) : result_scope.
Notation "' p <- r ;; k" := (rbind r (fun x => match x with p => k end))
  (at level 61, p pattern, r at next level, right associativity) : result_scope.

(** What a call to an outside service comes back with: its answer, or the
    text of the exception it raised. *)
Inductive reply (A : Type) :=
| Answer (a : A)
| Failure (msg : str).
Arguments Answer {A} a.
Arguments Failure {A} msg.

Definition service {A} (r : reply A) : result A :=
  match r with
  | Answer a => Ok a
  | Failure msg => Raise (ServiceError msg)
  end.

(** [xs[i]]; out of range is IndexError. *)
Definition index {A} (xs : list A) (i : nat) : result A :=
  match nth_error xs i with
  | Some x => Ok x
  | None => Raise IndexError
  end.

(** [a, b = xs]: unpacking into two names; any other length is ValueError. *)
Definition unpack2 (xs : list str) : result (str * str) :=
  match xs with
  | [a; b] => Ok (a, b)
  | _ => Raise ValueError
  end.

(** ** The response parser (the parsing block of the Patient Kiosk) *)

Module Parser.

Definition SUMMARY : str := lit "SUMMARY:".
Definition SPECIALIST : str := lit "SPECIALIST:".
Definition ADVICE : str := lit "ADVICE:".

Definition default_summary : str := lit "Report Analyzed.".
Definition default_specialist : str := lit "General Physician".
Definition default_advice : str := lit "Consultation recommended.".

(** The values of the locals [summary], [specialist], [advice] after the
    nested tests on the three markers. *)
Definition parse_response (text : str) : result (str * str * str) :=
  (if contains SUMMARY text then
     parts <- index (split SUMMARY text) 1 ;;
     if contains SPECIALIST parts then
       '(summary, rest) <- unpack2 (split_max1 SPECIALIST parts) ;;
       if contains ADVICE rest then
         '(specialist, advice) <- unpack2 (split_max1 ADVICE rest) ;;
         Ok (summary, specialist, advice)
       else Ok (summary, default_specialist, default_advice)
     else Ok (default_summary, default_specialist, default_advice)
   else Ok (default_summary, default_specialist, default_advice))%result.

(** [specialist.strip().split('\n')[0].replace("*", "")], the value stored
    as the session's specialist type. *)
Definition normalize (specialist : str) : result str :=
  (line <- index (split [NL] (strip specialist)) 0 ;;
   Ok (replace [STAR] [] line))%result.

(** The steps of the normalization in closed form: the text before the
    first line break, and a text without its asterisks. *)
Fixpoint first_line (s : str) : str :=
  match s with
  | [] => []
  | c :: s' => if (c =? NL)%N then [] else c :: first_line s'
  end.

Definition drop_stars (s : str) : str :=
  filter (fun c => negb (c =? STAR)%N) s.

(** The three fields an analysis leaves behind: the summary kept as the
    session's analysis result, the normalized specialist type, and the advice
    handed to the report. *)
Definition parsed_fields (text : str) : result (str * str * str) :=
  ('(summary, specialist, advice) <- parse_response text ;;
   specialist_type <- normalize specialist ;;
   Ok (summary, specialist_type, advice))%result.

End Parser.
Import Parser.

(** ** State and exceptions of one run of the script

    A computation reads and writes a state and either returns or raises; what
    it wrote before raising stays written, as in Python. *)

Definition M (S A : Type) : Type := S -> S * result A.

Definition ret {S A} (a : A) : M S A := fun s => (s, Ok a).

Definition bind {S A B} (m : M S A) (k : A -> M S B) : M S B :=
  fun s => match m s with
           | (s', Ok a) => k a s'
           | (s', Raise e) => (s', Raise e)
           end.

Definition raise {S A} (e : exn) : M S A := fun s => (s, Raise e).

Definition lift {S A} (r : result A) : M S A := fun s => (s, r).

Definition get {S} : M S S := fun s => (s, Ok s).

Definition modify {S} (f : S -> S) : M S unit := fun s => (f s, Ok tt).

(** [try: m except Exception as e: h e].  Streamlit's rerun signal derives
    from BaseException and passes through. *)
Definition try_except {S A} (m : M S A) (h : exn -> M S A) : M S A :=
  fun s => match m s with
           | (s', Raise RerunException) => (s', Raise RerunException)
           | (s', Raise e) => h e s'
           | r => r
           end.

(** [try: m except: pass]. *)
Definition try_pass {S} (m : M S unit) : M S unit :=
  fun s => (fst (m s), Ok tt).

Declare Scope monad_scope.
Delimit Scope monad_scope with monad.
Notation "x <- m ;; k" := (bind m (fun x => k))
  (at level 61, m at next level, right associativity) : monad_scope.
Notation "' p <- m ;; k" := (bind m (fun x => match x with p => k end))
  (at level 61, p pattern, m at next level, right associativity) : monad_scope.
Notation "m ;; k" := (bind m (fun _ => k))
  (at level 61, right associativity) : monad_scope.

(** [str(e)]. *)
Definition exn_text (e : exn) : str :=
  match e with
  | IndexError => lit "list index out of range"
  | ValueError => lit "not enough values to unpack (expected 2, got 1)"
  | TypeError => lit "expected str, bytes or os.PathLike object, not NoneType"
  | AttributeError => lit "'NoneType' object has no attribute 'encode'"
  | ServiceError msg => msg
  | RerunException => []
  end.

(** ** Data of the application *)

Record Date := { year : N; month : N; day : N }.
Record Time := { hour : N; minute : N }.

Definition pad2 (n : N) : str :=
  if (n <? 10)%N then lit "0" ++ str_of_N n else str_of_N n.

Definition pad4 (n : N) : str :=
  if (n <? 10)%N then lit "000" ++ str_of_N n
  else if (n <? 100)%N then lit "00" ++ str_of_N n
  else if (n <? 1000)%N then lit "0" ++ str_of_N n
  else str_of_N n.

(** [str(appt_date)] and [str(appt_time)]; the time widget yields whole
    minutes. *)
Definition str_date (d : Date) : str :=
  pad4 (year d) ++ lit "-" ++ pad2 (month d) ++ lit "-" ++ pad2 (day d).
Definition str_time (t : Time) : str :=
  pad2 (hour t) ++ lit ":" ++ pad2 (minute t) ++ lit ":00".

(** The grounding metadata of a model response.  An attribute access either
    yields or raises. *)
Record WebCitation := { title : result str; uri : result str }.
Record Chunk := { web : result (option WebCitation) }.
Record GroundingMetadata := { grounding_chunks : result (list Chunk) }.
Record Candidate := {
  content_parts : result (list (result str));
  grounding_metadata : result GroundingMetadata }.
Record Response := {
  text : result str;
  candidates : result (list Candidate) }.

Record Upload := { data : list N; mime_type : str }.

(** A document of the appointments collection. *)
Record BookingRecord := {
  patient_email : str;
  specialist : str;
  doctor_name : str;
  status : str;
  timestamp : N }.

(** The body of the event inserted in the master calendar; the end is the
    start plus [ev_minutes]. *)
Record Event := {
  ev_summary : str;
  ev_location : str;
  ev_description : str;
  ev_start : Date * Time;
  ev_minutes : N;
  ev_time_zone : str;
  ev_attendee : option str;
  ev_calendar_id : option str }.

(** What the report composer lays out: the generation time and the titled
    sections in order. *)
Record Document := {
  doc_generated : N;
  doc_sections : list (str * str);
  doc_sources : str }.

Inductive Widget :=
| st_title (s : str)
| st_header (s : str)
| st_markdown (s : str)
| st_info (s : str)
| st_success (s : str)
| st_warning (s : str)
| st_error (s : str)
| st_divider
| st_link_button (label url : str)
| st_download_button (label path file_name mime : str)
| st_metric (label : str) (value : nat)
| st_dataframe (rows : list str)
| st_sidebar_title (s : str)
| st_sidebar_caption (s : str)
| st_sidebar_success (s : str)
| st_exception (e : exn).

(** The calls into the integrations, in the order they are made. *)
Inductive Call :=
| call_block_hospital_calendar
| call_generate_google_calendar_link
| call_appointments_add
| call_create_professional_pdf.

(** [st.session_state].  A key that the script initialises on first use
    ([if key not in st.session_state]) holds that initial value from the
    start. *)
Record Session := {
  analysis_result : option str;
  specialist_type : str;
  user_city : str;
  sources_clean : option str;
  authenticated : bool }.

Definition new_session : Session :=
  {| analysis_result := None;
     specialist_type := lit "General Physician";
     user_city := lit "Hyderabad";
     sources_clean := None;
     authenticated := false |}.

(** The stores outside the process. *)
Record World := {
  appointments : list BookingRecord;
  reports : list str;
  master_calendar : list Event;
  tmp_files : list str;
  bucket : list str;
  audit_log : list str }.

Record State := {
  session : Session;
  world : World;
  ui : list Widget;
  calls : list Call }.

(** The outcomes of the calls to the services outside the process (the
    vault, the model, the calendar, the PDF writer, the bucket, and the
    writes and reads of the Firestore collections), the clock and the library
    functions the script formats with. *)
Record Env := {
  vault : str -> reply str;
  generate_content : Upload -> str -> reply Response;
  events_insert : Event -> reply str;
  pdf_output : Document -> str -> reply unit;
  upload_from_filename : str -> reply unit;
  appointments_write : BookingRecord -> reply unit;
  reports_stream : reply unit;
  now : N;
  quote : str -> str;
  lower : str -> str;
  strftime : Date -> Time -> N -> str }.

Definition Script := M State.

Definition draw (w : Widget) : Script unit :=
  modify (fun st => {| session := session st; world := world st;
                       ui := ui st ++ [w]; calls := calls st |}).

Definition call (c : Call) : Script unit :=
  modify (fun st => {| session := session st; world := world st;
                       ui := ui st; calls := calls st ++ [c] |}).

Definition set_session (f : Session -> Session) : Script unit :=
  modify (fun st => {| session := f (session st); world := world st;
                       ui := ui st; calls := calls st |}).

Definition set_world (f : World -> World) : Script unit :=
  modify (fun st => {| session := session st; world := f (world st);
                       ui := ui st; calls := calls st |}).

Definition get_session : Script Session :=
  fun st => (st, Ok (session st)).

(** ** Configuration and secrets *)

Definition PROJECT_ID : str := lit "bnb-marathon-2025-478707".
Definition BUCKET_NAME : str := PROJECT_ID ++ lit "-reports".

Definition secret_name (secret_id : str) : str :=
  lit "projects/" ++ PROJECT_ID ++ lit "/secrets/" ++ secret_id
  ++ lit "/versions/latest".

Definition get_secret (env : Env) (secret_id : str) : Script (option str) :=
  (try_except
     (let name := secret_name secret_id in
      payload <- lift (service (vault env name)) ;;
      ret (Some payload))
     (fun _ =>
        draw (st_error (lit "Security Error: Could not fetch " ++ secret_id
                        ++ lit ". Check IAM permissions.")) ;;
        ret None))%monad.

(** ** Calendar *)

Definition add_event (ev : Event) (w : World) : World :=
  {| appointments := appointments w; reports := reports w;
     master_calendar := master_calendar w ++ [ev];
     tmp_files := tmp_files w; bucket := bucket w;
     audit_log := audit_log w |}.

Definition log_error (msg : str) (w : World) : World :=
  {| appointments := appointments w; reports := reports w;
     master_calendar := master_calendar w;
     tmp_files := tmp_files w; bucket := bucket w;
     audit_log := audit_log w ++ [msg] |}.

Definition block_hospital_calendar (env : Env) (MASTER_CALENDAR_ID : option str)
    (patient_name doctor_name : str) (appt_date : Date) (appt_time : Time)
    : Script (bool * str) :=
  (call call_block_hospital_calendar ;;
   try_except
     (let event :=
        {| ev_summary := lit "BOOKED: " ++ doctor_name ++ lit " (Pt: "
                         ++ patient_name ++ lit ")";
           ev_location := lit "Medi-Scribe Medical Center";
           ev_description := lit "Official Appointment." ++ [NL; NL]
                             ++ lit "Doctor: " ++ doctor_name ++ [NL]
                             ++ lit "Patient: " ++ patient_name;
           ev_start := (appt_date, appt_time);
           ev_minutes := 30;
           ev_time_zone := lit "Asia/Kolkata";
           ev_attendee := MASTER_CALENDAR_ID;
           ev_calendar_id := MASTER_CALENDAR_ID |} in
      link <- lift (service (events_insert env event)) ;;
      set_world (add_event event) ;;
      ret (true, link))
     (fun e =>
        set_world (log_error (lit "Calendar API Error: " ++ exn_text e)) ;;
        ret (false, exn_text e)))%monad.

(** Pure formatting; [strftime env d t k] renders the start plus [k]
    minutes. *)
Definition generate_google_calendar_link (env : Env)
    (patient_email doctor_name : str) (appt_date : Date) (appt_time : Time)
    : str :=
  let dates := strftime env appt_date appt_time 0 ++ lit "/"
               ++ strftime env appt_date appt_time 30 in
  let title := quote env (lit "Doctor Appointment: " ++ doctor_name) in
  let details := quote env (lit "Confirmed." ++ [NL] ++ lit "Doctor: "
                            ++ doctor_name ++ [NL] ++ lit "Email: "
                            ++ patient_email) in
  let location := quote env (lit "Medi-Scribe Medical Center") in
  lit "https://calendar.google.com/calendar/render?action=TEMPLATE&text="
  ++ title ++ lit "&details=" ++ details ++ lit "&dates=" ++ dates
  ++ lit "&location=" ++ location.

(** ** Utilities *)

Fixpoint collect {A} (xs : list (result A)) : result (list A) :=
  match xs with
  | [] => Ok []
  | x :: xs' => (a <- x ;; r <- collect xs' ;; Ok (a :: r))%result
  end.

Definition get_clean_text (response : Response) : result str :=
  match text response with
  | Ok t => Ok t
  | Raise _ =>
      (cs <- candidates response ;;
       c <- index cs 0 ;;
       ps <- content_parts c ;;
       ts <- collect ps ;;
       Ok (join [] ts))%result
  end.

Definition set_authenticated (b : bool) (s : Session) : Session :=
  {| analysis_result := analysis_result s;
     specialist_type := specialist_type s;
     user_city := user_city s;
     sources_clean := sources_clean s;
     authenticated := b |}.

Definition check_auth : Script bool :=
  (s <- get_session ;; ret (authenticated s))%monad.

(** [pwd == ADMIN_PASSWORD]: a string never equals [None]. *)
Definition eq_secret (pwd : str) (secret : option str) : bool :=
  match secret with
  | Some p => str_eqb pwd p
  | None => false
  end.

Definition login_screen (ADMIN_PASSWORD : option str) (pwd : str)
    (authenticate : bool) : Script unit :=
  (draw (st_markdown (lit "### " ++ [0x1F6E1; 0xFE0F]%N
                      ++ lit " Admin Portal Access")) ;;
   if authenticate then
     if eq_secret pwd ADMIN_PASSWORD then
       set_session (set_authenticated true) ;;
       raise RerunException
     else draw (st_error (lit "Access Denied"))
   else ret tt)%monad.

Definition logout : Script unit :=
  (set_session (set_authenticated false) ;; raise RerunException)%monad.

(** ** Report composer *)

(** [s.encode('latin-1', 'replace').decode('latin-1')]. *)
Definition latin1_replace (s : str) : str :=
  map (fun c => if (c <=? 255)%N then c else 63%N) s.

(** The same on a value that may be [None], which has no [encode]. *)
Definition safe (s : option str) : result str :=
  match s with
  | Some s => Ok (latin1_replace s)
  | None => Raise AttributeError
  end.

Definition truthy (s : option str) : bool :=
  match s with
  | Some s => nonempty s
  | None => false
  end.

Definition add_tmp_file (path : str) (w : World) : World :=
  {| appointments := appointments w; reports := reports w;
     master_calendar := master_calendar w;
     tmp_files := tmp_files w ++ [path]; bucket := bucket w;
     audit_log := audit_log w |}.

Definition add_blob (name : str) (w : World) : World :=
  {| appointments := appointments w; reports := reports w;
     master_calendar := master_calendar w;
     tmp_files := tmp_files w; bucket := bucket w ++ [name];
     audit_log := audit_log w |}.

Definition create_professional_pdf (env : Env) (summary : option str)
    (doctors : str) (sources : option str) (appt_info : option str)
    : Script (option str * str) :=
  (call call_create_professional_pdf ;;
   try_except
     (safe_summary <- lift (safe summary) ;;
      let safe_doctors := latin1_replace doctors in
      safe_appt <- (if truthy appt_info
                    then (a <- lift (safe appt_info) ;;
                          ret [(lit "Appointment Status", a)])
                    else ret []) ;;
      safe_sources <- lift (safe sources) ;;
      let filename := lit "Report_" ++ str_of_N (now env) ++ lit ".pdf" in
      let local_path := lit "/tmp/" ++ filename in
      let doc := {| doc_generated := now env;
                    doc_sections :=
                      [(lit "Medical Analysis", safe_summary);
                       (lit "Recommended Specialists", safe_doctors)]
                      ++ safe_appt;
                    doc_sources := safe_sources |} in
      lift (service (pdf_output env doc local_path)) ;;
      set_world (add_tmp_file local_path) ;;
      lift (service (upload_from_filename env local_path)) ;;
      set_world (add_blob filename) ;;
      ret (Some local_path, lit "gs://" ++ BUCKET_NAME ++ lit "/" ++ filename))
     (fun e => ret (None, exn_text e)))%monad.

(** [open(path, "rb")]: [None] is not a path. *)
Definition open_rb (path : option str) : Script str :=
  match path with
  | Some p => ret p
  | None => raise TypeError
  end.

(** ** Grounding sources (the inner [try] of the analysis) *)

Definition FALLBACK_SOURCES : str := lit "Verified via Google.".

(** [response.candidates[0].grounding_metadata.grounding_chunks]. *)
Definition grounding_access (response : Response) : result (list Chunk) :=
  (cs <- candidates response ;;
   c <- index cs 0 ;;
   md <- grounding_metadata c ;;
   grounding_chunks md)%result.

Definition append_sources (line : str) : M str unit :=
  modify (fun sources => sources ++ line).

(** The [for] loop over [enumerate(chunks)], from index [i]; the state is the
    local [sources]. *)
Fixpoint sources_loop (i : N) (chunks : list Chunk) : M str unit :=
  match chunks with
  | [] => ret tt
  | c :: rest =>
      (w <- lift (web c) ;;
       match w with
       | Some citation =>
           t <- lift (title citation) ;;
           u <- lift (uri citation) ;;
           append_sources (str_of_N (i + 1) ++ lit ". " ++ t ++ lit ": "
                           ++ u ++ [NL])
       | None => ret tt
       end ;;
       sources_loop (i + 1) rest)%monad
  end.

Definition sources_block (response : Response) : M str unit :=
  try_pass
    (chunks <- lift (grounding_access response) ;;
     match chunks with
     | _ :: _ =>
         modify (fun _ => []) ;;
         chunks' <- lift (grounding_access response) ;;
         sources_loop 0 chunks'
     | [] => ret tt
     end)%monad.

(** The value of [sources] after the block, started at the fallback. *)
Definition extract_sources (response : Response) : str * result unit :=
  sources_block response FALLBACK_SOURCES.

(** ** Patient Kiosk *)

Definition prompt : str :=
  let indent := repeat 32%N 24 in
  [NL] ++ indent ++ lit "You are a Medical AI. " ++ [NL]
  ++ indent ++ lit "1. ANALYZE image. 2. SUMMARIZE findings. " ++ [NL]
  ++ indent ++ lit "3. RECOMMEND specialist type." ++ [NL]
  ++ indent
  ++ lit "4. RETURN: SUMMARY: [text] SPECIALIST: [type] ADVICE: [text]"
  ++ [NL] ++ indent.

Definition set_analysis_result (summary : str) (s : Session) : Session :=
  {| analysis_result := Some summary;
     specialist_type := specialist_type s;
     user_city := user_city s;
     sources_clean := sources_clean s;
     authenticated := authenticated s |}.

Definition set_specialist_type (specialist : str) (s : Session) : Session :=
  {| analysis_result := analysis_result s;
     specialist_type := specialist;
     user_city := user_city s;
     sources_clean := sources_clean s;
     authenticated := authenticated s |}.

Definition set_user_city (city : str) (s : Session) : Session :=
  {| analysis_result := analysis_result s;
     specialist_type := specialist_type s;
     user_city := city;
     sources_clean := sources_clean s;
     authenticated := authenticated s |}.

Definition set_sources_clean (sources : str) (s : Session) : Session :=
  {| analysis_result := analysis_result s;
     specialist_type := specialist_type s;
     user_city := user_city s;
     sources_clean := Some sources;
     authenticated := authenticated s |}.

Definition tab1 (env : Env) (uploaded_file : option Upload) (city_input : str)
    (process_record : bool) : Script unit :=
  match uploaded_file with
  | Some file =>
      if process_record then
        (try_except
           (response <- lift (service (generate_content env file prompt)) ;;
            text <- lift (get_clean_text response) ;;
            ' (summary, specialist, advice) <- lift (parse_response text) ;;
            set_session (set_analysis_result summary) ;;
            specialist_type' <- lift (normalize specialist) ;;
            set_session (set_specialist_type specialist_type') ;;
            set_session (set_user_city city_input) ;;
            ' (sources, _) <- ret (extract_sources response) ;;
            set_session (set_sources_clean sources) ;;
            draw (st_success (lit "Analysis Complete. Recommended: "
                              ++ specialist)) ;;
            draw (st_markdown summary) ;;
            ' (path, link) <- create_professional_pdf env (Some summary)
                                advice (Some sources) None ;;
            if truthy path then
              f <- open_rb path ;;
              draw (st_download_button
                      ([0x2B07; 0xFE0F]%N ++ lit " Download Report") f
                      (lit "Report.pdf") (lit "application/pdf"))
            else ret tt)
           (fun e => draw (st_error (lit "Error: " ++ exn_text e))))%monad
      else ret tt
  | None => ret tt
  end.

Record BookingForm := {
  p_email : str;
  doc_name : str;
  appt_date : Date;
  appt_time : Time;
  submitted : bool }.

Definition add_appointment (r : BookingRecord) (w : World) : World :=
  {| appointments := appointments w ++ [r]; reports := reports w;
     master_calendar := master_calendar w;
     tmp_files := tmp_files w; bucket := bucket w;
     audit_log := audit_log w |}.

(** [db.collection("appointments").add(...)]: the write raises or the
    record is in the collection. *)
Definition appointments_add (env : Env) (r : BookingRecord) : Script unit :=
  (call call_appointments_add ;;
   lift (service (appointments_write env r)) ;;
   set_world (add_appointment r))%monad.

Definition booking_record (env : Env) (specialist : str) (form : BookingForm)
    : BookingRecord :=
  {| patient_email := p_email form;
     specialist := specialist;
     doctor_name := doc_name form;
     status := lit "Confirmed";
     timestamp := now env |}.

(** The text of the appointment section of the booking pass. *)
Definition booking_details (form : BookingForm) : str :=
  lit "Email: " ++ p_email form ++ [NL] ++ lit "Doc: " ++ doc_name form
  ++ [NL] ++ lit "Date: " ++ str_date (appt_date form) ++ lit " "
  ++ str_time (appt_time form) ++ [NL] ++ lit "Status: Confirmed".

(** The [if submitted:] block of the booking tab. *)
Definition booking_submit (env : Env) (MASTER_CALENDAR_ID : option str)
    (specialist : str) (form : BookingForm) : Script unit :=
  (if nonempty (p_email form) && nonempty (doc_name form) then
     ' (success, result) <- block_hospital_calendar env MASTER_CALENDAR_ID
                              (p_email form) (doc_name form)
                              (appt_date form) (appt_time form) ;;
     call call_generate_google_calendar_link ;;
     let user_cal_link :=
       generate_google_calendar_link env (p_email form) (doc_name form)
         (appt_date form) (appt_time form) in
     draw (st_success ([0x2705]%N ++ lit " Slot Blocked for "
                       ++ doc_name form ++ lit "!")) ;;
     draw (st_markdown (lit "### " ++ [0x1F449]%N
                        ++ lit " [Click here to Add to YOUR Calendar]("
                        ++ user_cal_link ++ lit ")")) ;;
     appointments_add env (booking_record env specialist form) ;;
     let details := booking_details form in
     s <- get_session ;;
     ' (path, link) <- create_professional_pdf env (analysis_result s)
                         details (sources_clean s) (Some details) ;;
     f <- open_rb path ;;
     draw (st_download_button
             ([0x2B07; 0xFE0F]%N ++ lit " Download Booking Pass") f
             (lit "Pass.pdf") (lit "application/pdf"))
   else draw (st_warning (lit "Fill details.")))%monad.

Definition tab2 (env : Env) (MASTER_CALENDAR_ID : option str)
    (form : BookingForm) : Script unit :=
  (draw (st_header ([0x1F4C5]%N ++ lit " Doctor Appointment")) ;;
   s <- get_session ;;
   if truthy (analysis_result s) then
     let specialist := specialist_type s in
     let city := user_city s in
     draw (st_info (lit "Recommended Specialist: **" ++ specialist
                    ++ lit "** in **" ++ city ++ lit "**")) ;;
     let clean_city := replace (lit " ") (lit "-") (strip (lower env city)) in
     let clean_spec := strip specialist in
     let apollo_url := lit "https://www.apollo247.com/specialties/"
                       ++ quote env (lower env specialist) in
     let practo_url :=
       lit "https://www.practo.com/search/doctors?results_type=doctor&q="
       ++ quote env clean_spec ++ lit "&city=" ++ quote env clean_city in
     draw (st_link_button ([0x1F50E]%N ++ lit " Search on Practo") practo_url) ;;
     draw (st_link_button ([0x1F50E]%N ++ lit " Search on Apollo") apollo_url) ;;
     draw st_divider ;;
     draw (st_markdown (lit "### 2. Confirm Appointment")) ;;
     if submitted form
     then booking_submit env MASTER_CALENDAR_ID specialist form
     else ret tt
   else draw (st_warning (lit "Analyze report first.")))%monad.

(** ** The script *)

Inductive Mode := PatientKiosk | AdminDashboard.

(** What the widgets hold when a run starts. *)
Record Inputs := {
  mode : Mode;
  uploaded_file : option Upload;
  city_input : str;
  process_record : bool;
  form : BookingForm;
  pwd : str;
  authenticate : bool;
  logout_button : bool;
  refresh : bool }.

(** The admin dashboard.  On Refresh the reports are read outside any [try]:
    the read raises, or the page counts and lists the documents of the
    collection. *)
Definition admin_dashboard (env : Env) (ADMIN_PASSWORD : option str)
    (inp : Inputs) : Script unit :=
  (auth <- check_auth ;;
   if negb auth then login_screen ADMIN_PASSWORD (pwd inp) (authenticate inp)
   else
     draw (st_sidebar_success (lit "Admin Logged In")) ;;
     (if logout_button inp then logout else ret tt) ;;
     draw (st_title ([0x1F4CA]%N ++ lit " Analytics")) ;;
     if refresh inp then
       lift (service (reports_stream env)) ;;
       st <- get ;;
       match reports (world st) with
       | (_ :: _) as data =>
           draw (st_metric (lit "Reports Processed") (length data)) ;;
           draw (st_dataframe data)
       | [] => draw (st_info (lit "No data."))
       end
     else ret tt)%monad.

Definition app (env : Env) (inp : Inputs) : Script unit :=
  (ADMIN_PASSWORD <- get_secret env (lit "app-admin-password") ;;
   MASTER_CALENDAR_ID <- get_secret env (lit "master-calendar-id") ;;
   draw (st_sidebar_title ([0x1F3E5]%N ++ lit " Medi-Scribe")) ;;
   draw (st_sidebar_caption (lit "v21.0 Enterprise Secured")) ;;
   match mode inp with
   | PatientKiosk =>
       draw (st_title ([0x1FA7A]%N ++ lit " Patient Service Portal")) ;;
       tab1 env (uploaded_file inp) (city_input inp) (process_record inp) ;;
       tab2 env MASTER_CALENDAR_ID (form inp)
   | AdminDashboard => admin_dashboard env ADMIN_PASSWORD inp
   end)%monad.

Definition clear_ui (st : State) : State :=
  {| session := session st; world := world st; ui := []; calls := calls st |}.

Definition release_form (f : BookingForm) : BookingForm :=
  {| p_email := p_email f; doc_name := doc_name f; appt_date := appt_date f;
     appt_time := appt_time f; submitted := false |}.

(** The widgets as a rerun finds them: no button is down. *)
Definition released (inp : Inputs) : Inputs :=
  {| mode := mode inp; uploaded_file := uploaded_file inp;
     city_input := city_input inp; process_record := false;
     form := release_form (form inp); pwd := pwd inp; authenticate := false;
     logout_button := false; refresh := false |}.

Definition show_exception (r : State * result unit) : State :=
  match r with
  | (st, Ok _) => st
  | (st, Raise e) => fst (draw (st_exception e) st)
  end.

(** One run of the script on a session: the page is redrawn from nothing; an
    [st.rerun()] starts the script over; any other exception that escapes
    ends the run with the traceback on the page. *)
Definition run (env : Env) (inp : Inputs) (st : State) : State :=
  match app env inp (clear_ui st) with
  | (st1, Raise RerunException) =>
      show_exception (app env (released inp) (clear_ui st1))
  | r => show_exception r
  end.

(** The states a session can be in: a fresh session over some contents of
    the stores, then any number of runs. *)
Inductive reachable (w0 : World) : State -> Prop :=
| reach_init :
    reachable w0 {| session := new_session; world := w0; ui := [];
                    calls := [] |}
| reach_run env inp st :
    reachable w0 st -> reachable w0 (run env inp st).

(** ** Vocabulary of the statements *)

(** No proper end of [sep] is also a start of it: two occurrences of [sep]
    cannot overlap. *)
Definition border_free (sep : str) : Prop :=
  forall p l q, p <> [] -> l <> [] -> sep = p ++ l -> sep = l ++ q -> False.

Definition border_freeb (sep : str) : bool :=
  forallb (fun k => negb (str_eqb (firstn k sep) (skipn (length sep - k) sep)))
          (seq 1 (length sep - 1)).

(** The lines the loop has appended when it ends or raises: one line per
    chunk with a web citation, up to the first access that raises. *)
Fixpoint cited_lines (i : N) (chunks : list Chunk) : str :=
  match chunks with
  | [] => []
  | c :: rest =>
      match web c with
      | Raise _ => []
      | Ok None => cited_lines (i + 1) rest
      | Ok (Some w) =>
          match title w, uri w with
          | Ok t, Ok u =>
              (str_of_N (i + 1) ++ lit ". " ++ t ++ lit ": " ++ u ++ [NL])
              ++ cited_lines (i + 1) rest
          | _, _ => []
          end
      end
  end.

(** Two states that differ at most in what is drawn on the page. *)
Definition quiet (st st' : State) : Prop :=
  session st' = session st /\ world st' = world st /\ calls st' = calls st.

(** A relation between the state before and the state after holds for a
    computation when it holds from every state. *)
Definition keeps (R : State -> State -> Prop) {A} (m : Script A) : Prop :=
  forall st, R st (fst (m st)).

(** As long as the session holds no analysis, a step leaves the appointments
    and the list of calls alone. *)
Definition no_booking_step (st st' : State) : Prop :=
  analysis_result (session st') = None ->
  analysis_result (session st) = None
  /\ appointments (world st') = appointments (world st)
  /\ calls st' = calls st.

(** The flag of the admin login is what it was. *)
Definition auth_kept (st st' : State) : Prop :=
  authenticated (session st') = authenticated (session st).

(** The state in which the booking block waits for the write of the record:
    the link is drawn and the write is on the list of calls. *)
Definition attempted_state (env : Env) (form : BookingForm) (st1 : State)
    : State :=
  {| session := session st1;
     world := world st1;
     ui := (ui st1
            ++ [st_success ([0x2705]%N ++ lit " Slot Blocked for "
                            ++ doc_name form ++ lit "!")])
           ++ [st_markdown
                 (lit "### " ++ [0x1F449]%N
                  ++ lit " [Click here to Add to YOUR Calendar]("
                  ++ generate_google_calendar_link env (p_email form)
                       (doc_name form) (appt_date form) (appt_time form)
                  ++ lit ")")];
     calls := (calls st1 ++ [call_generate_google_calendar_link])
              ++ [call_appointments_add] |}.

(** The state in which the booking block calls the report composer. *)
Definition booked_state (env : Env) (spec : str) (form : BookingForm)
    (st1 : State) : State :=
  {| session := session st1;
     world := add_appointment (booking_record env spec form) (world st1);
     ui := (ui st1
            ++ [st_success ([0x2705]%N ++ lit " Slot Blocked for "
                            ++ doc_name form ++ lit "!")])
           ++ [st_markdown
                 (lit "### " ++ [0x1F449]%N
                  ++ lit " [Click here to Add to YOUR Calendar]("
                  ++ generate_google_calendar_link env (p_email form)
                       (doc_name form) (appt_date form) (appt_time form)
                  ++ lit ")")];
     calls := (calls st1 ++ [call_generate_google_calendar_link])
              ++ [call_appointments_add] |}.

Definition offer_pass (path : str) (st3 : State) : State :=
  {| session := session st3; world := world st3;
     ui := ui st3 ++ [st_download_button
                        ([0x2B07; 0xFE0F]%N ++ lit " Download Booking Pass")
                        path (lit "Pass.pdf") (lit "application/pdf")];
     calls := calls st3 |}.


(** The same services with another calendar. *)
Definition with_calendar (f : Event -> reply str) (env : Env) : Env :=
  {| vault := vault env;
     generate_content := generate_content env;
     events_insert := f;
     pdf_output := pdf_output env;
     upload_from_filename := upload_from_filename env;
     appointments_write := appointments_write env;
     reports_stream := reports_stream env;
     now := now env;
     quote := quote env;
     lower := lower env;
     strftime := strftime env |}.

(** ** Sample services, inputs and states *)

Module Samples.

Definition scenario_A_text : str :=
  lit "SUMMARY: Mild fracture SPECIALIST: Orthopedist ADVICE: See a doctor".

Definition sample_response : Response :=
  {| text := Ok scenario_A_text; candidates := Ok [] |}.

(** [s.lower()] on a text whose letters are ASCII. *)
Definition ascii_lower (s : str) : str :=
  map (fun c => if ((65 <=? c) && (c <=? 90))%N then (c + 32)%N else c) s.

(** Services of which the vault, the calendar and the storage bucket are up
    or down; Firestore is up.  The sample texts are ASCII letters, digits and
    hyphens, which [quote] leaves as they are. *)
Definition sample_env (vault_up calendar_up storage_up : bool) : Env :=
  {| vault := fun name =>
       if vault_up then Answer (lit "secret-value")
       else Failure (lit "403 Permission denied");
     generate_content := fun _ _ => Answer sample_response;
     events_insert := fun _ =>
       if calendar_up then Answer (lit "https://calendar.google.com/event?eid=1")
       else Failure (lit "403 Forbidden");
     pdf_output := fun _ _ => Answer tt;
     upload_from_filename := fun _ =>
       if storage_up then Answer tt else Failure (lit "403 Forbidden");
     appointments_write := fun _ => Answer tt;
     reports_stream := Answer tt;
     now := 1750000000;
     quote := fun s => s;
     lower := ascii_lower;
     strftime := fun _ _ _ => lit "20250601T100000" |}.

Definition empty_world : World :=
  {| appointments := []; reports := []; master_calendar := [];
     tmp_files := []; bucket := []; audit_log := [] |}.

Definition fresh_state : State :=
  {| session := new_session; world := empty_world; ui := []; calls := [] |}.

Definition sample_form (email doctor : str) (pressed : bool) : BookingForm :=
  {| p_email := email; doc_name := doctor;
     appt_date := {| year := 2025; month := 6; day := 1 |};
     appt_time := {| hour := 10; minute := 0 |};
     submitted := pressed |}.

Definition sample_upload : Upload :=
  {| data := [137; 80; 78; 71]%N; mime_type := lit "image/png" |}.

(** The patient presses "Process Record" on an uploaded image. *)
Definition analyse_inputs : Inputs :=
  {| mode := PatientKiosk; uploaded_file := Some sample_upload;
     city_input := lit "Hyderabad"; process_record := true;
     form := sample_form [] [] false; pwd := []; authenticate := false;
     logout_button := false; refresh := false |}.

(** The patient submits the booking form. *)
Definition booking_inputs (email doctor : str) : Inputs :=
  {| mode := PatientKiosk; uploaded_file := Some sample_upload;
     city_input := lit "Hyderabad"; process_record := false;
     form := sample_form email doctor true; pwd := []; authenticate := false;
     logout_button := false; refresh := false |}.

(** Somebody presses "Authenticate" with a key typed in. *)
Definition login_inputs (key : str) : Inputs :=
  {| mode := AdminDashboard; uploaded_file := None;
     city_input := lit "Hyderabad"; process_record := false;
     form := sample_form [] [] false; pwd := key; authenticate := true;
     logout_button := false; refresh := false |}.

(** The session after an analysis of scenario A. *)
Definition analysed_state (env : Env) : State := run env analyse_inputs fresh_state.

Definition is_download (w : Widget) : bool :=
  match w with st_download_button _ _ _ _ => true | _ => false end.

Definition is_exception (w : Widget) : bool :=
  match w with st_exception _ => true | _ => false end.

End Samples.
Import Samples.

(** ** Vocabulary of the further statements *)

(** How a text stands to the fields the parser reads off it: no marker
    protocol at all; a summary marker with no specialist marker in its
    segment; summary and specialist markers with no advice marker; all
    three.  The segment of the first [SUMMARY:] ends at the next [SUMMARY:]
    or at the end of the text, and every marker is taken at its leftmost
    occurrence. *)
Inductive first_segment (text parts : str) : Prop :=
| segment_of pre tail :
    text = pre ++ SUMMARY ++ parts ++ tail ->
    contains SUMMARY pre = false ->
    contains SUMMARY parts = false ->
    (tail = [] \/ exists t, tail = SUMMARY ++ t) ->
    first_segment text parts.

Inductive parse_case (text : str) : str * str * str -> Prop :=
| Defaulted :
    contains SUMMARY text = false ->
    parse_case text (default_summary, default_specialist, default_advice)
| SummaryOnly parts :
    first_segment text parts ->
    contains SPECIALIST parts = false ->
    parse_case text (default_summary, default_specialist, default_advice)
| PartialSpecialist summary rest :
    first_segment text (summary ++ SPECIALIST ++ rest) ->
    contains SPECIALIST summary = false ->
    contains ADVICE rest = false ->
    parse_case text (summary, default_specialist, default_advice)
| Full summary specialist advice :
    first_segment text (summary ++ SPECIALIST ++ specialist ++ ADVICE ++ advice) ->
    contains SPECIALIST summary = false ->
    contains ADVICE specialist = false ->
    parse_case text (summary, specialist, advice).

(** The body of the event that [block_hospital_calendar] inserts. *)
Definition hospital_event (MASTER_CALENDAR_ID : option str)
    (patient_name doctor_name : str) (appt_date : Date) (appt_time : Time)
    : Event :=
  {| ev_summary := lit "BOOKED: " ++ doctor_name ++ lit " (Pt: "
                   ++ patient_name ++ lit ")";
     ev_location := lit "Medi-Scribe Medical Center";
     ev_description := lit "Official Appointment." ++ [NL; NL]
                       ++ lit "Doctor: " ++ doctor_name ++ [NL]
                       ++ lit "Patient: " ++ patient_name;
     ev_start := (appt_date, appt_time);
     ev_minutes := 30;
     ev_time_zone := lit "Asia/Kolkata";
     ev_attendee := MASTER_CALENDAR_ID;
     ev_calendar_id := MASTER_CALENDAR_ID |}.

(** The name and the local path of the report written at the time [now]. *)
Definition report_filename (env : Env) : str :=
  lit "Report_" ++ str_of_N (now env) ++ lit ".pdf".

Definition report_path (env : Env) : str := lit "/tmp/" ++ report_filename env.

Definition is_error (w : Widget) : bool :=
  match w with st_error _ => true | _ => false end.

Definition add_call (c : Call) (st : State) : State :=
  {| session := session st; world := world st; ui := ui st;
     calls := calls st ++ [c] |}.

Definition with_world (w : World) (st : State) : State :=
  {| session := session st; world := w; ui := ui st; calls := calls st |}.

(** The same services with a model that answers [r]. *)
Definition with_model (r : Response) (env : Env) : Env :=
  {| vault := vault env;
     generate_content := fun _ _ => Answer r;
     events_insert := events_insert env;
     pdf_output := pdf_output env;
     upload_from_filename := upload_from_filename env;
     appointments_write := appointments_write env;
     reports_stream := reports_stream env;
     now := now env;
     quote := quote env;
     lower := lower env;
     strftime := strftime env |}.

(** The same services with Firestore down. *)
Definition with_firestore_down (msg : str) (env : Env) : Env :=
  {| vault := vault env;
     generate_content := generate_content env;
     events_insert := events_insert env;
     pdf_output := pdf_output env;
     upload_from_filename := upload_from_filename env;
     appointments_write := fun _ => Failure msg;
     reports_stream := Failure msg;
     now := now env;
     quote := quote env;
     lower := lower env;
     strftime := strftime env |}.

(** The session an analysis leaves behind. *)
Definition analysed_session (summary specialist city sources : str)
    (s : Session) : Session :=
  {| analysis_result := Some summary;
     specialist_type := specialist;
     user_city := city;
     sources_clean := Some sources;
     authenticated := authenticated s |}.

(** A step that writes to no collection and no calendar and logs nothing. *)
Definition world_kept (st st' : State) : Prop :=
  appointments (world st') = appointments (world st)
  /\ reports (world st') = reports (world st)
  /\ master_calendar (world st') = master_calendar (world st)
  /\ audit_log (world st') = audit_log (world st).

(** The state a session starts in over the stores [w0]. *)
Definition initial_state (w0 : World) : State :=
  {| session := new_session; world := w0; ui := []; calls := [] |}.

(** What holds of the session after every run: an analysis comes with its
    sources, and the specialist type is a single line without asterisks. *)
Definition session_ok (s : Session) : Prop :=
  (analysis_result s <> None -> sources_clean s <> None)
  /\ ~ In NL (specialist_type s)
  /\ ~ In STAR (specialist_type s).

(** A record as the booking block writes it. *)
Definition valid_record (r : BookingRecord) : Prop :=
  status r = lit "Confirmed" /\ patient_email r <> [] /\ doctor_name r <> [].

(** The appointments only grow, by valid records. *)
Definition appended (st st' : State) : Prop :=
  exists added,
    appointments (world st') = appointments (world st) ++ added
    /\ Forall valid_record added.

(** The reports collection is what it was. *)
Definition reports_kept (st st' : State) : Prop :=
  reports (world st') = reports (world st).

(** What the booking tab leaves of a state without a usable analysis. *)
Definition refused (st : State) : State :=
  {| session := session st; world := world st;
     ui := (ui st ++ [st_header ([0x1F4C5]%N ++ lit " Doctor Appointment")])
           ++ [st_warning (lit "Analyze report first.")];
     calls := calls st |}.

(** The value [get_secret] hands back for a secret. *)
Definition secret_value (env : Env) (secret_id : str) : option str :=
  match vault env (secret_name secret_id) with
  | Answer payload => Some payload
  | Failure _ => None
  end.

(** * Theorems *)

Unset Implicit Arguments.
(** ** Facts on the string operations *)

Module PyStrFacts.

Lemma str_eqb_eq a b : str_eqb a b = true <-> a = b.
Proof.
  unfold str_eqb. destruct (list_eq_dec N.eq_dec a b); split; congruence.
Qed.

Lemma strip_prefix_app p s r : strip_prefix p s = Some r <-> s = p ++ r.
Proof.
  revert s; induction p as [|a p IH]; intros s; simpl.
  - split; congruence.
  - destruct s as [|b s]; [split; discriminate|].
    destruct (N.eqb_spec a b) as [->|Hne].
    + rewrite IH. split; [intros ->; reflexivity | congruence].
    + split; [discriminate | congruence].
Qed.

Lemma split_once_app sep s a b :
  split_once sep s = Some (a, b) -> s = a ++ sep ++ b.
Proof.
  revert a b; induction s as [|c s IH]; intros a b; simpl.
  - destruct (strip_prefix sep []) eqn:E; [|discriminate].
    intros [= <- <-]. apply strip_prefix_app in E. exact E.
  - destruct (strip_prefix sep (c :: s)) eqn:E.
    + intros [= <- <-]. apply strip_prefix_app in E. exact E.
    + destruct (split_once sep s) as [[a' b']|] eqn:E'; [|discriminate].
      intros [= <- <-]. simpl. f_equal. apply IH. reflexivity.
Qed.

Lemma split_eq sep s :
  sep <> [] ->
  split sep s =
  match split_once sep s with
  | None => [s]
  | Some (a, b) => a :: split sep b
  end.
Proof.
  destruct sep as [|c sep]; [congruence|]. intros _.
  rewrite split_equation_2.
  destruct (inspect (split_once (c :: sep) s)) as [[[a b]|] e];
    cbn [split_unfold_clause_2]; rewrite e; reflexivity.
Qed.

Lemma contains_split_once sub s :
  contains sub s = match split_once sub s with Some _ => true | None => false end.
Proof.
  induction s as [|c s IH]; simpl.
  - destruct (strip_prefix sub []); reflexivity.
  - destruct (strip_prefix sub (c :: s)); [reflexivity|].
    rewrite IH. destruct (split_once sub s) as [[a b]|]; reflexivity.
Qed.

Lemma contains_intro sub a b : contains sub (a ++ sub ++ b) = true.
Proof.
  induction a as [|c a IH]; simpl.
  - destruct (sub ++ b) eqn:E; simpl;
      rewrite <- E, (proj2 (strip_prefix_app sub (sub ++ b) b) eq_refl);
      reflexivity.
  - destruct (strip_prefix sub (c :: a ++ sub ++ b)); [reflexivity | exact IH].
Qed.

Lemma contains_elim sub s :
  contains sub s = true -> exists a b, s = a ++ sub ++ b.
Proof.
  rewrite contains_split_once.
  destruct (split_once sub s) as [[a b]|] eqn:E; [|discriminate].
  intros _. exists a, b. apply split_once_app, E.
Qed.

(** A marker absent from a text is absent from every part of it. *)
Lemma contains_infix sub a m b :
  contains sub (a ++ m ++ b) = false -> contains sub m = false.
Proof.
  intros H. destruct (contains sub m) eqn:E; [|reflexivity].
  apply contains_elim in E. destruct E as (x & y & ->).
  replace (a ++ (x ++ sub ++ y) ++ b) with ((a ++ x) ++ sub ++ (y ++ b)) in H
    by (rewrite <- !app_assoc; reflexivity).
  rewrite contains_intro in H. discriminate.
Qed.

Lemma split_once_none sub s :
  contains sub s = false -> split_once sub s = None.
Proof.
  rewrite contains_split_once.
  destruct (split_once sub s) as [[a b]|]; [discriminate | reflexivity].
Qed.

Lemma border_freeb_sound sep : border_freeb sep = true -> border_free sep.
Proof.
  unfold border_freeb. rewrite forallb_forall.
  intros H p l q Hp Hl E1 E2.
  assert (Hlen : length sep = length p + length l)
    by (rewrite E1 at 1; apply length_app).
  assert (0 < length p) by (destruct p; [congruence | simpl; lia]).
  assert (0 < length l) by (destruct l; [congruence | simpl; lia]).
  specialize (H (length l)).
  rewrite in_seq in H. specialize (H ltac:(lia)).
  apply negb_true_iff in H.
  assert (F : firstn (length l) sep = l).
  { rewrite E2 at 1. rewrite firstn_app, Nat.sub_diag, firstn_all. simpl.
    apply app_nil_r. }
  assert (K : skipn (length sep - length l) sep = l).
  { replace (length sep - length l) with (length p) by lia.
    rewrite E1 at 1. rewrite skipn_app, Nat.sub_diag, skipn_all. reflexivity. }
  rewrite F, K in H.
  assert (str_eqb l l = true) by (apply str_eqb_eq; reflexivity).
  congruence.
Qed.

(** The leftmost occurrence of a marker that cannot overlap itself is where
    the text before it is free of the marker. *)
Lemma first_occurrence sep pre rest :
  border_free sep -> contains sep pre = false ->
  split_once sep (pre ++ sep ++ rest) = Some (pre, rest).
Proof.
  intros BF. induction pre as [|c pre IH]; intros Hc.
  - simpl app.
    assert (E : strip_prefix sep (sep ++ rest) = Some rest)
      by (apply strip_prefix_app; reflexivity).
    destruct (sep ++ rest); simpl; rewrite E; reflexivity.
  - simpl in Hc.
    destruct (strip_prefix sep (c :: pre)) eqn:Ep; [discriminate|].
    simpl app. simpl split_once.
    destruct (strip_prefix sep (c :: pre ++ sep ++ rest)) as [r|] eqn:E.
    + exfalso. apply strip_prefix_app in E.
      change (c :: pre ++ sep ++ rest) with ((c :: pre) ++ sep ++ rest) in E.
      apply app_eq_app in E. destruct E as (l & [[E1 E2]|[E1 E2]]).
      * apply (proj2 (strip_prefix_app sep (c :: pre) l)) in E1. congruence.
      * symmetry in E2. apply app_eq_app in E2.
        destruct E2 as (l' & [[E3 E4]|[E3 E4]]).
        -- subst l. apply (f_equal (@length _)) in E1.
           rewrite !length_app in E1. simpl in E1. lia.
        -- destruct l as [|x l].
           ++ rewrite app_nil_r in E1. subst sep.
              rewrite (proj2 (strip_prefix_app (c :: pre) (c :: pre) [])) in Ep
                by (symmetry; apply app_nil_r).
              discriminate.
           ++ apply (BF (c :: pre) (x :: l) l'); congruence.
    + rewrite (IH Hc). reflexivity.
Qed.

Lemma split_nonempty sep s : sep <> [] -> split sep s <> [].
Proof.
  intros H. rewrite (split_eq sep s H).
  destruct (split_once sep s) as [[a b]|]; discriminate.
Qed.

(** Under [sep in s], [s.split(sep)[1]] exists and is a part of [s] that
    follows an occurrence of [sep]. *)
Lemma index1_split sep s :
  sep <> [] -> contains sep s = true ->
  exists a parts b, index (split sep s) 1 = Ok parts /\ s = a ++ sep ++ parts ++ b.
Proof.
  intros Hs Hc. rewrite contains_split_once in Hc.
  destruct (split_once sep s) as [[a b]|] eqn:E; [|discriminate].
  rewrite (split_eq sep s Hs), E. rewrite (split_eq sep b Hs).
  apply split_once_app in E.
  destruct (split_once sep b) as [[p r]|] eqn:E'.
  - apply split_once_app in E'. exists a, p, (sep ++ r). split; [reflexivity|].
    rewrite E, E'. reflexivity.
  - exists a, b, []. split; [reflexivity|]. rewrite app_nil_r. exact E.
Qed.

End PyStrFacts.
Import PyStrFacts.

(** ** Facts on the normalization of the specialist *)

Module NormalizeFacts.

Lemma split_once_char c s :
  match split_once [c] s with
  | None => ~ In c s
  | Some (a, b) => s = a ++ c :: b /\ ~ In c a
  end.
Proof.
  induction s as [|x s IH]; simpl.
  - tauto.
  - destruct (N.eqb_spec c x) as [->|Hne].
    + split; [reflexivity | tauto].
    + destruct (split_once [c] s) as [[a b]|].
      * destruct IH as [-> Hin]. split; [reflexivity|].
        simpl. intros [E|E]; [congruence | tauto].
      * intros [E|E]; [congruence | tauto].
Qed.

Lemma first_line_id s : ~ In NL s -> first_line s = s.
Proof.
  induction s as [|x s IH]; simpl; [reflexivity|]. intros H.
  destruct (N.eqb_spec x NL) as [->|_]; [tauto|].
  f_equal. apply IH. tauto.
Qed.

Lemma first_line_app a b : ~ In NL a -> first_line (a ++ NL :: b) = a.
Proof.
  induction a as [|x a IH]; simpl; [reflexivity|]. intros H.
  destruct (N.eqb_spec x NL) as [->|_]; [tauto|].
  f_equal. apply IH. tauto.
Qed.

Lemma first_line_no_NL s : ~ In NL (first_line s).
Proof.
  induction s as [|x s IH]; simpl; [tauto|].
  destruct (N.eqb_spec x NL) as [->|Hne]; simpl; [tauto|].
  intros [E|E]; [congruence | tauto].
Qed.

Lemma drop_stars_id s : ~ In STAR s -> drop_stars s = s.
Proof.
  induction s as [|x s IH]; simpl; [reflexivity|]. intros H.
  destruct (N.eqb_spec x STAR) as [->|_]; [tauto|].
  simpl. f_equal. apply IH. tauto.
Qed.

Lemma drop_stars_In c s : In c (drop_stars s) <-> In c s /\ c <> STAR.
Proof.
  unfold drop_stars. rewrite filter_In, negb_true_iff, N.eqb_neq. tauto.
Qed.

Lemma split_NL_first s : index (split [NL] s) 0 = Ok (first_line s).
Proof.
  rewrite split_eq by discriminate.
  pose proof (split_once_char NL s) as H.
  destruct (split_once [NL] s) as [[a b]|]; simpl.
  - destruct H as [-> H]. rewrite first_line_app by exact H. reflexivity.
  - rewrite first_line_id by exact H. reflexivity.
Qed.

Lemma join_nil_cons x xs : join [] (x :: xs) = x ++ join [] xs.
Proof. destruct xs; simpl; [rewrite app_nil_r|]; reflexivity. Qed.

Lemma replace_star s : replace [STAR] [] s = drop_stars s.
Proof.
  unfold replace.
  remember (length s) as n eqn:Hn.
  assert (Hle : length s <= n) by lia. clear Hn.
  revert s Hle. induction n as [|n IH]; intros s Hle;
    rewrite split_eq by discriminate;
    pose proof (split_once_char STAR s) as H;
    destruct (split_once [STAR] s) as [[a b]|].
  - destruct H as [-> _]. rewrite length_app in Hle. simpl in Hle. lia.
  - simpl. symmetry. apply drop_stars_id, H.
  - destruct H as [-> H]. rewrite join_nil_cons, IH.
    + unfold drop_stars. rewrite filter_app. simpl.
      f_equal. symmetry. apply drop_stars_id, H.
    + rewrite length_app in Hle. simpl in Hle. lia.
  - simpl. symmetry. apply drop_stars_id, H.
Qed.

(** The normalization never raises and is the three steps in a row. *)
Lemma normalize_spec s :
  normalize s = Ok (drop_stars (first_line (strip s))).
Proof.
  unfold normalize. rewrite split_NL_first. simpl. rewrite replace_star.
  reflexivity.
Qed.

Lemma lstrip_In c s : In c (lstrip s) -> In c s.
Proof.
  induction s as [|x s IH]; simpl; [tauto|].
  destruct (isspace x); simpl; tauto.
Qed.

Lemma strip_In c s : In c (strip s) -> In c s.
Proof.
  unfold strip, rstrip. intros H.
  apply in_rev, lstrip_In in H. apply in_rev in H.
  apply lstrip_In, H.
Qed.

Lemma lstrip_head s :
  match lstrip s with
  | [] => True
  | c :: _ => isspace c = false
  end.
Proof.
  induction s as [|x s IH]; simpl; [exact I|].
  destruct (isspace x) eqn:E; [exact IH | exact E].
Qed.

Lemma lstrip_fixed s :
  match s with [] => True | c :: _ => isspace c = false end -> lstrip s = s.
Proof. destruct s as [|c s]; simpl; [reflexivity|]. intros ->. reflexivity. Qed.

Lemma lstrip_idem s : lstrip (lstrip s) = lstrip s.
Proof. apply lstrip_fixed, lstrip_head. Qed.

Lemma lstrip_last a c :
  isspace c = false -> exists r, lstrip (a ++ [c]) = r ++ [c].
Proof.
  intros Hc. induction a as [|x a IH]; simpl.
  - rewrite Hc. exists []. reflexivity.
  - destruct (isspace x); [exact IH|]. exists (x :: a). reflexivity.
Qed.

(** Trimming the right end keeps a left end that is already trimmed. *)
Lemma rstrip_head s :
  match s with [] => True | c :: _ => isspace c = false end ->
  match rstrip s with [] => True | c :: _ => isspace c = false end.
Proof.
  unfold rstrip. destruct s as [|c s]; simpl; [tauto|]. intros Hc.
  destruct (lstrip_last (rev s) c Hc) as [r ->].
  rewrite rev_app_distr. simpl. exact Hc.
Qed.

Lemma strip_idem s : strip (strip s) = strip s.
Proof.
  unfold strip at 1.
  rewrite (lstrip_fixed (strip s)).
  - unfold strip, rstrip. rewrite rev_involutive, lstrip_idem. reflexivity.
  - unfold strip. apply rstrip_head, lstrip_head.
Qed.

End NormalizeFacts.
Import NormalizeFacts.

(** ** The response parser: the four combinations of markers *)

Lemma SUMMARY_border_free : border_free SUMMARY.
Proof. apply border_freeb_sound. vm_compute. reflexivity. Qed.

Lemma SPECIALIST_border_free : border_free SPECIALIST.
Proof. apply border_freeb_sound. vm_compute. reflexivity. Qed.

Lemma ADVICE_border_free : border_free ADVICE.
Proof. apply border_freeb_sound. vm_compute. reflexivity. Qed.

Lemma SUMMARY_not_nil : SUMMARY <> [].
Proof. discriminate. Qed.

Lemma normalize_default : normalize default_specialist = Ok default_specialist.
Proof. rewrite normalize_spec. vm_compute. reflexivity. Qed.

(** Scenario A as the program runs it: the summary and the advice keep the
    blanks around them. *)
Example scenario_A :
  parsed_fields
    (lit "SUMMARY: Mild fracture SPECIALIST: Orthopedist ADVICE: See a doctor")
  = Ok (lit " Mild fracture ", lit "Orthopedist", lit " See a doctor").
Proof. vm_compute. reflexivity. Qed.

(** A second [SUMMARY:] ends the part of the text the parser looks at. *)
Example repeated_summary_marker :
  parsed_fields (lit "SUMMARY: a SUMMARY: b SPECIALIST: c ADVICE: d")
  = Ok (default_summary, default_specialist, default_advice).
Proof. vm_compute. reflexivity. Qed.

(** C1, as stated, fails on the scenario of the specification itself: the
    text holds the three markers in order, and the parser returns the summary
    and the advice with the blanks that surround them, not the trimmed
    values the claim gives. *)
Lemma C1_counterexample :
  let text :=
    lit "SUMMARY: Mild fracture SPECIALIST: Orthopedist ADVICE: See a doctor" in
  text = SUMMARY ++ lit " Mild fracture " ++ SPECIALIST ++ lit " Orthopedist "
         ++ ADVICE ++ lit " See a doctor"
  /\ parsed_fields text
     = Ok (lit " Mild fracture ", lit "Orthopedist", lit " See a doctor")
  /\ parsed_fields text
     <> Ok (lit "Mild fracture", lit "Orthopedist", lit "See a doctor").
Proof.
  split; [reflexivity|]. split; [vm_compute; reflexivity|].
  vm_compute. discriminate.
Qed.

(** C1 (amended): when the first [SUMMARY:] of the text is followed, before
    any further [SUMMARY:], by [SPECIALIST:] and then [ADVICE:], the parser
    returns as summary the text between that [SUMMARY:] and the first
    [SPECIALIST:] after it, unchanged; as specialist the text between that
    [SPECIALIST:] and the first [ADVICE:] after it, trimmed, cut to its first
    line and without asterisks; and as advice the text after that [ADVICE:]
    up to the next [SUMMARY:] or the end of the text, unchanged. *)
Theorem C1_parser_three_markers (pre X Y Z tail : str) :
  contains SUMMARY pre = false ->
  contains SUMMARY (X ++ SPECIALIST ++ Y ++ ADVICE ++ Z) = false ->
  contains SPECIALIST X = false ->
  contains ADVICE Y = false ->
  (tail = [] \/ exists t, tail = SUMMARY ++ t) ->
  parsed_fields (pre ++ SUMMARY ++ (X ++ SPECIALIST ++ Y ++ ADVICE ++ Z) ++ tail)
  = Ok (X, drop_stars (first_line (strip Y)), Z).
Proof.
  intros Hpre Hparts HX HY Htail.
  set (parts := X ++ SPECIALIST ++ Y ++ ADVICE ++ Z) in *.
  unfold parsed_fields, parse_response.
  rewrite contains_intro.
  rewrite (split_eq _ _ SUMMARY_not_nil).
  rewrite (first_occurrence _ _ _ SUMMARY_border_free Hpre).
  rewrite (split_eq _ _ SUMMARY_not_nil).
  match goal with
  | |- context [index ?l 1] => assert (E : index l 1 = Ok parts)
  end.
  { destruct Htail as [->|[t ->]].
    - rewrite app_nil_r, (split_once_none _ _ Hparts). reflexivity.
    - rewrite (first_occurrence _ _ _ SUMMARY_border_free Hparts). reflexivity. }
  rewrite E. cbn [rbind].
  assert (EX : split_once SPECIALIST parts = Some (X, Y ++ ADVICE ++ Z))
    by (apply (first_occurrence _ _ _ SPECIALIST_border_free HX)).
  assert (EY : split_once ADVICE (Y ++ ADVICE ++ Z) = Some (Y, Z))
    by (apply (first_occurrence _ _ _ ADVICE_border_free HY)).
  rewrite (contains_split_once SPECIALIST parts).
  unfold split_max1. rewrite EX. cbn [unpack2 rbind].
  rewrite (contains_split_once ADVICE), EY. cbn [unpack2 rbind].
  rewrite normalize_spec. reflexivity.
Qed.

Lemma C1_parser_three_markers_witness :
  let pre := @nil N in
  let X := lit " Mild fracture " in
  let Y := lit " Orthopedist " in
  let Z := lit " See a doctor" in
  contains SUMMARY pre = false
  /\ contains SUMMARY (X ++ SPECIALIST ++ Y ++ ADVICE ++ Z) = false
  /\ contains SPECIALIST X = false
  /\ contains ADVICE Y = false
  /\ parsed_fields
       (lit "SUMMARY: Mild fracture SPECIALIST: Orthopedist ADVICE: See a doctor")
     = Ok (lit " Mild fracture ", lit "Orthopedist", lit " See a doctor").
Proof.
  do 4 (split; [vm_compute; reflexivity|]).
  exact (C1_parser_three_markers [] (lit " Mild fracture ")
           (lit " Orthopedist ") (lit " See a doctor") []
           eq_refl eq_refl eq_refl eq_refl (or_introl eq_refl)).
Defined.

(** C2, as stated, fails: with [SUMMARY:] and no [SPECIALIST:] the summary is
    not the text that follows [SUMMARY:] but the default. *)
Lemma C2_counterexample :
  let text := lit "SUMMARY: Mild fracture" in
  contains SUMMARY text = true
  /\ contains SPECIALIST text = false
  /\ text = SUMMARY ++ lit " Mild fracture"
  /\ parsed_fields text
     = Ok (lit "Report Analyzed.", lit "General Physician",
           lit "Consultation recommended.")
  /\ lit "Report Analyzed." <> lit " Mild fracture".
Proof.
  repeat split; try (vm_compute; reflexivity). vm_compute. discriminate.
Qed.

(** C2 (amended): for every text that contains [SUMMARY:] but not
    [SPECIALIST:], the parser returns the three defaults; the summary too
    keeps its default. *)
Theorem C2_no_specialist_all_defaults (text : str) :
  contains SUMMARY text = true ->
  contains SPECIALIST text = false ->
  parsed_fields text = Ok (default_summary, default_specialist, default_advice).
Proof.
  intros HS HP. unfold parsed_fields, parse_response. rewrite HS.
  destruct (index1_split _ text SUMMARY_not_nil HS) as (a & parts & b & E & Ht).
  rewrite E. cbn [rbind].
  assert (Hparts : contains SPECIALIST parts = false).
  { apply (contains_infix SPECIALIST (a ++ SUMMARY) parts b).
    rewrite <- app_assoc. rewrite <- Ht. exact HP. }
  rewrite Hparts. cbn [rbind]. rewrite normalize_default. reflexivity.
Qed.

Lemma C2_no_specialist_all_defaults_witness :
  contains SUMMARY (lit "SUMMARY: Mild fracture") = true
  /\ contains SPECIALIST (lit "SUMMARY: Mild fracture") = false
  /\ parsed_fields (lit "SUMMARY: Mild fracture")
     = Ok (default_summary, default_specialist, default_advice).
Proof.
  split; [reflexivity|]. split; [reflexivity|].
  exact (C2_no_specialist_all_defaults (lit "SUMMARY: Mild fracture")
           eq_refl eq_refl).
Defined.

(** C3, as stated, fails: with [SUMMARY:] and [SPECIALIST:] and no [ADVICE:]
    the specialist is not taken from the text after [SPECIALIST:]; it keeps
    its default. *)
Lemma C3_counterexample :
  let text := lit "SUMMARY: Chest pain SPECIALIST: Cardiologist" in
  contains SUMMARY text = true
  /\ contains SPECIALIST text = true
  /\ contains ADVICE text = false
  /\ text = SUMMARY ++ lit " Chest pain " ++ SPECIALIST ++ lit " Cardiologist"
  /\ normalize (lit " Cardiologist") = Ok (lit "Cardiologist")
  /\ parsed_fields text
     = Ok (lit " Chest pain ", lit "General Physician",
           lit "Consultation recommended.")
  /\ lit "General Physician" <> lit "Cardiologist".
Proof.
  repeat split; try (vm_compute; reflexivity). vm_compute. discriminate.
Qed.

(** C3 (amended): for every text that contains [SUMMARY:] and [SPECIALIST:]
    but not [ADVICE:], specialist and advice both keep their defaults; the
    summary is the default or a text that stands between a [SUMMARY:] and a
    [SPECIALIST:]. *)
Theorem C3_no_advice_specialist_default (text : str) :
  contains SUMMARY text = true ->
  contains SPECIALIST text = true ->
  contains ADVICE text = false ->
  exists summary,
    parsed_fields text = Ok (summary, default_specialist, default_advice)
    /\ (summary = default_summary
        \/ exists a rest, text = a ++ SUMMARY ++ summary ++ SPECIALIST ++ rest).
Proof.
  intros HS _ HA. unfold parsed_fields, parse_response. rewrite HS.
  destruct (index1_split _ text SUMMARY_not_nil HS) as (a & parts & b & E & Ht).
  rewrite E. cbn [rbind].
  rewrite (contains_split_once SPECIALIST parts). unfold split_max1.
  destruct (split_once SPECIALIST parts) as [[summary rest]|] eqn:EP.
  - cbn [unpack2 rbind]. apply split_once_app in EP.
    assert (Hrest : contains ADVICE rest = false).
    { apply (contains_infix ADVICE (a ++ SUMMARY ++ summary ++ SPECIALIST) rest b).
      rewrite Ht, EP in HA. rewrite <- !app_assoc in *. exact HA. }
    rewrite Hrest. cbn [rbind]. rewrite normalize_default.
    exists summary. split; [reflexivity|]. right.
    exists a, (rest ++ b). rewrite Ht, EP, <- !app_assoc. reflexivity.
  - cbn [rbind]. rewrite normalize_default.
    exists default_summary. split; [reflexivity | left; reflexivity].
Qed.

Lemma C3_no_advice_specialist_default_witness :
  let text := lit "SUMMARY: Chest pain SPECIALIST: Cardiologist" in
  contains SUMMARY text = true
  /\ contains SPECIALIST text = true
  /\ contains ADVICE text = false
  /\ exists summary,
       parsed_fields text = Ok (summary, default_specialist, default_advice)
       /\ (summary = default_summary
           \/ exists a rest,
                text = a ++ SUMMARY ++ summary ++ SPECIALIST ++ rest).
Proof.
  split; [reflexivity|]. split; [reflexivity|]. split; [reflexivity|].
  exact (C3_no_advice_specialist_default
           (lit "SUMMARY: Chest pain SPECIALIST: Cardiologist")
           eq_refl eq_refl eq_refl).
Defined.

(** ** Normalization of the specialist *)

(** C9, as stated, fails: the first line of a text can end in a blank, which
    only a second normalization trims. *)
Lemma C9_counterexample :
  let s := lit "Cardiologist " ++ [NL] ++ lit "Heart specialist" in
  normalize s = Ok (lit "Cardiologist ")
  /\ normalize (lit "Cardiologist ") = Ok (lit "Cardiologist")
  /\ lit "Cardiologist" <> lit "Cardiologist ".
Proof.
  repeat split; try (vm_compute; reflexivity). vm_compute. discriminate.
Qed.

(** C9 (amended): normalizing a normalized string only trims it, and the
    result of that is stable: for every [s], with [t] the normalization of
    [s], the normalization of [t] is [strip t], and normalizing [strip t]
    returns it unchanged.  Normalization is idempotent on the strings whose
    normalization has no blank at either end. *)
Theorem C9_normalize_twice (s : str) :
  exists t,
    normalize s = Ok t
    /\ normalize t = Ok (strip t)
    /\ normalize (strip t) = Ok (strip t)
    /\ (strip t = t -> normalize t = Ok t).
Proof.
  exists (drop_stars (first_line (strip s))).
  set (t := drop_stars (first_line (strip s))).
  assert (HNL : ~ In NL t).
  { unfold t. rewrite drop_stars_In. intros [H _].
    exact (first_line_no_NL _ H). }
  assert (HST : ~ In STAR t).
  { unfold t. rewrite drop_stars_In. intros [_ H]. congruence. }
  assert (Hfix : forall u, ~ In NL u -> ~ In STAR u ->
                           drop_stars (first_line u) = u).
  { intros u H1 H2. rewrite (first_line_id _ H1). apply drop_stars_id, H2. }
  assert (E1 : normalize t = Ok (strip t)).
  { rewrite normalize_spec. f_equal. apply Hfix.
    - intros H. apply HNL. exact (strip_In _ _ H).
    - intros H. apply HST. exact (strip_In _ _ H). }
  split; [apply normalize_spec|]. split; [exact E1|]. split.
  - rewrite normalize_spec, strip_idem. f_equal. apply Hfix.
    + intros H. apply HNL. exact (strip_In _ _ H).
    + intros H. apply HST. exact (strip_In _ _ H).
  - intros E. rewrite E1, E. reflexivity.
Qed.

Lemma C9_normalize_twice_witness :
  normalize (lit " **Cardiologist**") = Ok (lit "Cardiologist")
  /\ strip (lit "Cardiologist") = lit "Cardiologist"
  /\ normalize (lit "Cardiologist") = Ok (lit "Cardiologist").
Proof.
  split; [vm_compute; reflexivity|]. split; [vm_compute; reflexivity|].
  destruct (C9_normalize_twice (lit " **Cardiologist**"))
    as (t & H1 & _ & _ & H4).
  assert (E : t = lit "Cardiologist").
  { rewrite normalize_spec in H1. injection H1 as <-.
    vm_compute. reflexivity. }
  subst t. apply H4. vm_compute. reflexivity.
Defined.

(** ** Grounding sources *)

Lemma sources_loop_lines chunks : forall i sources,
  fst (sources_loop i chunks sources) = sources ++ cited_lines i chunks.
Proof.
  induction chunks as [|c rest IH]; intros i sources; simpl.
  - rewrite app_nil_r. reflexivity.
  - unfold bind, lift. destruct (web c) as [[w|]|e]; simpl.
    + destruct (title w) as [t|e]; simpl; [|rewrite app_nil_r; reflexivity].
      destruct (uri w) as [u|e]; simpl; [|rewrite app_nil_r; reflexivity].
      rewrite IH, <- app_assoc. reflexivity.
    + apply IH.
    + rewrite app_nil_r. reflexivity.
Qed.

(** C7, as stated, fails: an access that raises after the chunk list was
    read leaves the lines built so far, here none, and not the fallback. *)
Lemma C7_counterexample :
  let broken := {| web := Raise AttributeError |} in
  let response :=
    {| text := Ok (lit "SUMMARY: a SPECIALIST: b ADVICE: c");
       candidates :=
         Ok [{| content_parts := Ok [];
                grounding_metadata :=
                  Ok {| grounding_chunks := Ok [broken] |} |}] |} in
  extract_sources response = ([], Ok tt)
  /\ fst (extract_sources response) <> lit "Verified via Google.".
Proof. split; [reflexivity | vm_compute; discriminate]. Qed.

(** C7 (amended): the extraction of the sources never raises.  When the
    access to the chunks of the first candidate fails (no candidate, no
    metadata, no chunk list, or an exception on the way) or yields no chunk,
    the sources are the literal ["Verified via Google."].  When it yields
    chunks, the fallback is dropped and the sources are the numbered lines of
    the chunks with a web citation, up to the first access that raises. *)
Theorem C7_sources_never_raise (response : Response) :
  snd (extract_sources response) = Ok tt
  /\ fst (extract_sources response)
     = match grounding_access response with
       | Raise _ => lit "Verified via Google."
       | Ok [] => lit "Verified via Google."
       | Ok (c :: rest) => cited_lines 0 (c :: rest)
       end.
Proof.
  split; [reflexivity|].
  unfold extract_sources, sources_block, try_pass, bind, lift. cbn [fst].
  destruct (grounding_access response) as [[|c rest]|e] eqn:E; cbn [fst];
    try reflexivity.
  cbn [modify]. exact (sources_loop_lines (c :: rest) 0 []).
Qed.

(** ** The booking tab *)

Ltac unfold_script :=
  unfold bind, ret, lift, raise, try_except, draw, call, set_session,
    set_world, modify, get_session, get in *.

Ltac split_cases :=
  repeat (cbn in *;
          match goal with
          | |- context [match ?x with _ => _ end] => destruct x eqn:?
          end).

(** C5: a booking submitted with an empty patient email or an empty doctor
    name writes no record, makes no call to the calendar or to any other
    integration, and leaves the session and the stores as they were; the
    submit block draws the warning and nothing else. *)
Theorem C5_incomplete_form_no_effect
    (env : Env) (cal : option str) (spec : str) (form : BookingForm)
    (st : State) :
  p_email form = [] \/ doc_name form = [] ->
  booking_submit env cal spec form st
  = ({| session := session st; world := world st;
        ui := ui st ++ [st_warning (lit "Fill details.")];
        calls := calls st |}, Ok tt)
  /\ snd (tab2 env cal form st) = Ok tt
  /\ session (fst (tab2 env cal form st)) = session st
  /\ world (fst (tab2 env cal form st)) = world st
  /\ calls (fst (tab2 env cal form st)) = calls st.
Proof.
  intros H.
  assert (E : nonempty (p_email form) && nonempty (doc_name form) = false).
  { destruct H as [-> | ->]; [reflexivity | apply andb_false_r]. }
  assert (B : booking_submit env cal spec form st
              = ({| session := session st; world := world st;
                    ui := ui st ++ [st_warning (lit "Fill details.")];
                    calls := calls st |}, Ok tt)).
  { unfold booking_submit. rewrite E. reflexivity. }
  split; [exact B|].
  unfold tab2, booking_submit. rewrite E. unfold_script. cbn.
  destruct (truthy (analysis_result (session st))); cbn;
    [destruct (submitted form); cbn|]; repeat split; reflexivity.
Qed.

(** What the report composer returns depends on its arguments and on the
    services, not on the state it runs in. *)
Lemma create_professional_pdf_result env summary doctors sources appt st st' :
  snd (create_professional_pdf env summary doctors sources appt st)
  = snd (create_professional_pdf env summary doctors sources appt st').
Proof.
  unfold create_professional_pdf. unfold_script.
  destruct summary, sources, appt as [a|]; cbn;
    try destruct (nonempty a); cbn;
    repeat match goal with
           | |- context [pdf_output ?e ?d ?p] =>
               destruct (pdf_output e d p) as [[]|m]; cbn
           | |- context [upload_from_filename ?e ?p] =>
               destruct (upload_from_filename e p) as [[]|m]; cbn
           end; reflexivity.
Qed.

(** The composer never raises: it returns a path under [/tmp], or a null
    path with the text of the error. *)
Lemma create_professional_pdf_total env summary doctors sources appt st :
  exists path info,
    snd (create_professional_pdf env summary doctors sources appt st)
    = Ok (path, info)
    /\ (path = None
        \/ path = Some (lit "/tmp/Report_" ++ str_of_N (now env) ++ lit ".pdf")).
Proof.
  unfold create_professional_pdf. unfold_script.
  destruct summary, sources, appt as [a|]; cbn;
    try destruct (nonempty a); cbn;
    repeat match goal with
           | |- context [pdf_output ?e ?d ?p] =>
               destruct (pdf_output e d p) as [[]|m]; cbn
           | |- context [upload_from_filename ?e ?p] =>
               destruct (upload_from_filename e p) as [[]|m]; cbn
           end; eexists; eexists; (split; [reflexivity|]); auto.
Qed.

(** The composer once the PDF is written: the upload decides. *)
Lemma create_professional_pdf_upload
    (env : Env) (summary doctors sources : str) (appt : option str)
    (st : State) :
  (forall doc p, pdf_output env doc p = Answer tt) ->
  let r := create_professional_pdf env (Some summary) doctors (Some sources)
             appt st in
  session (fst r) = session st
  /\ ui (fst r) = ui st
  /\ match upload_from_filename env (report_path env) with
     | Answer _ =>
         snd r = Ok (Some (report_path env),
                     lit "gs://" ++ BUCKET_NAME ++ lit "/" ++ report_filename env)
         /\ world (fst r)
            = add_blob (report_filename env)
                (add_tmp_file (report_path env) (world st))
     | Failure msg =>
         snd r = Ok (None, msg)
         /\ world (fst r) = add_tmp_file (report_path env) (world st)
     end.
Proof.
  intros Hpdf r. subst r.
  unfold create_professional_pdf, report_path, report_filename.
  unfold_script.
  destruct appt as [a|]; cbn; try destruct (nonempty a); cbn;
    rewrite Hpdf; cbn;
    match goal with
    | |- context [upload_from_filename ?e ?p] =>
        destruct (upload_from_filename e p) as [[]|m]; cbn
    end; auto.
Qed.

(** The booking block on a complete form, step by step. *)
Lemma booking_submit_steps env cal spec form st :
  nonempty (p_email form) = true ->
  nonempty (doc_name form) = true ->
  booking_submit env cal spec form st
  = let (st1, r1) := block_hospital_calendar env cal (p_email form)
                       (doc_name form) (appt_date form) (appt_time form) st in
    match r1 with
    | Raise e => (st1, Raise e)
    | Ok _ =>
        match appointments_write env (booking_record env spec form) with
        | Failure msg =>
            (attempted_state env form st1, Raise (ServiceError msg))
        | Answer _ =>
            let (st3, r3) :=
              create_professional_pdf env (analysis_result (session st1))
                (booking_details form) (sources_clean (session st1))
                (Some (booking_details form))
                (booked_state env spec form st1) in
            match r3 with
            | Raise e => (st3, Raise e)
            | Ok (Some path, _) => (offer_pass path st3, Ok tt)
            | Ok (None, _) => (st3, Raise TypeError)
            end
        end
    end.
Proof.
  intros He Hd. unfold booking_submit. rewrite He, Hd. cbn [andb].
  unfold bind at 1.
  destruct (block_hospital_calendar env cal (p_email form) (doc_name form)
              (appt_date form) (appt_time form) st) as [st1 [[ok res]|e]];
    [|reflexivity].
  remember (create_professional_pdf env) as pdf eqn:Epdf.
  remember (appointments_write env (booking_record env spec form)) as w
    eqn:Ew.
  unfold booked_state, attempted_state, appointments_add. unfold_script.
  cbn. rewrite <- Ew. destruct w as [u|msg]; cbn; [|reflexivity].
  match goal with
  | |- context [pdf ?a ?b ?c ?d ?s] => destruct (pdf a b c d s) as [st3 r3]
  end.
  destruct r3 as [[[p|] l]|e]; reflexivity.
Qed.

Lemma block_hospital_calendar_frame env cal p d date time st :
  let st1 := fst (block_hospital_calendar env cal p d date time st) in
  session st1 = session st
  /\ appointments (world st1) = appointments (world st)
  /\ ui st1 = ui st
  /\ calls st1 = calls st ++ [call_block_hospital_calendar].
Proof.
  unfold block_hospital_calendar. unfold_script. cbn.
  match goal with
  | |- context [events_insert ?e ?ev] =>
      destruct (events_insert e ev) as [l|m]; cbn
  end; auto.
Qed.

Lemma create_professional_pdf_frame env summary doctors sources appt st :
  let st3 := fst (create_professional_pdf env summary doctors sources appt st) in
  session st3 = session st
  /\ appointments (world st3) = appointments (world st)
  /\ ui st3 = ui st
  /\ calls st3 = calls st ++ [call_create_professional_pdf].
Proof.
  unfold create_professional_pdf. unfold_script.
  destruct summary, sources, appt as [a|]; cbn;
    try destruct (nonempty a); cbn;
    repeat match goal with
           | |- context [pdf_output ?e ?d ?p] =>
               destruct (pdf_output e d p) as [[]|m]; cbn
           | |- context [upload_from_filename ?e ?p] =>
               destruct (upload_from_filename e p) as [[]|m]; cbn
           end; auto.
Qed.

Lemma block_hospital_calendar_total env cal p d date time st :
  exists v, snd (block_hospital_calendar env cal p d date time st) = Ok v.
Proof.
  unfold block_hospital_calendar. unfold_script. cbn.
  match goal with
  | |- context [events_insert ?e ?ev] =>
      destruct (events_insert e ev) as [l|m]; cbn
  end; eexists; reflexivity.
Qed.

(** What the booking block leaves behind on a complete form when the write
    of the record is accepted, in terms of what the report composer returns;
    the calendar does not occur in it. *)
Lemma booking_submit_outcome env cal spec form st :
  nonempty (p_email form) = true ->
  nonempty (doc_name form) = true ->
  appointments_write env (booking_record env spec form) = Answer tt ->
  let r := snd (create_professional_pdf env (analysis_result (session st))
                  (booking_details form) (sources_clean (session st))
                  (Some (booking_details form)) st) in
  let st' := fst (booking_submit env cal spec form st) in
  appointments (world st')
  = appointments (world st) ++ [booking_record env spec form]
  /\ calls st' = calls st ++ [call_block_hospital_calendar;
                              call_generate_google_calendar_link;
                              call_appointments_add;
                              call_create_professional_pdf]
  /\ snd (booking_submit env cal spec form st)
     = match r with
       | Ok (Some _, _) => Ok tt
       | Ok (None, _) => Raise TypeError
       | Raise e => Raise e
       end
  /\ ui st'
     = match r with
       | Ok (Some path, _) => ui (offer_pass path (booked_state env spec form st))
       | _ => ui (booked_state env spec form st)
       end.
Proof.
  intros He Hd Hw r st'. subst r st'.
  rewrite (booking_submit_steps env cal spec form st He Hd).
  pose proof (block_hospital_calendar_frame env cal (p_email form)
                (doc_name form) (appt_date form) (appt_time form) st) as Hb.
  destruct (block_hospital_calendar_total env cal (p_email form)
              (doc_name form) (appt_date form) (appt_time form) st) as [v Hv].
  destruct (block_hospital_calendar env cal (p_email form) (doc_name form)
              (appt_date form) (appt_time form) st) as [st1 r1].
  cbn [fst snd] in Hb, Hv. subst r1. destruct Hb as (Hs & Ha & Hu & Hc).
  rewrite Hw, Hs.
  pose proof (create_professional_pdf_frame env
                (analysis_result (session st)) (booking_details form)
                (sources_clean (session st)) (Some (booking_details form))
                (booked_state env spec form st1)) as Hp.
  pose proof (create_professional_pdf_result env
                (analysis_result (session st)) (booking_details form)
                (sources_clean (session st)) (Some (booking_details form))
                (booked_state env spec form st1) st) as Hres.
  destruct (create_professional_pdf env (analysis_result (session st))
              (booking_details form) (sources_clean (session st))
              (Some (booking_details form)) (booked_state env spec form st1))
    as [st3 r3].
  cbn [fst snd] in Hp, Hres. destruct Hp as (_ & Hpa & Hpu & Hpc).
  rewrite <- Hres.
  assert (Happ : appointments (world st3)
                 = appointments (world st) ++ [booking_record env spec form]).
  { rewrite Hpa. cbn. rewrite Ha. reflexivity. }
  assert (Hcalls : calls st3
                   = calls st ++ [call_block_hospital_calendar;
                                  call_generate_google_calendar_link;
                                  call_appointments_add;
                                  call_create_professional_pdf]).
  { rewrite Hpc. cbn. rewrite Hc, <- !app_assoc. reflexivity. }
  assert (Hui : ui st3 = ui (booked_state env spec form st)).
  { rewrite Hpu. cbn [booked_state ui]. rewrite Hu. reflexivity. }
  destruct r3 as [[[p|] l]|e]; cbn [fst snd offer_pass world calls ui];
    rewrite ?Hui; auto.
Qed.

(** The booking block on a complete form when the write of the record is
    refused: the exception of the write leaves the block after the link is
    drawn; no record is saved and the report composer is not called. *)
Lemma booking_submit_write_refused env cal spec form st msg :
  nonempty (p_email form) = true ->
  nonempty (doc_name form) = true ->
  appointments_write env (booking_record env spec form) = Failure msg ->
  let st' := fst (booking_submit env cal spec form st) in
  snd (booking_submit env cal spec form st) = Raise (ServiceError msg)
  /\ session st' = session st
  /\ appointments (world st') = appointments (world st)
  /\ ui st' = ui (booked_state env spec form st)
  /\ calls st' = calls st ++ [call_block_hospital_calendar;
                              call_generate_google_calendar_link;
                              call_appointments_add].
Proof.
  intros He Hd Hw st'. subst st'.
  rewrite (booking_submit_steps env cal spec form st He Hd).
  pose proof (block_hospital_calendar_frame env cal (p_email form)
                (doc_name form) (appt_date form) (appt_time form) st) as Hb.
  destruct (block_hospital_calendar_total env cal (p_email form)
              (doc_name form) (appt_date form) (appt_time form) st) as [v Hv].
  destruct (block_hospital_calendar env cal (p_email form) (doc_name form)
              (appt_date form) (appt_time form) st) as [st1 r1].
  cbn [fst snd] in Hb, Hv. subst r1. destruct Hb as (Hs & Ha & Hu & Hc).
  rewrite Hw. cbn [fst snd attempted_state booked_state session world ui calls].
  rewrite Hu, Hc, <- !app_assoc. auto.
Qed.

(** C4, as stated, fails at two inputs with the calendar down and the form
    complete.  With the upload to the bucket down as well, the calendar write
    returns failure, one record is saved, and no booking pass is offered.
    With Firestore down instead, the calendar write returns failure, the
    write of the record raises, and the run of the script saves no record,
    offers no booking pass and ends on the traceback. *)
Lemma C4_counterexample :
  let form := sample_form (lit "a@x.com") (lit "Dr. Rao") true in
  (let env := sample_env true false false in
   let st := analysed_state env in
   let st' := fst (booking_submit env None (lit "Orthopedist") form st) in
   nonempty (p_email form) = true
   /\ nonempty (doc_name form) = true
   /\ snd (block_hospital_calendar env None (p_email form) (doc_name form)
             (appt_date form) (appt_time form) st)
      = Ok (false, lit "403 Forbidden")
   /\ appointments (world st')
      = appointments (world st)
        ++ [booking_record env (lit "Orthopedist") form]
   /\ existsb is_download (ui st') = false)
  /\ (let env := with_firestore_down (lit "503 Unavailable")
                   (sample_env true false true) in
      let st := analysed_state env in
      let st' := run env (booking_inputs (lit "a@x.com") (lit "Dr. Rao")) st in
      nonempty (p_email form) = true
      /\ nonempty (doc_name form) = true
      /\ snd (block_hospital_calendar env (Some (lit "secret-value"))
                (p_email form) (doc_name form) (appt_date form)
                (appt_time form) st)
         = Ok (false, lit "403 Forbidden")
      /\ snd (booking_submit env (Some (lit "secret-value"))
                (lit "Orthopedist") form st)
         = Raise (ServiceError (lit "503 Unavailable"))
      /\ appointments (world st') = appointments (world st)
      /\ existsb is_download (ui st') = false
      /\ last (ui st') st_divider
         = st_exception (ServiceError (lit "503 Unavailable"))).
Proof. vm_compute. repeat split; reflexivity. Qed.

(** C4 (amended): for a booking submitted with a patient email and a doctor
    name, a write to the clinic calendar that returns failure stops no later
    step: the block still draws the link for the patient's calendar and
    still calls the write of the record.  When that write is accepted,
    exactly one record, with status Confirmed and the current time, is
    appended to the appointments and the report composer is called; when
    moreover the session holds a summary and sources, the PDF is written and
    the upload is accepted, the block ends without an exception on the offer
    of the booking pass at the path of the report.  With any other calendar,
    one that succeeds included, the block ends the same way, draws the same
    widgets and saves the same records. *)
Theorem C4_calendar_failure_still_books
    (env : Env) (cal : option str) (spec : str) (form : BookingForm)
    (st : State) (msg : str) :
  nonempty (p_email form) = true ->
  nonempty (doc_name form) = true ->
  snd (block_hospital_calendar env cal (p_email form) (doc_name form)
         (appt_date form) (appt_time form) st) = Ok (false, msg) ->
  let st' := fst (booking_submit env cal spec form st) in
  let record := booking_record env spec form in
  (exists more,
     ui st'
     = (ui st
        ++ [st_success ([0x2705]%N ++ lit " Slot Blocked for "
                        ++ doc_name form ++ lit "!");
            st_markdown
              (lit "### " ++ [0x1F449]%N
               ++ lit " [Click here to Add to YOUR Calendar]("
               ++ generate_google_calendar_link env (p_email form)
                    (doc_name form) (appt_date form) (appt_time form)
               ++ lit ")")])
       ++ more)
  /\ (exists more,
        calls st' = calls st ++ [call_block_hospital_calendar;
                                 call_generate_google_calendar_link;
                                 call_appointments_add] ++ more)
  /\ status record = lit "Confirmed"
  /\ timestamp record = now env
  /\ (appointments_write env record = Answer tt ->
      appointments (world st') = appointments (world st) ++ [record]
      /\ calls st' = calls st ++ [call_block_hospital_calendar;
                                  call_generate_google_calendar_link;
                                  call_appointments_add;
                                  call_create_professional_pdf]
      /\ forall summary sources,
           analysis_result (session st) = Some summary ->
           sources_clean (session st) = Some sources ->
           (forall doc p, pdf_output env doc p = Answer tt) ->
           upload_from_filename env (report_path env) = Answer tt ->
           snd (booking_submit env cal spec form st) = Ok tt
           /\ exists drawn,
                ui st' = drawn ++ [st_download_button
                                     ([0x2B07; 0xFE0F]%N
                                      ++ lit " Download Booking Pass")
                                     (report_path env) (lit "Pass.pdf")
                                     (lit "application/pdf")])
  /\ (forall f,
        let st_f := fst (booking_submit (with_calendar f env) cal spec form st) in
        snd (booking_submit (with_calendar f env) cal spec form st)
        = snd (booking_submit env cal spec form st)
        /\ ui st_f = ui st'
        /\ appointments (world st_f) = appointments (world st')).
Proof.
  intros He Hd _ st' record. subst st' record.
  assert (Hbooked : ui (booked_state env spec form st)
                    = ui st
                      ++ [st_success ([0x2705]%N ++ lit " Slot Blocked for "
                                      ++ doc_name form ++ lit "!");
                          st_markdown
                            (lit "### " ++ [0x1F449]%N
                             ++ lit " [Click here to Add to YOUR Calendar]("
                             ++ generate_google_calendar_link env
                                  (p_email form) (doc_name form)
                                  (appt_date form) (appt_time form)
                             ++ lit ")")]).
  { cbn [booked_state ui]. rewrite <- app_assoc. reflexivity. }
  rewrite <- Hbooked.
  destruct (appointments_write env (booking_record env spec form))
    as [[]|wmsg] eqn:Hw.
  - destruct (booking_submit_outcome env cal spec form st He Hd Hw)
      as (Ha & Hc & Hr & Hu).
    split.
    { rewrite Hu.
      destruct (snd (create_professional_pdf env
                       (analysis_result (session st)) (booking_details form)
                       (sources_clean (session st))
                       (Some (booking_details form)) st)) as [[[p|] l]|e].
      - eexists. reflexivity.
      - exists []. rewrite app_nil_r. reflexivity.
      - exists []. rewrite app_nil_r. reflexivity. }
    split; [exists [call_create_professional_pdf]; exact Hc|].
    split; [reflexivity|]. split; [reflexivity|]. split.
    + intros _. split; [exact Ha|]. split; [exact Hc|].
      intros summary sources Ea Es Hpdf Hup.
      rewrite Ea, Es in Hr, Hu.
      destruct (create_professional_pdf_upload env summary
                  (booking_details form) sources
                  (Some (booking_details form)) st Hpdf) as (_ & _ & H).
      rewrite Hup in H. destruct H as [H _]. rewrite H in Hr, Hu.
      split; [exact Hr|]. rewrite Hu. eexists. reflexivity.
    + intros f st_f. subst st_f.
      destruct (booking_submit_outcome (with_calendar f env) cal spec form st
                  He Hd Hw) as (Ha' & _ & Hr' & Hu').
      rewrite Hr, Hu, Ha, Hr', Hu', Ha'. repeat split; reflexivity.
  - destruct (booking_submit_write_refused env cal spec form st wmsg He Hd Hw)
      as (Hr & _ & Ha & Hu & Hc).
    split; [exists []; rewrite app_nil_r; exact Hu|].
    split; [exists []; rewrite app_nil_r; exact Hc|].
    split; [reflexivity|]. split; [reflexivity|]. split.
    + discriminate.
    + intros f st_f. subst st_f.
      destruct (booking_submit_write_refused (with_calendar f env) cal spec
                  form st wmsg He Hd Hw) as (Hr' & _ & Ha' & Hu' & _).
      rewrite Hr, Hu, Ha, Hr', Hu', Ha'. repeat split; reflexivity.
Qed.

(** ** Frames of the parts of the script *)

Lemma get_secret_quiet env secret_id st :
  quiet st (fst (get_secret env secret_id st)).
Proof.
  unfold get_secret, quiet. unfold_script.
  match goal with
  | |- context [vault ?e ?n] => destruct (vault e n) as [p|m]; cbn
  end; auto.
Qed.

Lemma tab1_frame env file city pressed st :
  let st' := fst (tab1 env file city pressed st) in
  appointments (world st') = appointments (world st)
  /\ authenticated (session st') = authenticated (session st)
  /\ (analysis_result (session st') = None ->
      analysis_result (session st) = None /\ calls st' = calls st).
Proof.
  unfold tab1, create_professional_pdf, open_rb. unfold_script.
  destruct file as [file|]; [|cbn; auto].
  destruct pressed; [|cbn; auto].
  destruct (generate_content env file prompt) as [response|m]; cbn; auto.
  all: destruct (get_clean_text response) as [text|[]]; cbn; auto.
  all: destruct (parse_response text) as [[[summary specialist] advice]|[]];
    cbn; auto.
  all: destruct (normalize specialist) as [sp|[]]; cbn; auto.
  all: destruct (extract_sources response) as [sources r]; cbn.
  all: repeat match goal with
              | |- context [pdf_output ?e ?d ?p] =>
                  destruct (pdf_output e d p) as [[]|m]; cbn
              | |- context [upload_from_filename ?e ?p] =>
                  destruct (upload_from_filename e p) as [[]|m]; cbn
              end.
  all: repeat split; auto; discriminate.
Qed.

Lemma booking_submit_session env cal spec form st :
  session (fst (booking_submit env cal spec form st)) = session st.
Proof.
  destruct (nonempty (p_email form) && nonempty (doc_name form)) eqn:E.
  - apply andb_true_iff in E. destruct E as [He Hd].
    rewrite (booking_submit_steps env cal spec form st He Hd).
    pose proof (block_hospital_calendar_frame env cal (p_email form)
                  (doc_name form) (appt_date form) (appt_time form) st) as Hb.
    destruct (block_hospital_calendar env cal (p_email form) (doc_name form)
                (appt_date form) (appt_time form) st) as [st1 r1].
    cbn [fst] in Hb. destruct Hb as (Hs & _).
    destruct r1 as [x|e]; [|exact Hs].
    destruct (appointments_write env (booking_record env spec form))
      as [u|wmsg]; [|exact Hs].
    pose proof (create_professional_pdf_frame env
                  (analysis_result (session st1)) (booking_details form)
                  (sources_clean (session st1)) (Some (booking_details form))
                  (booked_state env spec form st1)) as Hp.
    destruct (create_professional_pdf env (analysis_result (session st1))
                (booking_details form) (sources_clean (session st1))
                (Some (booking_details form)) (booked_state env spec form st1))
      as [st3 r3].
    cbn [fst] in Hp. destruct Hp as (Hs3 & _).
    destruct r3 as [[[p|] l]|e]; cbn; rewrite Hs3; exact Hs.
  - unfold booking_submit. rewrite E. reflexivity.
Qed.

Lemma tab2_session env cal form st :
  session (fst (tab2 env cal form st)) = session st.
Proof.
  unfold tab2. unfold bind at 1. cbn [draw modify].
  unfold bind at 1. cbn [get_session session].
  destruct (truthy (analysis_result (session st))); [|reflexivity].
  do 5 (unfold bind at 1; cbn [draw modify session]).
  destruct (submitted form); [|reflexivity].
  rewrite booking_submit_session. reflexivity.
Qed.

(** Without an analysis the booking tab draws its header and the warning,
    and does nothing else. *)
Lemma tab2_gate env cal form st :
  truthy (analysis_result (session st)) = false ->
  tab2 env cal form st
  = ({| session := session st; world := world st;
        ui := (ui st ++ [st_header ([0x1F4C5]%N ++ lit " Doctor Appointment")])
              ++ [st_warning (lit "Analyze report first.")];
        calls := calls st |}, Ok tt).
Proof.
  intros H. unfold tab2. unfold_script. cbn. rewrite H. reflexivity.
Qed.

Lemma admin_dashboard_frame env secret inp st :
  let st' := fst (admin_dashboard env secret inp st) in
  analysis_result (session st') = analysis_result (session st)
  /\ world st' = world st
  /\ calls st' = calls st.
Proof.
  unfold admin_dashboard, check_auth, login_screen, logout. unfold_script.
  cbn. destruct (authenticated (session st)); cbn.
  - destruct (logout_button inp); cbn; auto.
    destruct (refresh inp); cbn; auto.
    destruct (reports_stream env) as [[]|m]; cbn; auto.
    destruct (reports (world st)); cbn; auto.
  - destruct (authenticate inp); cbn; auto.
    destruct (eq_secret (pwd inp) secret); cbn; auto.
Qed.

(** ** Relations kept by every step of a run *)

Section Steps.

Variable R : State -> State -> Prop.
Hypothesis R_trans : forall a b c, R a b -> R b c -> R a c.

Lemma keeps_bind {A B} (m : Script A) (k : A -> Script B) :
  keeps R m -> (forall a, keeps R (k a)) -> keeps R (bind m k).
Proof.
  intros Hm Hk st. unfold bind. specialize (Hm st).
  destruct (m st) as [st1 [a|e]]; cbn [fst] in *; [|exact Hm].
  apply (R_trans _ _ _ Hm). apply Hk.
Qed.

End Steps.

Ltac step_bind R R_trans :=
  match goal with
  | |- keeps _ (bind _ _) => apply (keeps_bind R R_trans); [|intros ?]
  end.

Lemma no_booking_step_refl st : no_booking_step st st.
Proof. intros H. auto. Qed.

Lemma no_booking_step_trans a b c :
  no_booking_step a b -> no_booking_step b c -> no_booking_step a c.
Proof.
  intros Hab Hbc Hc. destruct (Hbc Hc) as (Hb & E1 & E2).
  destruct (Hab Hb) as (Ha & E3 & E4).
  split; [exact Ha|]. split; congruence.
Qed.

Lemma quiet_no_booking_step st st' : quiet st st' -> no_booking_step st st'.
Proof.
  intros (Hs & Hw & Hc) H. rewrite Hs in H. rewrite Hw, Hc. auto.
Qed.

Lemma draw_quiet w st : quiet st (fst (draw w st)).
Proof. unfold quiet. cbn. auto. Qed.

Lemma app_no_booking_step env inp st : no_booking_step st (fst (app env inp st)).
Proof.
  revert st. change (keeps no_booking_step (app env inp)). unfold app.
  repeat step_bind no_booking_step no_booking_step_trans;
    try (intros st; apply quiet_no_booking_step;
         first [apply get_secret_quiet | apply draw_quiet]).
  destruct (mode inp).
  - repeat step_bind no_booking_step no_booking_step_trans.
    + intros st. apply quiet_no_booking_step, draw_quiet.
    + intros st H.
      destruct (tab1_frame env (uploaded_file inp) (city_input inp)
                  (process_record inp) st) as (E1 & _ & E2).
      destruct (E2 H) as [E3 E4]. auto.
    + intros st H. rewrite tab2_session in H.
      assert (T : truthy (analysis_result (session st)) = false)
        by (rewrite H; reflexivity).
      rewrite (tab2_gate env a0 (form inp) st T). cbn. auto.
  - intros st H.
    destruct (admin_dashboard_frame env a inp st) as (E1 & E2 & E3).
    rewrite E1 in H. rewrite E2, E3. auto.
Qed.

Lemma clear_ui_quiet st : quiet st (clear_ui st).
Proof. unfold quiet. cbn. auto. Qed.

Lemma show_exception_quiet st r : quiet st (show_exception (st, r)).
Proof. destruct r; unfold quiet; cbn; auto. Qed.

Lemma run_no_booking_step env inp st : no_booking_step st (run env inp st).
Proof.
  unfold run.
  pose proof (app_no_booking_step env inp (clear_ui st)) as H1.
  apply (no_booking_step_trans st (clear_ui st));
    [apply quiet_no_booking_step, clear_ui_quiet|].
  destruct (app env inp (clear_ui st)) as [st1 r1]. cbn [fst] in H1.
  assert (Hshow : forall r, no_booking_step (clear_ui st)
                              (show_exception (st1, r))).
  { intros r. apply (no_booking_step_trans _ st1); [exact H1|].
    apply quiet_no_booking_step, show_exception_quiet. }
  destruct r1 as [x|e]; [apply Hshow|].
  destruct e; try apply Hshow.
  apply (no_booking_step_trans _ st1); [exact H1|].
  apply (no_booking_step_trans _ (clear_ui st1));
    [apply quiet_no_booking_step, clear_ui_quiet|].
  pose proof (app_no_booking_step env (released inp) (clear_ui st1)) as H2.
  destruct (app env (released inp) (clear_ui st1)) as [st2 r2].
  cbn [fst] in H2.
  apply (no_booking_step_trans _ st2); [exact H2|].
  apply quiet_no_booking_step, show_exception_quiet.
Qed.

(** C8: in every state a session can reach, as long as the analysis result
    is null no record has been added to the appointments and no integration
    has been called, and the booking tab run in that state, whatever the form
    holds, draws the warning and changes nothing else. *)
Theorem C8_no_booking_without_analysis
    (w0 : World) (st : State) (env : Env) (cal : option str)
    (form : BookingForm) :
  reachable w0 st ->
  analysis_result (session st) = None ->
  appointments (world st) = appointments w0
  /\ calls st = []
  /\ tab2 env cal form st
     = ({| session := session st; world := world st;
           ui := (ui st
                  ++ [st_header ([0x1F4C5]%N ++ lit " Doctor Appointment")])
                 ++ [st_warning (lit "Analyze report first.")];
           calls := calls st |}, Ok tt).
Proof.
  intros Hr Hnone.
  assert (Inv : appointments (world st) = appointments w0 /\ calls st = []).
  { revert Hnone. induction Hr as [|env' inp st Hr IH]; intros Hnone.
    - cbn. auto.
    - destruct (run_no_booking_step env' inp st Hnone) as (H0 & Ha & Hc).
      destruct (IH H0) as [IHa IHc]. split; congruence. }
  destruct Inv as [Ha Hc]. split; [exact Ha|]. split; [exact Hc|].
  apply tab2_gate. rewrite Hnone. reflexivity.
Qed.

(** ** The admin login *)

Lemma auth_kept_trans a b c : auth_kept a b -> auth_kept b c -> auth_kept a c.
Proof. unfold auth_kept. congruence. Qed.

Lemma quiet_auth_kept st st' : quiet st st' -> auth_kept st st'.
Proof. intros (Hs & _). unfold auth_kept. rewrite Hs. reflexivity. Qed.

Lemma get_secret_failure env secret_id msg st :
  vault env (secret_name secret_id) = Failure msg ->
  get_secret env secret_id st
  = (fst (draw (st_error (lit "Security Error: Could not fetch " ++ secret_id
                          ++ lit ". Check IAM permissions.")) st), Ok None).
Proof.
  intros H. unfold get_secret. cbv zeta. unfold_script. rewrite H. reflexivity.
Qed.

Lemma get_secret_total env secret_id st :
  exists v, snd (get_secret env secret_id st) = Ok v.
Proof.
  unfold get_secret. cbv zeta. unfold_script.
  destruct (vault env (secret_name secret_id)); cbn; eexists; reflexivity.
Qed.

(** With a null secret the login screen denies every key. *)
Lemma login_screen_null pwd st :
  login_screen None pwd true st
  = ({| session := session st; world := world st;
        ui := (ui st ++ [st_markdown (lit "### " ++ [0x1F6E1; 0xFE0F]%N
                                      ++ lit " Admin Portal Access")])
              ++ [st_error (lit "Access Denied")];
        calls := calls st |}, Ok tt).
Proof. reflexivity. Qed.

Lemma admin_dashboard_null env inp st :
  authenticated (session st) = false ->
  snd (admin_dashboard env None inp st) = Ok tt
  /\ session (fst (admin_dashboard env None inp st)) = session st
  /\ (authenticate inp = true ->
      exists drawn,
        ui (fst (admin_dashboard env None inp st))
        = drawn ++ [st_error (lit "Access Denied")]).
Proof.
  intros H. unfold admin_dashboard, check_auth. unfold_script. cbn.
  rewrite H. cbn. unfold login_screen. unfold_script. cbn.
  destruct (authenticate inp); cbn.
  - repeat split; auto. intros _. eexists. reflexivity.
  - repeat split; auto. discriminate.
Qed.

Lemma kiosk_auth_kept env cal inp w :
  keeps auth_kept
    (draw w ;;
     tab1 env (uploaded_file inp) (city_input inp) (process_record inp) ;;
     tab2 env cal (form inp))%monad.
Proof.
  repeat step_bind auth_kept auth_kept_trans.
  - intros st. apply quiet_auth_kept, draw_quiet.
  - intros st.
    destruct (tab1_frame env (uploaded_file inp) (city_input inp)
                (process_record inp) st) as (_ & E & _).
    exact E.
  - intros st. unfold auth_kept. rewrite tab2_session. reflexivity.
Qed.

Lemma app_null_secret env inp st msg :
  vault env (secret_name (lit "app-admin-password")) = Failure msg ->
  authenticated (session st) = false ->
  authenticated (session (fst (app env inp st))) = false
  /\ (mode inp = AdminDashboard ->
      snd (app env inp st) = Ok tt
      /\ (authenticate inp = true ->
          exists drawn,
            ui (fst (app env inp st))
            = drawn ++ [st_error (lit "Access Denied")])).
Proof.
  intros Hv Ha.
  assert (E : exists st3 cal,
             authenticated (session st3) = false
             /\ app env inp st
                = match mode inp with
                  | PatientKiosk =>
                      (draw (st_title ([0x1FA7A]%N
                                       ++ lit " Patient Service Portal")) ;;
                       tab1 env (uploaded_file inp) (city_input inp)
                         (process_record inp) ;;
                       tab2 env cal (form inp))%monad
                  | AdminDashboard => admin_dashboard env None inp
                  end st3).
  { unfold app. unfold bind at 1.
    rewrite (get_secret_failure env _ msg st Hv).
    set (st1 := fst (draw _ st)).
    assert (H1 : authenticated (session st1) = false) by exact Ha.
    clearbody st1. unfold bind at 1.
    pose proof (get_secret_quiet env (lit "master-calendar-id") st1) as Hq.
    destruct (get_secret_total env (lit "master-calendar-id") st1) as [cal Hc].
    destruct (get_secret env (lit "master-calendar-id") st1) as [st2 r2].
    cbn [fst snd] in Hq, Hc. subst r2.
    assert (H2 : authenticated (session st2) = false).
    { destruct Hq as (Hs & _). rewrite Hs. exact H1. }
    do 2 (unfold bind at 1; cbn [draw modify]).
    eexists. exists cal. split; [|reflexivity]. exact H2. }
  destruct E as (st3 & cal & H3 & ->).
  destruct (mode inp).
  - split; [|discriminate].
    rewrite (kiosk_auth_kept env cal inp _ st3). exact H3.
  - destruct (admin_dashboard_null env inp st3 H3) as (Hr & Hs & Hu).
    split; [rewrite Hs; exact H3|]. intros _. split; assumption.
Qed.

(** C10: when the fetch of the admin password fails, so that the secret the
    login compares with is null, a run of the script leaves the flag
    [authenticated] false whatever the widgets hold, the empty string
    included; in the admin mode the run ends without an exception, and with
    the button pressed its last widget is the error "Access Denied". *)
Theorem C10_null_admin_password_denies
    (env : Env) (inp : Inputs) (st : State) (msg : str) :
  vault env (secret_name (lit "app-admin-password")) = Failure msg ->
  authenticated (session st) = false ->
  (forall s, snd (get_secret env (lit "app-admin-password") s) = Ok None)
  /\ eq_secret (pwd inp) None = false
  /\ authenticated (session (run env inp st)) = false
  /\ (mode inp = AdminDashboard ->
      snd (app env inp (clear_ui st)) = Ok tt
      /\ (authenticate inp = true ->
          exists drawn,
            ui (run env inp st) = drawn ++ [st_error (lit "Access Denied")])).
Proof.
  intros Hv Ha.
  split; [intros s; rewrite (get_secret_failure env _ msg s Hv); reflexivity|].
  split; [reflexivity|].
  assert (Hc : authenticated (session (clear_ui st)) = false) by exact Ha.
  destruct (app_null_secret env inp (clear_ui st) msg Hv Hc) as [H1 H2].
  unfold run.
  destruct (app env inp (clear_ui st)) as [st1 r1]. cbn [fst snd] in *.
  assert (Hshow : forall s r, authenticated (session s) = false ->
                    authenticated (session (show_exception (s, r))) = false).
  { intros s r H. destruct r; exact H. }
  split.
  - destruct r1 as [x|e]; [apply Hshow, H1|].
    destruct e; try (apply Hshow, H1).
    assert (Hc1 : authenticated (session (clear_ui st1)) = false) by exact H1.
    destruct (app_null_secret env (released inp) (clear_ui st1) msg Hv Hc1)
      as [H3 _].
    destruct (app env (released inp) (clear_ui st1)) as [st2 r2].
    apply Hshow, H3.
  - intros Hm. destruct (H2 Hm) as [Hr Hu]. subst r1.
    split; [reflexivity|]. exact Hu.
Qed.

(** ** Witnesses and the booking pass without a report *)

Lemma C5_incomplete_form_no_effect_witness :
  let env := sample_env true true true in
  let form := sample_form [] (lit "Dr. Rao") true in
  let st := analysed_state env in
  (p_email form = [] \/ doc_name form = [])
  /\ booking_submit env None (lit "Orthopedist") form st
     = ({| session := session st; world := world st;
           ui := ui st ++ [st_warning (lit "Fill details.")];
           calls := calls st |}, Ok tt).
Proof.
  split; [left; reflexivity|].
  exact (proj1 (C5_incomplete_form_no_effect (sample_env true true true) None
                  (lit "Orthopedist") (sample_form [] (lit "Dr. Rao") true)
                  (analysed_state (sample_env true true true))
                  (or_introl eq_refl))).
Defined.

Lemma C4_calendar_failure_still_books_witness :
  let env := sample_env true false true in
  let form := sample_form (lit "a@x.com") (lit "Dr. Rao") true in
  let st := analysed_state env in
  let st' := fst (booking_submit env None (lit "Orthopedist") form st) in
  snd (block_hospital_calendar env None (p_email form) (doc_name form)
         (appt_date form) (appt_time form) st)
  = Ok (false, lit "403 Forbidden")
  /\ appointments (world st')
     = appointments (world st)
       ++ [booking_record env (lit "Orthopedist") form]
  /\ snd (booking_submit env None (lit "Orthopedist") form st) = Ok tt.
Proof.
  split; [reflexivity|].
  pose proof (C4_calendar_failure_still_books (sample_env true false true)
                None (lit "Orthopedist")
                (sample_form (lit "a@x.com") (lit "Dr. Rao") true)
                (analysed_state (sample_env true false true))
                (lit "403 Forbidden") eq_refl eq_refl eq_refl)
    as (_ & _ & _ & _ & Hw & _).
  destruct (Hw eq_refl) as (Ha & _ & Hpdf).
  split; [exact Ha|].
  exact (proj1 (Hpdf (lit " Mild fracture ") _ eq_refl eq_refl
                  (fun _ _ => eq_refl) eq_refl)).
Defined.

Lemma C8_no_booking_without_analysis_witness :
  let env := sample_env true true true in
  let form := sample_form (lit "a@x.com") (lit "Dr. Rao") true in
  analysis_result (session fresh_state) = None
  /\ appointments (world fresh_state) = appointments empty_world
  /\ calls fresh_state = []
  /\ snd (tab2 env None form fresh_state) = Ok tt.
Proof.
  split; [reflexivity|].
  pose proof (C8_no_booking_without_analysis empty_world fresh_state
                (sample_env true true true) None
                (sample_form (lit "a@x.com") (lit "Dr. Rao") true)
                (reach_init empty_world) eq_refl) as (Ha & Hc & Ht).
  split; [exact Ha|]. split; [exact Hc|]. rewrite Ht. reflexivity.
Defined.

Lemma C10_null_admin_password_denies_witness :
  let env := sample_env false true true in
  vault env (secret_name (lit "app-admin-password"))
  = Failure (lit "403 Permission denied")
  /\ authenticated (session (run env (login_inputs []) fresh_state)) = false
  /\ authenticated
       (session (run env (login_inputs (lit "secret-value")) fresh_state))
     = false
  /\ exists drawn,
       ui (run env (login_inputs (lit "secret-value")) fresh_state)
       = drawn ++ [st_error (lit "Access Denied")].
Proof.
  split; [reflexivity|]. split.
  - exact (proj1 (proj2 (proj2
            (C10_null_admin_password_denies (sample_env false true true)
               (login_inputs []) fresh_state (lit "403 Permission denied")
               eq_refl eq_refl)))).
  - pose proof (C10_null_admin_password_denies (sample_env false true true)
                  (login_inputs (lit "secret-value")) fresh_state
                  (lit "403 Permission denied") eq_refl eq_refl)
      as (_ & _ & Hauth & Hadmin).
    split; [exact Hauth|].
    exact (proj2 (Hadmin eq_refl) eq_refl).
Defined.

(** A null path stops the booking block once the record is saved, and no
    pass is offered. *)
Lemma booking_submit_null_path env cal spec form st err :
  nonempty (p_email form) = true ->
  nonempty (doc_name form) = true ->
  appointments_write env (booking_record env spec form) = Answer tt ->
  snd (create_professional_pdf env (analysis_result (session st))
         (booking_details form) (sources_clean (session st))
         (Some (booking_details form)) st) = Ok (None, err) ->
  snd (booking_submit env cal spec form st) = Raise TypeError
  /\ existsb is_download (ui (fst (booking_submit env cal spec form st)))
     = existsb is_download (ui st).
Proof.
  intros He Hd Hw Hpdf.
  destruct (booking_submit_outcome env cal spec form st He Hd Hw)
    as (_ & _ & Hr & Hu).
  rewrite Hr, Hu, Hpdf. split; [reflexivity|].
  cbn [booked_state ui]. rewrite !existsb_app. cbn.
  rewrite !orb_false_r. reflexivity.
Qed.

(** C6 at a failing input: the storage bucket refuses the upload.  The
    composer returns a null path with the text of the error; the analysis
    tab, which tests the path, goes on without a download; the booking block,
    which opens the path untested, raises TypeError after it has saved the
    record, and the run ends on the traceback with no booking pass offered. *)
Theorem C6_booking_pass_null_path_raises :
  let env := sample_env true true false in
  let form := sample_form (lit "a@x.com") (lit "Dr. Rao") true in
  let st1 := analysed_state env in
  let st2 := run env (booking_inputs (lit "a@x.com") (lit "Dr. Rao")) st1 in
  snd (create_professional_pdf env (analysis_result (session st1))
         (booking_details form) (sources_clean (session st1))
         (Some (booking_details form)) st1)
  = Ok (None, lit "403 Forbidden")
  /\ analysis_result (session st1) = Some (lit " Mild fracture ")
  /\ existsb is_exception (ui st1) = false
  /\ existsb is_download (ui st1) = false
  /\ snd (booking_submit env (Some (lit "secret-value")) (lit "Orthopedist")
            form st1) = Raise TypeError
  /\ last (ui st2) st_divider = st_exception TypeError
  /\ existsb is_download (ui st2) = false
  /\ appointments (world st2) = [booking_record env (lit "Orthopedist") form].
Proof. vm_compute. repeat split; reflexivity. Qed.

(** * Further properties of the code *)

(** ** The parser on every text *)

(** The text before the leftmost occurrence of a marker is free of it. *)
Lemma split_once_leftmost sep s : sep <> [] -> forall a b,
  split_once sep s = Some (a, b) -> contains sep a = false.
Proof.
  intros Hs.
  assert (Hnil : strip_prefix sep [] = None)
    by (destruct sep; [congruence | reflexivity]).
  induction s as [|c s IH]; intros a b; simpl.
  - rewrite Hnil. discriminate.
  - destruct (strip_prefix sep (c :: s)) as [r|] eqn:E.
    + intros [= <- <-]. simpl. rewrite Hnil. reflexivity.
    + destruct (split_once sep s) as [[a' b']|] eqn:E'; [|discriminate].
      intros [= <- <-]. simpl.
      destruct (strip_prefix sep (c :: a')) as [r|] eqn:Ea.
      * exfalso. apply strip_prefix_app in Ea. apply split_once_app in E'.
        assert (X : strip_prefix sep (c :: s) = Some (r ++ sep ++ b')).
        { apply strip_prefix_app. rewrite E'.
          change (c :: a' ++ sep ++ b') with ((c :: a') ++ sep ++ b').
          rewrite Ea, <- app_assoc. reflexivity. }
        congruence.
      * apply (IH a' b'). reflexivity.
Qed.

(** Under [SUMMARY: in text], [text.split("SUMMARY:")[1]] is the segment of
    the first [SUMMARY:]. *)
Lemma split_first_segment text :
  contains SUMMARY text = true ->
  exists parts,
    index (split SUMMARY text) 1 = Ok parts /\ first_segment text parts.
Proof.
  intros Hc. rewrite contains_split_once in Hc.
  destruct (split_once SUMMARY text) as [[pre b]|] eqn:E; [|discriminate].
  rewrite (split_eq _ _ SUMMARY_not_nil), E.
  rewrite (split_eq _ _ SUMMARY_not_nil).
  pose proof (split_once_leftmost _ _ SUMMARY_not_nil _ _ E) as Hpre.
  apply split_once_app in E.
  destruct (split_once SUMMARY b) as [[p r]|] eqn:E'.
  - pose proof (split_once_leftmost _ _ SUMMARY_not_nil _ _ E') as Hp.
    apply split_once_app in E'. exists p. split; [reflexivity|].
    apply segment_of with (pre := pre) (tail := SUMMARY ++ r); auto.
    + rewrite E, E'. reflexivity.
    + right. exists r. reflexivity.
  - exists b. split; [reflexivity|].
    apply segment_of with (pre := pre) (tail := []); auto.
    + rewrite app_nil_r. exact E.
    + rewrite contains_split_once, E'. reflexivity.
Qed.

Lemma parse_response_classified (text : str) :
  exists fields, parse_response text = Ok fields /\ parse_case text fields.
Proof.
  unfold parse_response.
  destruct (contains SUMMARY text) eqn:HS.
  - destruct (split_first_segment text HS) as (parts & E & Hseg).
    rewrite E. cbn [rbind].
    rewrite (contains_split_once SPECIALIST parts). unfold split_max1.
    destruct (split_once SPECIALIST parts) as [[summary rest]|] eqn:EP.
    + cbn [unpack2 rbind].
      pose proof (split_once_leftmost SPECIALIST parts ltac:(discriminate)
                    _ _ EP) as Hsum.
      apply split_once_app in EP. subst parts.
      rewrite (contains_split_once ADVICE rest).
      destruct (split_once ADVICE rest) as [[specialist advice]|] eqn:EA.
      * cbn [unpack2 rbind].
        pose proof (split_once_leftmost ADVICE rest ltac:(discriminate)
                      _ _ EA) as Hspec.
        apply split_once_app in EA. subst rest.
        eexists. split; [reflexivity|]. apply Full; assumption.
      * eexists. split; [reflexivity|].
        apply PartialSpecialist with (rest := rest); try assumption.
        rewrite contains_split_once, EA. reflexivity.
    + eexists. split; [reflexivity|].
      apply SummaryOnly with (parts := parts); [assumption|].
      rewrite contains_split_once, EP. reflexivity.
  - eexists. split; [reflexivity|]. apply Defaulted. exact HS.
Qed.

(** X1: the parser never raises: on every text the index [1] of the cut at
    [SUMMARY:] and the two unpackings are in range, and the three locals are
    in one of the four cases of the marker protocol, each marker read at its
    leftmost occurrence inside the segment of the first [SUMMARY:]. *)
Theorem X1_parse_response_cases (text : str) :
  exists fields, parse_response text = Ok fields /\ parse_case text fields.
Proof. exact (parse_response_classified text). Qed.

(** X2: a text without [SUMMARY:] yields the three defaults, whatever else
    it holds, the two other markers included. *)
Theorem X2_no_summary_defaults (text : str) :
  contains SUMMARY text = false ->
  parsed_fields text = Ok (default_summary, default_specialist, default_advice).
Proof.
  intros H. unfold parsed_fields, parse_response. rewrite H.
  cbn [rbind]. rewrite normalize_default. reflexivity.
Qed.

Lemma X2_no_summary_defaults_witness :
  contains SUMMARY (lit "SPECIALIST: Orthopedist ADVICE: See a doctor") = false
  /\ parsed_fields (lit "SPECIALIST: Orthopedist ADVICE: See a doctor")
     = Ok (default_summary, default_specialist, default_advice).
Proof.
  split; [reflexivity|].
  exact (X2_no_summary_defaults
           (lit "SPECIALIST: Orthopedist ADVICE: See a doctor") eq_refl).
Defined.

(** X3: the normalization of the specialist never raises, and its result
    holds neither a line break nor an asterisk. *)
Theorem X3_normalize_clean (s : str) :
  exists t, normalize s = Ok t /\ ~ In NL t /\ ~ In STAR t.
Proof.
  exists (drop_stars (first_line (strip s))).
  split; [apply normalize_spec|]. split.
  - rewrite drop_stars_In. intros [H _]. exact (first_line_no_NL _ H).
  - rewrite drop_stars_In. intros [_ H]. congruence.
Qed.

(** ** Grounding sources without a citation *)

Lemma cited_lines_none chunks : forall i,
  Forall (fun c => web c = Ok None) chunks -> cited_lines i chunks = [].
Proof.
  induction chunks as [|c rest IH]; intros i H; [reflexivity|].
  inversion H as [|c' rest' Hc Hrest]; subst. simpl. rewrite Hc.
  apply IH, Hrest.
Qed.

(** X4: when the response carries chunks and none of them has a web
    citation, the sources are the empty string: the fallback text is lost
    although nothing is cited. *)
Theorem X4_chunks_without_citation (response : Response) (c : Chunk)
    (rest : list Chunk) :
  grounding_access response = Ok (c :: rest) ->
  Forall (fun ch => web ch = Ok None) (c :: rest) ->
  extract_sources response = ([], Ok tt)
  /\ fst (extract_sources response) <> FALLBACK_SOURCES.
Proof.
  intros Hg Hall.
  assert (E : extract_sources response = ([], Ok tt)).
  { unfold extract_sources, sources_block, try_pass. f_equal.
    unfold bind, lift. rewrite Hg. cbn [fst modify].
    transitivity ([] ++ cited_lines 0 (c :: rest));
      [exact (sources_loop_lines (c :: rest) 0 [])|].
    rewrite (cited_lines_none (c :: rest) 0 Hall). reflexivity. }
  split; [exact E|]. rewrite E. discriminate.
Qed.

Lemma X4_chunks_without_citation_witness :
  let plain := {| web := Ok None |} in
  let response :=
    {| text := Ok scenario_A_text;
       candidates :=
         Ok [{| content_parts := Ok [];
                grounding_metadata :=
                  Ok {| grounding_chunks := Ok [plain; plain] |} |}] |} in
  Forall (fun ch => web ch = Ok None) [plain; plain]
  /\ extract_sources response = ([], Ok tt).
Proof.
  assert (Hall : Forall (fun ch => web ch = Ok None)
                   [{| web := Ok None |}; {| web := Ok None |}])
    by (repeat constructor).
  split; [exact Hall|].
  exact (proj1 (X4_chunks_without_citation
                  {| text := Ok scenario_A_text;
                     candidates :=
                       Ok [{| content_parts := Ok [];
                              grounding_metadata :=
                                Ok {| grounding_chunks :=
                                        Ok [{| web := Ok None |};
                                            {| web := Ok None |}] |} |}] |}
                  {| web := Ok None |} [{| web := Ok None |}] eq_refl Hall)).
Defined.

(** ** Sanitizing the text of the report *)


(** ** The city of the directory link *)

Lemma replace_char_map c d s :
  replace [c] [d] s = map (fun x => if (x =? c)%N then d else x) s.
Proof.
  unfold replace.
  remember (length s) as n eqn:Hn.
  assert (Hle : length s <= n) by lia. clear Hn.
  revert s Hle. induction n as [|n IH]; intros s Hle;
    rewrite split_eq by discriminate;
    pose proof (split_once_char c s) as H;
    destruct (split_once [c] s) as [[a b]|].
  - destruct H as [-> _]. rewrite length_app in Hle. simpl in Hle. lia.
  - simpl. symmetry. rewrite <- (map_id s) at 2. apply map_ext_in.
    intros x Hx. destruct (N.eqb_spec x c) as [->|_]; [tauto | reflexivity].
  - destruct H as [-> H].
    assert (Hb : length b <= n)
      by (rewrite length_app in Hle; simpl in Hle; lia).
    specialize (IH b Hb).
    pose proof (split_nonempty [c] b ltac:(discriminate)) as Hne.
    destruct (split [c] b) as [|y ys] eqn:Es; [congruence|].
    change (join [d] (a :: y :: ys)) with (a ++ [d] ++ join [d] (y :: ys)).
    rewrite IH, map_app. simpl. rewrite N.eqb_refl. f_equal.
    rewrite <- (map_id a) at 1. apply map_ext_in.
    intros x Hx. destruct (N.eqb_spec x c) as [->|_]; [tauto | reflexivity].
  - simpl. symmetry. rewrite <- (map_id s) at 2. apply map_ext_in.
    intros x Hx. destruct (N.eqb_spec x c) as [->|_]; [tauto | reflexivity].
Qed.

(** The booking block only adds to the page. *)
Lemma booking_submit_ui_extends env cal spec form st :
  exists more, ui (fst (booking_submit env cal spec form st)) = ui st ++ more.
Proof.
  destruct (nonempty (p_email form) && nonempty (doc_name form)) eqn:E.
  - apply andb_true_iff in E. destruct E as [He Hd].
    rewrite (booking_submit_steps env cal spec form st He Hd).
    pose proof (block_hospital_calendar_frame env cal (p_email form)
                  (doc_name form) (appt_date form) (appt_time form) st) as Hb.
    destruct (block_hospital_calendar env cal (p_email form) (doc_name form)
                (appt_date form) (appt_time form) st) as [st1 r1].
    cbn [fst] in Hb. destruct Hb as (_ & _ & Hu & _).
    destruct r1 as [x|e];
      [|exists []; cbn [fst]; rewrite app_nil_r; exact Hu].
    destruct (appointments_write env (booking_record env spec form))
      as [u|wmsg].
    + pose proof (create_professional_pdf_frame env
                    (analysis_result (session st1)) (booking_details form)
                    (sources_clean (session st1))
                    (Some (booking_details form))
                    (booked_state env spec form st1)) as Hp.
      destruct (create_professional_pdf env (analysis_result (session st1))
                  (booking_details form) (sources_clean (session st1))
                  (Some (booking_details form))
                  (booked_state env spec form st1)) as [st3 r3].
      cbn [fst] in Hp. destruct Hp as (_ & _ & Hu3 & _).
      destruct r3 as [[[p|] l]|e]; cbn [fst offer_pass ui]; rewrite Hu3;
        cbn [booked_state ui]; rewrite Hu, <- !app_assoc;
        eexists; reflexivity.
    + cbn [fst attempted_state ui]. rewrite Hu, <- !app_assoc.
      eexists. reflexivity.
  - unfold booking_submit. rewrite E. cbn. eexists. reflexivity.
Qed.

(** X6: once an analysis is in the session, the booking tab draws the Practo
    button with, after "&city=", the quoted city of the session lower-cased,
    trimmed and with every blank turned into a hyphen; that city holds no
    blank, is as long as the trimmed city, and is the trimmed city itself
    when that holds no blank. *)
Theorem X6_city_slug
    (env : Env) (cal : option str) (form : BookingForm) (st : State) :
  truthy (analysis_result (session st)) = true ->
  let trimmed := strip (lower env (user_city (session st))) in
  let clean_city := map (fun c => if (c =? 32)%N then 45%N else c) trimmed in
  In (st_link_button ([0x1F50E]%N ++ lit " Search on Practo")
        (lit "https://www.practo.com/search/doctors?results_type=doctor&q="
         ++ quote env (strip (specialist_type (session st)))
         ++ lit "&city=" ++ quote env clean_city))
     (ui (fst (tab2 env cal form st)))
  /\ ~ In 32%N clean_city
  /\ length clean_city = length trimmed
  /\ (~ In 32%N trimmed -> clean_city = trimmed).
Proof.
  intros Ha trimmed clean_city. subst clean_city trimmed.
  split; [|split; [|split]].
  - unfold tab2. unfold bind at 1. cbn [draw modify].
    unfold bind at 1. cbn [get_session session]. rewrite Ha.
    do 5 (unfold bind at 1; cbn [draw modify session ui]).
    change (lit " ") with [32%N]. change (lit "-") with [45%N].
    rewrite replace_char_map.
    destruct (submitted form).
    + match goal with
      | |- context [booking_submit ?e ?c ?sp ?f ?s] =>
          destruct (booking_submit_ui_extends e c sp f s) as [more E]
      end.
      rewrite E. cbn [ui]. rewrite !in_app_iff. cbn [In]. tauto.
    + cbn [ret fst ui]. rewrite !in_app_iff. cbn [In]. tauto.
  - rewrite in_map_iff. intros (x & Hx & _).
    destruct (N.eqb_spec x 32); [discriminate Hx | congruence].
  - apply length_map.
  - intros H. rewrite <- (map_id (strip _)) at 2. apply map_ext_in.
    intros x Hx. destruct (N.eqb_spec x 32) as [->|_]; [tauto | reflexivity].
Qed.

Lemma X6_city_slug_witness :
  let env := sample_env true true true in
  let st := run env
              {| mode := PatientKiosk; uploaded_file := Some sample_upload;
                 city_input := lit " New Delhi "; process_record := true;
                 form := sample_form [] [] false; pwd := [];
                 authenticate := false; logout_button := false;
                 refresh := false |} fresh_state in
  truthy (analysis_result (session st)) = true
  /\ user_city (session st) = lit " New Delhi "
  /\ In (st_link_button ([0x1F50E]%N ++ lit " Search on Practo")
           (lit "https://www.practo.com/search/doctors?results_type=doctor&q=Orthopedist&city=new-delhi"))
        (ui (fst (tab2 env None (sample_form [] [] false) st))).
Proof.
  split; [reflexivity|]. split; [reflexivity|].
  exact (proj1 (X6_city_slug (sample_env true true true) None
                  (sample_form [] [] false)
                  (run (sample_env true true true)
                     {| mode := PatientKiosk;
                        uploaded_file := Some sample_upload;
                        city_input := lit " New Delhi ";
                        process_record := true;
                        form := sample_form [] [] false; pwd := [];
                        authenticate := false; logout_button := false;
                        refresh := false |} fresh_state)
                  eq_refl)).
Defined.

(** ** The report composer *)

(** X7: with a summary and sources at hand and the PDF written, the report
    composer returns the local path and the storage reference of the report
    when the upload goes through, and a null path with the text of the error
    when it does not; in that case the report stays under [/tmp] and nothing
    reaches the bucket.  Either way the session and the page are untouched. *)
Theorem X7_composer_upload
    (env : Env) (summary doctors sources : str) (appt : option str)
    (st : State) :
  (forall doc p, pdf_output env doc p = Answer tt) ->
  let r := create_professional_pdf env (Some summary) doctors (Some sources)
             appt st in
  session (fst r) = session st
  /\ ui (fst r) = ui st
  /\ match upload_from_filename env (report_path env) with
     | Answer _ =>
         snd r = Ok (Some (report_path env),
                     lit "gs://" ++ BUCKET_NAME ++ lit "/" ++ report_filename env)
         /\ world (fst r)
            = add_blob (report_filename env)
                (add_tmp_file (report_path env) (world st))
     | Failure msg =>
         snd r = Ok (None, msg)
         /\ world (fst r) = add_tmp_file (report_path env) (world st)
     end.
Proof.
  exact (create_professional_pdf_upload env summary doctors sources appt st).
Qed.

Lemma X7_composer_upload_witness :
  let env := sample_env true true false in
  snd (create_professional_pdf env (Some (lit "s")) (lit "d") (Some (lit "v"))
         None fresh_state) = Ok (None, lit "403 Forbidden")
  /\ tmp_files (world (fst (create_professional_pdf env (Some (lit "s"))
                             (lit "d") (Some (lit "v")) None fresh_state)))
     = [lit "/tmp/Report_1750000000.pdf"].
Proof.
  pose proof (X7_composer_upload (sample_env true true false) (lit "s")
                (lit "d") (lit "v") None fresh_state
                (fun _ _ => eq_refl)) as (_ & _ & H).
  change (snd (create_professional_pdf (sample_env true true false)
                 (Some (lit "s")) (lit "d") (Some (lit "v")) None fresh_state)
          = Ok (None, lit "403 Forbidden")
          /\ world (fst (create_professional_pdf (sample_env true true false)
                           (Some (lit "s")) (lit "d") (Some (lit "v")) None
                           fresh_state))
             = add_tmp_file (report_path (sample_env true true false))
                 (world fresh_state)) in H.
  destruct H as [H1 H2]. split; [exact H1 | exact (f_equal tmp_files H2)].
Defined.

(** X8: the report composer never raises, and without a summary or without
    sources (a null value has no [encode]) it returns a null path with the
    text of the error before anything is written: the stores, the session
    and the page stay as they were. *)
Theorem X8_composer_missing_text
    (env : Env) (summary : option str) (doctors : str) (sources : option str)
    (appt : option str) (st : State) :
  (exists path info,
     snd (create_professional_pdf env summary doctors sources appt st)
     = Ok (path, info))
  /\ (summary = None \/ sources = None ->
      create_professional_pdf env summary doctors sources appt st
      = (add_call call_create_professional_pdf st,
         Ok (None, exn_text AttributeError))).
Proof.
  split.
  - destruct (create_professional_pdf_total env summary doctors sources appt st)
      as (path & info & H & _).
    exists path, info. exact H.
  - unfold create_professional_pdf, add_call. unfold_script.
    intros [-> | ->]; [reflexivity|].
    destruct summary, appt as [a|]; cbn; try destruct (nonempty a);
      reflexivity.
Qed.

Lemma X8_composer_missing_text_witness :
  let env := sample_env true true true in
  create_professional_pdf env (Some (lit "s")) (lit "d") None None fresh_state
  = (add_call call_create_professional_pdf fresh_state,
     Ok (None, lit "'NoneType' object has no attribute 'encode'")).
Proof.
  exact (proj2 (X8_composer_missing_text (sample_env true true true)
                  (Some (lit "s")) (lit "d") None None fresh_state)
               (or_intror eq_refl)).
Defined.

(** ** The clinic calendar *)

Lemma block_hospital_calendar_eq
    (env : Env) (cal : option str) (patient doctor : str) (date : Date)
    (time : Time) (st : State) :
  let ev := hospital_event cal patient doctor date time in
  let st1 := add_call call_block_hospital_calendar st in
  block_hospital_calendar env cal patient doctor date time st
  = match events_insert env ev with
    | Answer link => (with_world (add_event ev (world st)) st1, Ok (true, link))
    | Failure msg =>
        (with_world (log_error (lit "Calendar API Error: " ++ msg) (world st))
           st1, Ok (false, msg))
    end.
Proof.
  intros ev st1. subst ev st1.
  unfold block_hospital_calendar, hospital_event, add_call, with_world.
  unfold_script. cbn.
  match goal with
  | |- context [events_insert ?e ?v] => destruct (events_insert e v); cbn
  end; reflexivity.
Qed.

(** X9: [block_hospital_calendar] never raises.  It returns the flag True
    with the link of the event exactly when the insert answers, and then the
    event, titled with the doctor and the patient and thirty minutes long, is
    added to the calendar and nothing is logged; when the insert fails it
    returns False with the text of the error, logs it and leaves the calendar
    alone.  The appointments, the session and the page are never touched. *)
Theorem X9_block_hospital_calendar
    (env : Env) (cal : option str) (patient doctor : str) (date : Date)
    (time : Time) (st : State) :
  let ev := hospital_event cal patient doctor date time in
  let st1 := add_call call_block_hospital_calendar st in
  block_hospital_calendar env cal patient doctor date time st
  = match events_insert env ev with
    | Answer link => (with_world (add_event ev (world st)) st1, Ok (true, link))
    | Failure msg =>
        (with_world (log_error (lit "Calendar API Error: " ++ msg) (world st))
           st1, Ok (false, msg))
    end.
Proof.
  exact (block_hospital_calendar_eq env cal patient doctor date time st).
Qed.

Lemma create_professional_pdf_world env summary doctors sources appt st :
  let w := world (fst (create_professional_pdf env summary doctors sources
                         appt st)) in
  appointments w = appointments (world st)
  /\ reports w = reports (world st)
  /\ master_calendar w = master_calendar (world st)
  /\ audit_log w = audit_log (world st).
Proof.
  unfold create_professional_pdf. unfold_script.
  destruct summary, sources, appt as [a|]; cbn;
    try destruct (nonempty a); cbn;
    repeat match goal with
           | |- context [pdf_output ?e ?d ?p] =>
               destruct (pdf_output e d p) as [[]|m]; cbn
           | |- context [upload_from_filename ?e ?p] =>
               destruct (upload_from_filename e p) as [[]|m]; cbn
           end; auto.
Qed.

Lemma block_hospital_calendar_failure env cal patient doctor date time st msg :
  events_insert env (hospital_event cal patient doctor date time) = Failure msg ->
  block_hospital_calendar env cal patient doctor date time st
  = (with_world (log_error (lit "Calendar API Error: " ++ msg) (world st))
       (add_call call_block_hospital_calendar st), Ok (false, msg)).
Proof.
  intros H. unfold block_hospital_calendar. unfold_script.
  change (events_insert env _) with
    (events_insert env (hospital_event cal patient doctor date time)).
  rewrite H. reflexivity.
Qed.

(** X10: a failed write to the clinic calendar is not shown to the patient.
    On a complete form the block draws "Slot Blocked for" the doctor all the
    same and adds no error to the page; the failure is only in the log, and
    the calendar holds no event, while the record is saved as soon as the
    write of the record is accepted. *)
Theorem X10_calendar_failure_not_surfaced
    (env : Env) (cal : option str) (spec : str) (form : BookingForm)
    (st : State) (msg : str) :
  nonempty (p_email form) = true ->
  nonempty (doc_name form) = true ->
  events_insert env (hospital_event cal (p_email form) (doc_name form)
                       (appt_date form) (appt_time form)) = Failure msg ->
  let st' := fst (booking_submit env cal spec form st) in
  In (st_success ([0x2705]%N ++ lit " Slot Blocked for " ++ doc_name form
                  ++ lit "!")) (ui st')
  /\ existsb is_error (ui st') = existsb is_error (ui st)
  /\ audit_log (world st')
     = audit_log (world st) ++ [lit "Calendar API Error: " ++ msg]
  /\ master_calendar (world st') = master_calendar (world st)
  /\ (appointments_write env (booking_record env spec form) = Answer tt ->
      appointments (world st')
      = appointments (world st) ++ [booking_record env spec form]).
Proof.
  intros He Hd Hcal st'. subst st'.
  assert (Hui : exists tail,
             ui (fst (booking_submit env cal spec form st))
             = ui (booked_state env spec form st) ++ tail
             /\ existsb is_error tail = false).
  { destruct (appointments_write env (booking_record env spec form))
      as [[]|wmsg] eqn:Hw.
    - destruct (booking_submit_outcome env cal spec form st He Hd Hw)
        as (_ & _ & _ & Hu).
      rewrite Hu.
      destruct (snd (create_professional_pdf env
                       (analysis_result (session st)) (booking_details form)
                       (sources_clean (session st))
                       (Some (booking_details form)) st)) as [[[p|] l]|e].
      + eexists. split; [reflexivity | reflexivity].
      + exists []. rewrite app_nil_r. auto.
      + exists []. rewrite app_nil_r. auto.
    - destruct (booking_submit_write_refused env cal spec form st wmsg
                  He Hd Hw) as (_ & _ & _ & Hu & _).
      exists []. rewrite app_nil_r. auto. }
  destruct Hui as (tail & Hui & Htail).
  assert (Hworld :
            audit_log (world (fst (booking_submit env cal spec form st)))
            = audit_log (world st) ++ [lit "Calendar API Error: " ++ msg]
            /\ master_calendar
                 (world (fst (booking_submit env cal spec form st)))
               = master_calendar (world st)).
  { rewrite (booking_submit_steps env cal spec form st He Hd).
    rewrite (block_hospital_calendar_failure env cal _ _ _ _ st msg Hcal).
    cbn iota beta.
    destruct (appointments_write env (booking_record env spec form))
      as [u|wmsg]; [|split; reflexivity].
    match goal with
    | |- context [create_professional_pdf ?e ?a ?b ?c ?d ?s] =>
        pose proof (create_professional_pdf_world e a b c d s) as Hw;
        destruct (create_professional_pdf e a b c d s) as [st3 r3]
    end.
    cbn [fst] in Hw. destruct Hw as (_ & _ & Hcalendar & Hlog).
    destruct r3 as [[[p|] l]|e]; cbn; rewrite Hlog, Hcalendar;
      split; reflexivity. }
  destruct Hworld as [Hlog Hcalendar].
  split; [|split; [|split; [exact Hlog|split; [exact Hcalendar|]]]].
  - rewrite Hui. cbn [booked_state ui]. rewrite !in_app_iff.
    left. left. right. left. reflexivity.
  - rewrite Hui. cbn [booked_state ui]. rewrite !existsb_app, Htail. cbn.
    rewrite !orb_false_r. reflexivity.
  - intros Hw.
    exact (proj1 (booking_submit_outcome env cal spec form st He Hd Hw)).
Qed.

(** ** The analysis tab *)

(** The analysis tab step by step: nothing happens without a file and a
    press; a failure before the fields are parsed only draws the error (the
    rerun signal alone would pass through the handler); after that the
    session holds the analysis and the page its result. *)
Lemma tab1_cases env file city pressed st :
  world_kept st (fst (tab1 env file city pressed st))
  /\ (tab1 env file city pressed st = (st, Ok tt)
      \/ tab1 env file city pressed st = (st, Raise RerunException)
      \/ (exists msg,
            tab1 env file city pressed st
            = (fst (draw (st_error (lit "Error: " ++ msg)) st), Ok tt))
      \/ (exists f r text summary specialist advice,
            file = Some f /\ pressed = true
            /\ generate_content env f prompt = Answer r
            /\ get_clean_text r = Ok text
            /\ parse_response text = Ok (summary, specialist, advice)
            /\ snd (tab1 env file city pressed st) = Ok tt
            /\ session (fst (tab1 env file city pressed st))
               = analysed_session summary
                   (drop_stars (first_line (strip specialist))) city
                   (fst (extract_sources r)) (session st)
            /\ exists more,
                 ui (fst (tab1 env file city pressed st))
                 = ui st
                   ++ [st_success (lit "Analysis Complete. Recommended: "
                                   ++ specialist);
                       st_markdown summary] ++ more
                 /\ existsb is_error more = false)).
Proof.
  unfold tab1, world_kept.
  destruct file as [f|]; [|cbn; auto 6].
  destruct pressed; [|cbn; auto 6].
  unfold create_professional_pdf, open_rb. unfold_script.
  destruct (generate_content env f prompt) as [r|m] eqn:Eg; cbn;
    [|split; [auto|]; right; right; left; eexists; reflexivity].
  destruct (get_clean_text r) as [text|e] eqn:Et; cbn.
  2:{ destruct e; cbn; (split; [auto|]);
        try (right; right; left; eexists; reflexivity).
      right; left; reflexivity. }
  destruct (parse_response_classified text) as ([[summary specialist] advice]
                                                 & Ep & _).
  rewrite Ep. cbn. rewrite normalize_spec. cbn.
  destruct (extract_sources r) as [sources rs] eqn:Es. cbn.
  repeat match goal with
         | |- context [pdf_output ?e ?d ?p] =>
             destruct (pdf_output e d p) as [[]|m]; cbn
         | |- context [upload_from_filename ?e ?p] =>
             destruct (upload_from_filename e p) as [[]|m]; cbn
         end.
  all: split; [auto|]; right; right; right.
  all: exists f, r, text, summary, specialist, advice.
  all: repeat (split; [first [reflexivity | exact Eg | exact Et | exact Ep]|]).
  all: rewrite <- !app_assoc; cbn.
  all: eexists; split; [reflexivity | reflexivity].
Qed.

(** ** What every run keeps *)

Section RunSteps.

Variable R : State -> State -> Prop.
Hypothesis R_trans : forall a b c, R a b -> R b c -> R a c.
Hypothesis R_quiet : forall st st', quiet st st' -> R st st'.
Hypothesis R_tab1 : forall env f c p, keeps R (tab1 env f c p).
Hypothesis R_tab2 : forall env cal form, keeps R (tab2 env cal form).
Hypothesis R_admin :
  forall env secret inp, keeps R (admin_dashboard env secret inp).

Lemma app_keeps env inp : keeps R (app env inp).
Proof.
  unfold app.
  repeat step_bind R R_trans;
    try (intros st; apply R_quiet;
         first [apply get_secret_quiet | apply draw_quiet]).
  destruct (mode inp).
  - repeat step_bind R R_trans.
    + intros st. apply R_quiet, draw_quiet.
    + apply R_tab1.
    + apply R_tab2.
  - apply R_admin.
Qed.

Lemma run_keeps env inp st : R st (run env inp st).
Proof.
  unfold run.
  pose proof (app_keeps env inp (clear_ui st)) as H1.
  apply (R_trans st (clear_ui st)); [apply R_quiet, clear_ui_quiet|].
  destruct (app env inp (clear_ui st)) as [st1 r1]. cbn [fst] in H1.
  assert (Hshow : forall r, R (clear_ui st) (show_exception (st1, r))).
  { intros r. apply (R_trans _ st1); [exact H1|].
    apply R_quiet, show_exception_quiet. }
  destruct r1 as [x|e]; [apply Hshow|].
  destruct e; try apply Hshow.
  apply (R_trans _ st1); [exact H1|].
  apply (R_trans _ (clear_ui st1)); [apply R_quiet, clear_ui_quiet|].
  pose proof (app_keeps env (released inp) (clear_ui st1)) as H2.
  destruct (app env (released inp) (clear_ui st1)) as [st2 r2].
  cbn [fst] in H2.
  apply (R_trans _ st2); [exact H2|].
  apply R_quiet, show_exception_quiet.
Qed.

Lemma reachable_keeps w0 st : reachable w0 st -> R (initial_state w0) st.
Proof.
  induction 1 as [|env inp st Hr IH].
  - apply R_quiet. unfold quiet. auto.
  - apply (R_trans _ st); [exact IH | apply run_keeps].
Qed.

End RunSteps.

(** The admin dashboard writes nothing to the session but the login flag. *)
Lemma admin_dashboard_session env secret inp st :
  exists b, session (fst (admin_dashboard env secret inp st))
            = set_authenticated b (session st).
Proof.
  unfold admin_dashboard, check_auth, login_screen, logout. unfold_script.
  cbn. destruct (authenticated (session st)) eqn:Ea; cbn.
  - destruct (logout_button inp); cbn; [exists false; reflexivity|].
    exists true. rewrite <- Ea.
    destruct (refresh inp); cbn;
      [destruct (reports_stream env) as [[]|m]; cbn;
       [destruct (reports (world st)); cbn|]|];
      destruct (session st); reflexivity.
  - exists (if authenticate inp then eq_secret (pwd inp) secret else false).
    destruct (authenticate inp); cbn;
      [destruct (eq_secret (pwd inp) secret); cbn|];
      try reflexivity; rewrite <- Ea; destruct (session st); reflexivity.
Qed.

(** *** The session after an analysis *)

Lemma session_ok_step st st' :
  (session st' = session st
   \/ (exists b, session st' = set_authenticated b (session st))
   \/ (exists summary specialist city sources,
         session st'
         = analysed_session summary
             (drop_stars (first_line (strip specialist))) city sources
             (session st))) ->
  session_ok (session st) -> session_ok (session st').
Proof.
  unfold session_ok.
  intros [E | [[b E] | (summary & specialist & city & sources & E)]];
    rewrite E; cbn; auto.
  intros _. split; [discriminate|]. split.
  - rewrite drop_stars_In. intros [H _]. exact (first_line_no_NL _ H).
  - rewrite drop_stars_In. intros [_ H]. congruence.
Qed.

Lemma reachable_session_ok w0 st :
  reachable w0 st -> session_ok (session st).
Proof.
  intros Hr.
  refine (reachable_keeps
            (fun a b => session_ok (session a) -> session_ok (session b))
            _ _ _ _ _ w0 st Hr _).
  - auto.
  - intros a b (Hs & _). apply session_ok_step. left. exact Hs.
  - intros env f c p a.
    destruct (tab1_cases env f c p a)
      as (_ & [E | [E | [[msg E] | (f0 & r & text & summary & specialist
                                     & advice & _ & _ & _ & _ & _ & _
                                     & E & _)]]]).
    + rewrite E. auto.
    + rewrite E. auto.
    + rewrite E. auto.
    + apply session_ok_step. right. right. eauto.
  - intros env cal form a. apply session_ok_step. left. apply tab2_session.
  - intros env secret inp a. apply session_ok_step. right. left.
    apply admin_dashboard_session.
  - unfold session_ok. cbn. split; [congruence|].
    split; vm_compute; intros H;
      repeat (destruct H as [H|H]; [discriminate H|]); exact H.
Qed.

(** X11: in every state a session can reach, an analysis in the session
    comes with its sources: the booking block never hands the report composer
    a null summary or null sources. *)
Theorem X11_analysis_has_sources (w0 : World) (st : State) (summary : str) :
  reachable w0 st ->
  analysis_result (session st) = Some summary ->
  exists sources, sources_clean (session st) = Some sources.
Proof.
  intros Hr Ha. destruct (reachable_session_ok w0 st Hr) as (H & _).
  destruct (sources_clean (session st)) as [src|]; [eauto|].
  exfalso. apply H; congruence.
Qed.

Lemma X11_analysis_has_sources_witness :
  let st := analysed_state (sample_env true true true) in
  analysis_result (session st) = Some (lit " Mild fracture ")
  /\ exists sources, sources_clean (session st) = Some sources.
Proof.
  split; [reflexivity|].
  exact (X11_analysis_has_sources empty_world
           (analysed_state (sample_env true true true))
           (lit " Mild fracture ")
           (@reach_run empty_world (sample_env true true true) analyse_inputs
              fresh_state (reach_init empty_world))
           eq_refl).
Defined.

(** X12: in every state a session can reach, the specialist type of the
    session, which goes into the directory links and the saved record, holds
    neither a line break nor an asterisk. *)
Theorem X12_specialist_type_clean (w0 : World) (st : State) :
  reachable w0 st ->
  ~ In NL (specialist_type (session st))
  /\ ~ In STAR (specialist_type (session st)).
Proof.
  intros Hr. destruct (reachable_session_ok w0 st Hr) as (_ & H). exact H.
Qed.

Lemma X12_specialist_type_clean_witness :
  let st := analysed_state (sample_env true true true) in
  specialist_type (session st) = lit "Orthopedist"
  /\ ~ In NL (specialist_type (session st))
  /\ ~ In STAR (specialist_type (session st)).
Proof.
  split; [reflexivity|].
  exact (X12_specialist_type_clean empty_world
           (analysed_state (sample_env true true true))
           (@reach_run empty_world (sample_env true true true) analyse_inputs
              fresh_state (reach_init empty_world))).
Defined.

(** *** The booking pass when the stores are up *)

(** X13: in a state a session can reach and that holds an analysis, a booking
    submitted with a patient email and a doctor name, the write of the record
    accepted, the PDF written and the upload accepted, ends without an
    exception on the offer of the booking pass at the path of the report,
    whatever the calendar does. *)
Theorem X13_booking_pass_offered
    (w0 : World) (st : State) (env : Env) (cal : option str) (spec : str)
    (form : BookingForm) :
  reachable w0 st ->
  truthy (analysis_result (session st)) = true ->
  nonempty (p_email form) = true ->
  nonempty (doc_name form) = true ->
  appointments_write env (booking_record env spec form) = Answer tt ->
  (forall doc p, pdf_output env doc p = Answer tt) ->
  upload_from_filename env (report_path env) = Answer tt ->
  snd (booking_submit env cal spec form st) = Ok tt
  /\ exists drawn,
       ui (fst (booking_submit env cal spec form st))
       = drawn ++ [st_download_button
                     ([0x2B07; 0xFE0F]%N ++ lit " Download Booking Pass")
                     (report_path env) (lit "Pass.pdf")
                     (lit "application/pdf")].
Proof.
  intros Hr Ht He Hd Hw Hpdf Hup.
  destruct (analysis_result (session st)) as [summary|] eqn:Ea;
    [|discriminate].
  destruct (reachable_session_ok w0 st Hr) as (Hs & _).
  destruct (sources_clean (session st)) as [sources|] eqn:Es;
    [|exfalso; apply Hs; congruence].
  destruct (booking_submit_outcome env cal spec form st He Hd Hw)
    as (_ & _ & Hres & Hui).
  rewrite Ea, Es in Hres, Hui.
  destruct (create_professional_pdf_upload env summary (booking_details form)
              sources (Some (booking_details form)) st Hpdf) as (_ & _ & H).
  rewrite Hup in H. destruct H as [H _].
  rewrite H in Hres, Hui. split; [exact Hres|].
  rewrite Hui. eexists. reflexivity.
Qed.

Lemma X13_booking_pass_offered_witness :
  let env := sample_env true false true in
  let form := sample_form (lit "a@x.com") (lit "Dr. Rao") true in
  truthy (analysis_result (session (analysed_state env))) = true
  /\ snd (booking_submit env None (lit "Orthopedist") form (analysed_state env))
     = Ok tt.
Proof.
  split; [reflexivity|].
  exact (proj1 (X13_booking_pass_offered empty_world
                  (analysed_state (sample_env true false true))
                  (sample_env true false true) None (lit "Orthopedist")
                  (sample_form (lit "a@x.com") (lit "Dr. Rao") true)
                  (@reach_run empty_world (sample_env true false true)
                     analyse_inputs fresh_state (reach_init empty_world))
                  eq_refl eq_refl eq_refl eq_refl (fun _ _ => eq_refl)
                  eq_refl)).
Defined.

(** *** The appointments *)

Lemma appended_trans a b c : appended a b -> appended b c -> appended a c.
Proof.
  intros (l1 & E1 & F1) (l2 & E2 & F2). exists (l1 ++ l2).
  split; [rewrite E2, E1, app_assoc; reflexivity|].
  apply Forall_app. auto.
Qed.

Lemma same_appointments_appended st st' :
  appointments (world st') = appointments (world st) -> appended st st'.
Proof.
  intros E. exists []. rewrite app_nil_r. split; [exact E | constructor].
Qed.

Lemma quiet_appended st st' : quiet st st' -> appended st st'.
Proof.
  intros (_ & Hw & _). apply same_appointments_appended. rewrite Hw.
  reflexivity.
Qed.

Lemma nonempty_not_nil s : nonempty s = true -> s <> [].
Proof. destruct s; [discriminate | discriminate]. Qed.

Lemma booking_submit_appended env cal spec form st :
  appended st (fst (booking_submit env cal spec form st)).
Proof.
  destruct (nonempty (p_email form) && nonempty (doc_name form)) eqn:E.
  - apply andb_true_iff in E. destruct E as [He Hd].
    destruct (appointments_write env (booking_record env spec form))
      as [[]|wmsg] eqn:Hw.
    + destruct (booking_submit_outcome env cal spec form st He Hd Hw)
        as (Ha & _).
      exists [booking_record env spec form]. split; [exact Ha|].
      constructor; [|constructor].
      split; [reflexivity|]. split; apply nonempty_not_nil; assumption.
    + destruct (booking_submit_write_refused env cal spec form st wmsg
                  He Hd Hw) as (_ & _ & Ha & _).
      apply same_appointments_appended. exact Ha.
  - apply same_appointments_appended. unfold booking_submit. rewrite E.
    reflexivity.
Qed.

Lemma get_session_quiet st : quiet st (fst (get_session st)).
Proof. unfold quiet. cbn. auto. Qed.

Lemma tab2_appended env cal form : keeps appended (tab2 env cal form).
Proof.
  unfold tab2.
  step_bind appended appended_trans;
    [intros st; apply quiet_appended, draw_quiet|].
  step_bind appended appended_trans;
    [intros st; apply quiet_appended, get_session_quiet|].
  destruct (truthy (analysis_result a0));
    [|intros st; apply quiet_appended, draw_quiet].
  repeat (step_bind appended appended_trans;
          [intros st; apply quiet_appended, draw_quiet|]).
  destruct (submitted form).
  - intros st. apply booking_submit_appended.
  - intros st. apply quiet_appended. unfold quiet. auto.
Qed.

Lemma reachable_appended w0 st :
  reachable w0 st -> appended (initial_state w0) st.
Proof.
  intros Hr.
  refine (reachable_keeps appended appended_trans quiet_appended _ _ _
            w0 st Hr).
  - intros env f c p a. apply same_appointments_appended.
    destruct (tab1_cases env f c p a) as ((H & _) & _). exact H.
  - apply tab2_appended.
  - intros env secret inp a. apply same_appointments_appended.
    destruct (admin_dashboard_frame env secret inp a) as (_ & H & _).
    rewrite H. reflexivity.
Qed.

(** X14: the appointments are append-only.  In every state a session can
    reach they are the appointments it started from followed by the records
    the session added, and each record added has the status Confirmed, a
    patient email and a doctor name that are not empty. *)
Theorem X14_appointments_append_only (w0 : World) (st : State) :
  reachable w0 st ->
  exists added,
    appointments (world st) = appointments w0 ++ added
    /\ Forall valid_record added.
Proof. intros Hr. exact (reachable_appended w0 st Hr). Qed.

Lemma X14_appointments_append_only_witness :
  let env := sample_env true true true in
  let st := run env (booking_inputs (lit "a@x.com") (lit "Dr. Rao"))
              (analysed_state env) in
  length (appointments (world st)) = 1
  /\ exists added,
       appointments (world st) = appointments empty_world ++ added
       /\ Forall valid_record added.
Proof.
  split; [reflexivity|].
  exact (X14_appointments_append_only empty_world
           (run (sample_env true true true)
              (booking_inputs (lit "a@x.com") (lit "Dr. Rao"))
              (analysed_state (sample_env true true true)))
           (@reach_run empty_world (sample_env true true true)
              (booking_inputs (lit "a@x.com") (lit "Dr. Rao"))
              (analysed_state (sample_env true true true))
              (@reach_run empty_world (sample_env true true true)
                 analyse_inputs fresh_state (reach_init empty_world)))).
Defined.

(** *** The reports collection *)

Lemma reports_kept_trans a b c :
  reports_kept a b -> reports_kept b c -> reports_kept a c.
Proof. unfold reports_kept. congruence. Qed.

Lemma quiet_reports_kept st st' : quiet st st' -> reports_kept st st'.
Proof. intros (_ & Hw & _). unfold reports_kept. rewrite Hw. reflexivity. Qed.

Lemma booking_submit_reports env cal spec form st :
  reports_kept st (fst (booking_submit env cal spec form st)).
Proof.
  unfold reports_kept.
  destruct (nonempty (p_email form) && nonempty (doc_name form)) eqn:E.
  - apply andb_true_iff in E. destruct E as [He Hd].
    rewrite (booking_submit_steps env cal spec form st He Hd).
    rewrite block_hospital_calendar_eq.
    match goal with
    | |- context [events_insert ?e ?v] => destruct (events_insert e v)
    end.
    all: destruct (appointments_write env (booking_record env spec form))
           as [u|wmsg]; [|reflexivity].
    all: match goal with
         | |- context [create_professional_pdf ?e ?a ?b ?c ?d ?s] =>
             pose proof (create_professional_pdf_world e a b c d s) as Hw;
             destruct (create_professional_pdf e a b c d s) as [st3 r3]
         end.
    all: cbn [fst] in Hw; destruct Hw as (_ & Hrep & _).
    all: destruct r3 as [[[p|] l]|e]; cbn; rewrite Hrep; reflexivity.
  - unfold booking_submit. rewrite E. reflexivity.
Qed.

Lemma tab2_reports env cal form : keeps reports_kept (tab2 env cal form).
Proof.
  unfold tab2.
  step_bind reports_kept reports_kept_trans;
    [intros st; apply quiet_reports_kept, draw_quiet|].
  step_bind reports_kept reports_kept_trans;
    [intros st; apply quiet_reports_kept, get_session_quiet|].
  destruct (truthy (analysis_result a0));
    [|intros st; apply quiet_reports_kept, draw_quiet].
  repeat (step_bind reports_kept reports_kept_trans;
          [intros st; apply quiet_reports_kept, draw_quiet|]).
  destruct (submitted form).
  - intros st. apply booking_submit_reports.
  - intros st. reflexivity.
Qed.

(** X15: the script never writes to the reports collection, the one the
    admin dashboard counts: in every state a session can reach it is what it
    was when the session started, analyses and bookings notwithstanding. *)
Theorem X15_reports_never_written (w0 : World) (st : State) :
  reachable w0 st -> reports (world st) = reports w0.
Proof.
  intros Hr.
  refine (reachable_keeps reports_kept reports_kept_trans quiet_reports_kept
            _ _ _ w0 st Hr).
  - intros env f c p a.
    destruct (tab1_cases env f c p a) as ((_ & H & _) & _). exact H.
  - apply tab2_reports.
  - intros env secret inp a.
    destruct (admin_dashboard_frame env secret inp a) as (_ & H & _).
    unfold reports_kept. rewrite H. reflexivity.
Qed.

Lemma X15_reports_never_written_witness :
  let env := sample_env true true true in
  reports (world (run env (booking_inputs (lit "a@x.com") (lit "Dr. Rao"))
                    (analysed_state env))) = [].
Proof.
  exact (X15_reports_never_written empty_world
           (run (sample_env true true true)
              (booking_inputs (lit "a@x.com") (lit "Dr. Rao"))
              (analysed_state (sample_env true true true)))
           (@reach_run empty_world (sample_env true true true)
              (booking_inputs (lit "a@x.com") (lit "Dr. Rao"))
              (analysed_state (sample_env true true true))
              (@reach_run empty_world (sample_env true true true)
                 analyse_inputs fresh_state (reach_init empty_world)))).
Defined.

(** ** The analysis tab: failure and success *)

(** X16: a failed analysis changes nothing but the page.  When the model call
    fails, or its response has no readable text, the analysis tab draws the
    error and ends without an exception: the session, a previous analysis
    included, the stores and the list of calls stay as they were.  And
    whatever happens the tab writes to no collection, no calendar and no
    log. *)
Theorem X16_analysis_failure
    (env : Env) (f : Upload) (city : str) (st : State) :
  (forall msg,
     generate_content env f prompt = Failure msg ->
     tab1 env (Some f) city true st
     = (fst (draw (st_error (lit "Error: " ++ msg)) st), Ok tt))
  /\ (forall r e,
        generate_content env f prompt = Answer r ->
        get_clean_text r = Raise e ->
        e <> RerunException ->
        tab1 env (Some f) city true st
        = (fst (draw (st_error (lit "Error: " ++ exn_text e)) st), Ok tt))
  /\ (forall file pressed,
        world_kept st (fst (tab1 env file city pressed st))).
Proof.
  split; [|split].
  - intros msg H. unfold tab1. unfold_script. rewrite H. reflexivity.
  - intros r e Hg Ht He. unfold tab1. unfold_script. rewrite Hg. cbn.
    rewrite Ht. destruct e; try reflexivity. congruence.
  - intros file pressed.
    destruct (tab1_cases env file city pressed st) as (H & _). exact H.
Qed.

Lemma X16_analysis_failure_witness :
  let env := with_model {| text := Raise AttributeError; candidates := Ok [] |}
               (sample_env true true true) in
  let st := analysed_state (sample_env true true true) in
  tab1 env (Some sample_upload) (lit "Pune") true st
  = (fst (draw (st_error (lit "Error: list index out of range")) st), Ok tt).
Proof.
  refine (proj1 (proj2 (X16_analysis_failure
                   (with_model {| text := Raise AttributeError;
                                  candidates := Ok [] |}
                      (sample_env true true true))
                   sample_upload (lit "Pune")
                   (analysed_state (sample_env true true true))))
            {| text := Raise AttributeError; candidates := Ok [] |}
            IndexError eq_refl eq_refl _).
  discriminate.
Defined.

Lemma tab1_success env f city st r text :
  generate_content env f prompt = Answer r ->
  get_clean_text r = Ok text ->
  exists summary specialist advice more,
    parse_response text = Ok (summary, specialist, advice)
    /\ snd (tab1 env (Some f) city true st) = Ok tt
    /\ session (fst (tab1 env (Some f) city true st))
       = analysed_session summary (drop_stars (first_line (strip specialist)))
           city (fst (extract_sources r)) (session st)
    /\ ui (fst (tab1 env (Some f) city true st))
       = ui st
         ++ [st_success (lit "Analysis Complete. Recommended: " ++ specialist);
             st_markdown summary] ++ more
    /\ existsb is_error more = false.
Proof.
  intros Hg Ht.
  destruct (parse_response_classified text) as ([[summary specialist] advice]
                                                 & Ep & _).
  exists summary, specialist, advice.
  unfold tab1, create_professional_pdf, open_rb. unfold_script.
  rewrite Hg. cbn. rewrite Ht. cbn. rewrite Ep. cbn.
  rewrite normalize_spec. cbn.
  destruct (extract_sources r) as [sources rs] eqn:Es. cbn.
  repeat match goal with
         | |- context [pdf_output ?e ?d ?p] =>
             destruct (pdf_output e d p) as [[]|m]; cbn
         | |- context [upload_from_filename ?e ?p] =>
             destruct (upload_from_filename e p) as [[]|m]; cbn
         end.
  all: rewrite <- !app_assoc; cbn.
  all: eexists; repeat (split; [reflexivity|]); reflexivity.
Qed.

(** X17: when the model answers and its text is readable, the analysis tab
    ends without an exception and stores in the session the parsed summary,
    the normalized specialist, the city typed in and the sources, in place of
    whatever a previous analysis left, the login flag untouched; the page
    shows the raw specialist and the summary and no error. *)
Theorem X17_analysis_success
    (env : Env) (f : Upload) (city : str) (st : State) (r : Response)
    (text : str) :
  generate_content env f prompt = Answer r ->
  get_clean_text r = Ok text ->
  exists summary specialist advice more,
    parse_response text = Ok (summary, specialist, advice)
    /\ snd (tab1 env (Some f) city true st) = Ok tt
    /\ session (fst (tab1 env (Some f) city true st))
       = analysed_session summary (drop_stars (first_line (strip specialist)))
           city (fst (extract_sources r)) (session st)
    /\ ui (fst (tab1 env (Some f) city true st))
       = ui st
         ++ [st_success (lit "Analysis Complete. Recommended: " ++ specialist);
             st_markdown summary] ++ more
    /\ existsb is_error more = false.
Proof. exact (tab1_success env f city st r text). Qed.

Lemma X17_analysis_success_witness :
  let env := sample_env true true true in
  exists summary specialist advice more,
    parse_response scenario_A_text = Ok (summary, specialist, advice)
    /\ snd (tab1 env (Some sample_upload) (lit "Pune") true fresh_state)
       = Ok tt
    /\ session (fst (tab1 env (Some sample_upload) (lit "Pune") true
                       fresh_state))
       = analysed_session summary (drop_stars (first_line (strip specialist)))
           (lit "Pune") (fst (extract_sources sample_response))
           (session fresh_state)
    /\ ui (fst (tab1 env (Some sample_upload) (lit "Pune") true fresh_state))
       = ui fresh_state
         ++ [st_success (lit "Analysis Complete. Recommended: " ++ specialist);
             st_markdown summary] ++ more
    /\ existsb is_error more = false.
Proof.
  exact (X17_analysis_success (sample_env true true true) sample_upload
           (lit "Pune") fresh_state sample_response scenario_A_text
           eq_refl eq_refl).
Defined.

(** X18: the gate of the booking tab tests the summary for truth, not for
    presence.  After an analysis that succeeded with an empty summary (the
    specialist marker right after the summary marker) the booking tab still
    refuses: whatever the form holds it draws "Analyze report first." and
    does nothing else. *)
Theorem X18_empty_summary_refused
    (env : Env) (f : Upload) (city : str) (st : State) (r : Response)
    (text specialist advice : str) (env' : Env) (cal : option str)
    (form : BookingForm) :
  generate_content env f prompt = Answer r ->
  get_clean_text r = Ok text ->
  parse_response text = Ok ([], specialist, advice) ->
  let st1 := fst (tab1 env (Some f) city true st) in
  analysis_result (session st1) = Some []
  /\ tab2 env' cal form st1 = (refused st1, Ok tt).
Proof.
  intros Hg Ht Hp st1.
  destruct (tab1_success env f city st r text Hg Ht)
    as (summary & sp & adv & more & Hp' & _ & Hs & _).
  rewrite Hp in Hp'. injection Hp' as <- <- <-.
  assert (Ha : analysis_result (session st1) = Some [])
    by (subst st1; rewrite Hs; reflexivity).
  split; [exact Ha|].
  apply tab2_gate. rewrite Ha. reflexivity.
Qed.

Lemma X18_empty_summary_refused_witness :
  let r := {| text := Ok (lit "SUMMARY:SPECIALIST: Orthopedist ADVICE: Rest");
              candidates := Ok [] |} in
  let env := with_model r (sample_env true true true) in
  let st1 := fst (tab1 env (Some sample_upload) (lit "Pune") true fresh_state) in
  parse_response (lit "SUMMARY:SPECIALIST: Orthopedist ADVICE: Rest")
  = Ok ([], lit " Orthopedist ", lit " Rest")
  /\ tab2 env None (sample_form (lit "a@x.com") (lit "Dr. Rao") true) st1
     = (refused st1, Ok tt).
Proof.
  split; [vm_compute; reflexivity|].
  refine (proj2 (X18_empty_summary_refused
                   (with_model
                      {| text := Ok (lit "SUMMARY:SPECIALIST: Orthopedist ADVICE: Rest");
                         candidates := Ok [] |}
                      (sample_env true true true))
                   sample_upload (lit "Pune") fresh_state
                   {| text := Ok (lit "SUMMARY:SPECIALIST: Orthopedist ADVICE: Rest");
                      candidates := Ok [] |}
                   (lit "SUMMARY:SPECIALIST: Orthopedist ADVICE: Rest")
                   (lit " Orthopedist ") (lit " Rest") _ None
                   (sample_form (lit "a@x.com") (lit "Dr. Rao") true)
                   eq_refl eq_refl _)).
  vm_compute. reflexivity.
Defined.

(** ** The admin dashboard *)

Lemma get_secret_value env secret_id st :
  snd (get_secret env secret_id st) = Ok (secret_value env secret_id).
Proof.
  unfold get_secret, secret_value. cbv zeta. unfold_script.
  destruct (vault env (secret_name secret_id)); reflexivity.
Qed.

Lemma quiet_trans a b c : quiet a b -> quiet b c -> quiet a c.
Proof. unfold quiet. intros (E1 & E2 & E3) (E4 & E5 & E6). repeat split; congruence. Qed.

(** The script up to the choice of the mode: the two secrets are fetched and
    the sidebar is drawn; only the page changes. *)
Lemma app_prelude env inp st :
  exists st3,
    quiet st st3
    /\ app env inp st
       = match mode inp with
         | PatientKiosk =>
             (draw (st_title ([0x1FA7A]%N ++ lit " Patient Service Portal")) ;;
              tab1 env (uploaded_file inp) (city_input inp)
                (process_record inp) ;;
              tab2 env (secret_value env (lit "master-calendar-id"))
                (form inp))%monad
         | AdminDashboard =>
             admin_dashboard env (secret_value env (lit "app-admin-password")) inp
         end st3.
Proof.
  unfold app. unfold bind at 1.
  pose proof (get_secret_quiet env (lit "app-admin-password") st) as Hq1.
  pose proof (get_secret_value env (lit "app-admin-password") st) as Hv1.
  destruct (get_secret env (lit "app-admin-password") st) as [st1 r1].
  cbn [fst snd] in Hq1, Hv1. subst r1.
  unfold bind at 1.
  pose proof (get_secret_quiet env (lit "master-calendar-id") st1) as Hq2.
  pose proof (get_secret_value env (lit "master-calendar-id") st1) as Hv2.
  destruct (get_secret env (lit "master-calendar-id") st1) as [st2 r2].
  cbn [fst snd] in Hq2, Hv2. subst r2.
  do 2 (unfold bind at 1; cbn [draw modify]).
  eexists. split; [|reflexivity].
  apply (quiet_trans st st1); [exact Hq1|].
  apply (quiet_trans st1 st2); [exact Hq2|].
  unfold quiet. cbn. auto.
Qed.

(** The dashboard of an authenticated session without a press on Logout:
    it ends without an exception unless Refresh is pressed and the read of
    the reports fails. *)
Lemma admin_dashboard_logged_in env secret inp st :
  authenticated (session st) = true ->
  logout_button inp = false ->
  (refresh inp = false \/ reports_stream env = Answer tt ->
   snd (admin_dashboard env secret inp st) = Ok tt)
  /\ session (fst (admin_dashboard env secret inp st)) = session st
  /\ In (st_sidebar_success (lit "Admin Logged In"))
       (ui (fst (admin_dashboard env secret inp st))).
Proof.
  intros Ha Hl. unfold admin_dashboard, check_auth. unfold_script. cbn.
  rewrite Ha, Hl. cbn.
  destruct (refresh inp); cbn;
    [destruct (reports_stream env) as [[]|m]; cbn;
     [destruct (reports (world st)); cbn|]|];
    repeat split; rewrite ?in_app_iff; cbn; auto 10.
  intros [H|H]; discriminate H.
Qed.

(** The read of the reports is not guarded: when it fails, the exception
    leaves the dashboard. *)
Lemma admin_dashboard_refresh_failure env secret inp st msg :
  authenticated (session st) = true ->
  logout_button inp = false ->
  refresh inp = true ->
  reports_stream env = Failure msg ->
  snd (admin_dashboard env secret inp st) = Raise (ServiceError msg).
Proof.
  intros Ha Hl Hf Hs. unfold admin_dashboard, check_auth. unfold_script. cbn.
  rewrite Ha, Hl, Hf. cbn. rewrite Hs. reflexivity.
Qed.

(** Refresh in an authenticated session, the read of the reports accepted:
    the dashboard counts and lists every report of the collection, or says
    that there is none. *)
Lemma admin_dashboard_refresh env secret inp st :
  authenticated (session st) = true ->
  logout_button inp = false ->
  refresh inp = true ->
  reports_stream env = Answer tt ->
  snd (admin_dashboard env secret inp st) = Ok tt
  /\ ui (fst (admin_dashboard env secret inp st))
     = ui st
       ++ [st_sidebar_success (lit "Admin Logged In");
           st_title ([0x1F4CA]%N ++ lit " Analytics")]
       ++ match reports (world st) with
          | [] => [st_info (lit "No data.")]
          | _ :: _ =>
              [st_metric (lit "Reports Processed") (length (reports (world st)));
               st_dataframe (reports (world st))]
          end.
Proof.
  intros Ha Hl Hf Hs. unfold admin_dashboard, check_auth. unfold_script. cbn.
  rewrite Ha, Hl, Hf. cbn. rewrite Hs. cbn.
  destruct (reports (world st)); cbn; rewrite <- !app_assoc; auto.
Qed.

Example admin_dashboard_two_reports :
  let env := sample_env true true true in
  let st := {| session := set_authenticated true new_session;
               world := {| appointments := [];
                           reports := [lit "r1"; lit "r2"];
                           master_calendar := []; tmp_files := [];
                           bucket := []; audit_log := [] |};
               ui := []; calls := [] |} in
  let inp := {| mode := AdminDashboard; uploaded_file := None;
                city_input := []; process_record := false;
                form := sample_form [] [] false; pwd := [];
                authenticate := false; logout_button := false;
                refresh := true |} in
  In (st_metric (lit "Reports Processed") 2) (ui (run env inp st))
  /\ In (st_dataframe [lit "r1"; lit "r2"]) (ui (run env inp st)).
Proof. split; vm_compute; auto 10. Qed.

Lemma admin_dashboard_login env p inp st :
  authenticated (session st) = false ->
  authenticate inp = true ->
  admin_dashboard env (Some p) inp st
  = if str_eqb (pwd inp) p
    then (fst (set_session (set_authenticated true)
                 (fst (draw (st_markdown (lit "### " ++ [0x1F6E1; 0xFE0F]%N
                                          ++ lit " Admin Portal Access")) st))),
          Raise RerunException)
    else (fst (draw (st_error (lit "Access Denied"))
                 (fst (draw (st_markdown (lit "### " ++ [0x1F6E1; 0xFE0F]%N
                                          ++ lit " Admin Portal Access")) st))),
          Ok tt).
Proof.
  intros Ha Hb. unfold admin_dashboard, check_auth, login_screen.
  unfold_script. cbn. rewrite Ha, Hb. cbn.
  destruct (str_eqb (pwd inp) p); reflexivity.
Qed.

(** X19: with the admin password fetched, a press on Authenticate in an
    unauthenticated session logs in exactly when the key typed in equals the
    secret: then the script starts over and draws the dashboard; otherwise
    the flag stays false and the run ends on "Access Denied". *)
Theorem X19_login_iff_key_matches
    (env : Env) (inp : Inputs) (st : State) (p : str) :
  vault env (secret_name (lit "app-admin-password")) = Answer p ->
  mode inp = AdminDashboard ->
  authenticated (session st) = false ->
  authenticate inp = true ->
  authenticated (session (run env inp st)) = str_eqb (pwd inp) p
  /\ (pwd inp = p ->
      In (st_sidebar_success (lit "Admin Logged In")) (ui (run env inp st)))
  /\ (pwd inp <> p ->
      exists drawn,
        ui (run env inp st) = drawn ++ [st_error (lit "Access Denied")]).
Proof.
  intros Hv Hm Ha Hb.
  assert (Hsec : secret_value env (lit "app-admin-password") = Some p)
    by (unfold secret_value; rewrite Hv; reflexivity).
  unfold run.
  destruct (app_prelude env inp (clear_ui st)) as (st3 & (Hs3 & _) & E).
  rewrite E, Hm, Hsec.
  assert (Ha3 : authenticated (session st3) = false)
    by (rewrite Hs3; exact Ha).
  rewrite (admin_dashboard_login env p inp st3 Ha3 Hb).
  destruct (str_eqb (pwd inp) p) eqn:Ep.
  - cbv iota beta.
    match goal with
    | |- context [app env (released inp) (clear_ui ?s)] => set (st4 := s)
    end.
    assert (Ha4 : authenticated (session (clear_ui st4)) = true)
      by reflexivity.
    destruct (app_prelude env (released inp) (clear_ui st4))
      as (st5 & (Hs5 & _) & E5).
    rewrite E5. change (mode (released inp)) with (mode inp). rewrite Hm.
    assert (Ha5 : authenticated (session st5) = true)
      by (rewrite Hs5; exact Ha4).
    destruct (admin_dashboard_logged_in env
                (secret_value env (lit "app-admin-password")) (released inp)
                st5 Ha5 eq_refl) as (Hr & Hs & Hu).
    specialize (Hr (or_introl eq_refl)).
    destruct (admin_dashboard env
                (secret_value env (lit "app-admin-password"))
                (released inp) st5) as [st6 r6].
    cbn [fst snd] in Hr, Hs, Hu. subst r6. cbn [show_exception].
    split; [rewrite Hs; exact Ha5|]. split; [intros _; exact Hu|].
    intros Hne. apply str_eqb_eq in Ep. congruence.
  - cbn [show_exception]. split; [cbn; exact Ha3|]. split.
    + intros Heq. apply str_eqb_eq in Heq. congruence.
    + intros _. eexists. reflexivity.
Qed.

Lemma X19_login_iff_key_matches_witness :
  let env := sample_env true true true in
  authenticated
    (session (run env (login_inputs (lit "secret-value")) fresh_state)) = true
  /\ authenticated
       (session (run env (login_inputs (lit "guess")) fresh_state)) = false.
Proof.
  split.
  - exact (proj1 (X19_login_iff_key_matches (sample_env true true true)
                    (login_inputs (lit "secret-value")) fresh_state
                    (lit "secret-value") eq_refl eq_refl eq_refl eq_refl)).
  - exact (proj1 (X19_login_iff_key_matches (sample_env true true true)
                    (login_inputs (lit "guess")) fresh_state
                    (lit "secret-value") eq_refl eq_refl eq_refl eq_refl)).
Defined.

Lemma admin_dashboard_logout env secret inp st :
  authenticated (session st) = true ->
  logout_button inp = true ->
  snd (admin_dashboard env secret inp st) = Raise RerunException
  /\ authenticated (session (fst (admin_dashboard env secret inp st))) = false.
Proof.
  intros Ha Hl. unfold admin_dashboard, check_auth, logout. unfold_script.
  cbn. rewrite Ha, Hl. cbn. auto.
Qed.

Lemma admin_dashboard_login_screen env secret inp st :
  authenticated (session st) = false ->
  authenticate inp = false ->
  admin_dashboard env secret inp st
  = (fst (draw (st_markdown (lit "### " ++ [0x1F6E1; 0xFE0F]%N
                             ++ lit " Admin Portal Access")) st), Ok tt).
Proof.
  intros Ha Hb. unfold admin_dashboard, check_auth, login_screen.
  unfold_script. cbn. rewrite Ha, Hb. reflexivity.
Qed.

(** X20: a press on Logout in an authenticated session clears the flag and
    starts the script over, which draws the login screen as its last widget;
    no secret is needed for that. *)
Theorem X20_logout (env : Env) (inp : Inputs) (st : State) :
  mode inp = AdminDashboard ->
  authenticated (session st) = true ->
  logout_button inp = true ->
  authenticated (session (run env inp st)) = false
  /\ exists drawn,
       ui (run env inp st)
       = drawn ++ [st_markdown (lit "### " ++ [0x1F6E1; 0xFE0F]%N
                                ++ lit " Admin Portal Access")].
Proof.
  intros Hm Ha Hl. unfold run.
  destruct (app_prelude env inp (clear_ui st)) as (st3 & (Hs3 & _) & E).
  rewrite E, Hm.
  assert (Ha3 : authenticated (session st3) = true)
    by (rewrite Hs3; exact Ha).
  destruct (admin_dashboard_logout env
              (secret_value env (lit "app-admin-password")) inp st3 Ha3 Hl)
    as (Hr & Hout).
  destruct (admin_dashboard env (secret_value env (lit "app-admin-password"))
              inp st3) as [st4 r4].
  cbn [fst snd] in Hr, Hout. subst r4.
  destruct (app_prelude env (released inp) (clear_ui st4))
    as (st5 & (Hs5 & _) & E5).
  rewrite E5. change (mode (released inp)) with (mode inp). rewrite Hm.
  assert (Ha5 : authenticated (session st5) = false)
    by (rewrite Hs5; exact Hout).
  rewrite (admin_dashboard_login_screen env _ (released inp) st5 Ha5 eq_refl).
  cbn [show_exception]. split; [exact Ha5|]. eexists. reflexivity.
Qed.

Lemma X20_logout_witness :
  let env := sample_env false true true in
  let logged_in := run (sample_env true true true)
                     (login_inputs (lit "secret-value")) fresh_state in
  let inp := {| mode := AdminDashboard; uploaded_file := None;
                city_input := []; process_record := false;
                form := sample_form [] [] false; pwd := [];
                authenticate := false; logout_button := true;
                refresh := false |} in
  authenticated (session logged_in) = true
  /\ authenticated (session (run env inp logged_in)) = false.
Proof.
  split; [reflexivity|].
  exact (proj1 (X20_logout (sample_env false true true)
                  {| mode := AdminDashboard; uploaded_file := None;
                     city_input := []; process_record := false;
                     form := sample_form [] [] false; pwd := [];
                     authenticate := false; logout_button := true;
                     refresh := false |}
                  (run (sample_env true true true)
                     (login_inputs (lit "secret-value")) fresh_state)
                  eq_refl eq_refl eq_refl)).
Defined.

Lemma app_stays_logged_in env inp st :
  authenticated (session st) = true ->
  mode inp = PatientKiosk \/ logout_button inp = false ->
  authenticated (session (fst (app env inp st))) = true.
Proof.
  intros Ha Hc.
  destruct (app_prelude env inp st) as (st3 & (Hs3 & _) & E). rewrite E.
  assert (Ha3 : authenticated (session st3) = true)
    by (rewrite Hs3; exact Ha).
  destruct (mode inp) eqn:Hm.
  - rewrite (kiosk_auth_kept env _ inp _ st3). exact Ha3.
  - destruct Hc as [Hc|Hc]; [discriminate|].
    destruct (admin_dashboard_logged_in env
                (secret_value env (lit "app-admin-password")) inp st3 Ha3 Hc)
      as (_ & Hs & _).
    rewrite Hs. exact Ha3.
Qed.

(** X21: an authenticated session stays authenticated through every run but
    a press on Logout: through the patient kiosk, analyses and bookings
    included, and through the dashboard, also when the admin password can no
    longer be fetched. *)
Theorem X21_stays_logged_in (env : Env) (inp : Inputs) (st : State) :
  authenticated (session st) = true ->
  mode inp = PatientKiosk \/ logout_button inp = false ->
  authenticated (session (run env inp st)) = true.
Proof.
  intros Ha Hc. unfold run.
  pose proof (app_stays_logged_in env inp (clear_ui st) Ha Hc) as H1.
  destruct (app env inp (clear_ui st)) as [st1 r1]. cbn [fst] in H1.
  assert (Hshow : forall s r, authenticated (session s) = true ->
                    authenticated (session (show_exception (s, r))) = true).
  { intros s r H. destruct r; exact H. }
  destruct r1 as [x|e]; [apply Hshow, H1|].
  destruct e; try (apply Hshow, H1).
  assert (Hc' : mode (released inp) = PatientKiosk
                \/ logout_button (released inp) = false)
    by (right; reflexivity).
  pose proof (app_stays_logged_in env (released inp) (clear_ui st1) H1 Hc')
    as H2.
  destruct (app env (released inp) (clear_ui st1)) as [st2 r2].
  apply Hshow, H2.
Qed.

Lemma X21_stays_logged_in_witness :
  let logged_in := run (sample_env true true true)
                     (login_inputs (lit "secret-value")) fresh_state in
  authenticated
    (session (run (sample_env false false false) analyse_inputs logged_in))
  = true.
Proof.
  exact (X21_stays_logged_in (sample_env false false false) analyse_inputs
           (run (sample_env true true true)
              (login_inputs (lit "secret-value")) fresh_state)
           eq_refl (or_introl eq_refl)).
Defined.

Lemma app_admin_frame env inp st :
  mode inp = AdminDashboard ->
  world (fst (app env inp st)) = world st
  /\ calls (fst (app env inp st)) = calls st
  /\ set_authenticated false (session (fst (app env inp st)))
     = set_authenticated false (session st).
Proof.
  intros Hm.
  destruct (app_prelude env inp st) as (st3 & (Hs3 & Hw3 & Hc3) & E).
  rewrite E, Hm.
  destruct (admin_dashboard_frame env
              (secret_value env (lit "app-admin-password")) inp st3)
    as (_ & Hw & Hc).
  destruct (admin_dashboard_session env
              (secret_value env (lit "app-admin-password")) inp st3)
    as (b & Hs).
  rewrite Hw, Hc, Hs, Hw3, Hc3, Hs3. auto.
Qed.

(** X22: the admin dashboard is read-only.  A run in the admin mode, a login,
    a logout or a refresh, leaves the stores and the list of calls as they
    were and changes nothing in the session but the login flag: the
    patient's analysis survives it. *)
Theorem X22_admin_read_only (env : Env) (inp : Inputs) (st : State) :
  mode inp = AdminDashboard ->
  world (run env inp st) = world st
  /\ calls (run env inp st) = calls st
  /\ analysis_result (session (run env inp st)) = analysis_result (session st)
  /\ specialist_type (session (run env inp st)) = specialist_type (session st)
  /\ user_city (session (run env inp st)) = user_city (session st)
  /\ sources_clean (session (run env inp st)) = sources_clean (session st).
Proof.
  intros Hm.
  assert (H : world (run env inp st) = world st
              /\ calls (run env inp st) = calls st
              /\ set_authenticated false (session (run env inp st))
                 = set_authenticated false (session st)).
  { unfold run.
    destruct (app_admin_frame env inp (clear_ui st) Hm) as (Hw & Hc & Hs).
    destruct (app env inp (clear_ui st)) as [st1 r1]. cbn [fst] in Hw, Hc, Hs.
    assert (Hshow : forall r,
               world (show_exception (st1, r)) = world st
               /\ calls (show_exception (st1, r)) = calls st
               /\ set_authenticated false (session (show_exception (st1, r)))
                  = set_authenticated false (session st)).
    { intros r. destruct r; cbn; auto. }
    destruct r1 as [x|e]; [apply Hshow|].
    destruct e; try apply Hshow.
    destruct (app_admin_frame env (released inp) (clear_ui st1) Hm)
      as (Hw2 & Hc2 & Hs2).
    destruct (app env (released inp) (clear_ui st1)) as [st2 r2].
    cbn [fst] in Hw2, Hc2, Hs2.
    destruct r2; cbn; rewrite Hw2, Hc2, Hs2; auto. }
  destruct H as (Hw & Hc & Hs). split; [exact Hw|]. split; [exact Hc|].
  repeat split.
  - exact (f_equal analysis_result Hs).
  - exact (f_equal specialist_type Hs).
  - exact (f_equal user_city Hs).
  - exact (f_equal sources_clean Hs).
Qed.

Lemma X22_admin_read_only_witness :
  let env := sample_env true true true in
  let st := analysed_state env in
  analysis_result (session (run env (login_inputs (lit "secret-value")) st))
  = Some (lit " Mild fracture ").
Proof.
  exact (proj1 (proj2 (proj2
           (X22_admin_read_only (sample_env true true true)
              (login_inputs (lit "secret-value"))
              (analysed_state (sample_env true true true)) eq_refl)))).
Defined.

Lemma X10_calendar_failure_not_surfaced_witness :
  let env := sample_env true false true in
  let form := sample_form (lit "a@x.com") (lit "Dr. Rao") true in
  let st := analysed_state env in
  let st' := fst (booking_submit env None (lit "Orthopedist") form st) in
  events_insert env (hospital_event None (p_email form) (doc_name form)
                       (appt_date form) (appt_time form))
  = Failure (lit "403 Forbidden")
  /\ existsb is_error (ui st') = false
  /\ audit_log (world st') = [lit "Calendar API Error: 403 Forbidden"]
  /\ master_calendar (world st') = [].
Proof.
  split; [reflexivity|].
  pose proof (X10_calendar_failure_not_surfaced (sample_env true false true)
                None (lit "Orthopedist")
                (sample_form (lit "a@x.com") (lit "Dr. Rao") true)
                (analysed_state (sample_env true false true))
                (lit "403 Forbidden") eq_refl eq_refl eq_refl)
    as (_ & He & Hl & Hc & _).
  split; [exact He|]. split; [exact Hl | exact Hc].
Defined.

(** ** A run without a button down *)

Lemma tab2_idle env cal form st :
  submitted form = false ->
  snd (tab2 env cal form st) = Ok tt /\ quiet st (fst (tab2 env cal form st)).
Proof.
  intros H. unfold tab2, quiet. unfold_script. cbn.
  destruct (truthy (analysis_result (session st))); cbn;
    [rewrite H; cbn|]; auto.
Qed.

Lemma app_idle env inp st :
  process_record inp = false ->
  submitted (form inp) = false ->
  authenticate inp = false ->
  logout_button inp = false ->
  (refresh inp = false \/ reports_stream env = Answer tt ->
   snd (app env inp st) = Ok tt)
  /\ snd (app env inp st) <> Raise RerunException
  /\ quiet st (fst (app env inp st)).
Proof.
  intros Hp Hs Ha Hl.
  destruct (app_prelude env inp st) as (st3 & Hq & E). rewrite E.
  destruct (mode inp).
  - assert (T : forall s, tab1 env (uploaded_file inp) (city_input inp)
                            (process_record inp) s = (s, Ok tt)).
    { intros s. unfold tab1. rewrite Hp.
      destruct (uploaded_file inp); reflexivity. }
    set (st4 := fst (draw (st_title ([0x1FA7A]%N
                                     ++ lit " Patient Service Portal")) st3)).
    assert (E2 : (draw (st_title ([0x1FA7A]%N
                                  ++ lit " Patient Service Portal")) ;;
                  tab1 env (uploaded_file inp) (city_input inp)
                    (process_record inp) ;;
                  tab2 env (secret_value env (lit "master-calendar-id"))
                    (form inp))%monad st3
                 = tab2 env (secret_value env (lit "master-calendar-id"))
                     (form inp) st4).
    { unfold bind at 1. cbn [draw modify]. unfold bind at 1. rewrite T.
      reflexivity. }
    rewrite E2.
    destruct (tab2_idle env (secret_value env (lit "master-calendar-id"))
                (form inp) st4 Hs) as (Hr & Hq2).
    split; [intros _; exact Hr|]. split; [rewrite Hr; discriminate|].
    apply (quiet_trans st st3); [exact Hq|].
    apply (quiet_trans st3 st4); [unfold quiet; cbn; auto | exact Hq2].
  - destruct (authenticated (session st3)) eqn:Eauth.
    + destruct (admin_dashboard_logged_in env
                  (secret_value env (lit "app-admin-password")) inp st3
                  Eauth Hl) as (Hr & Hses & _).
      destruct (admin_dashboard_frame env
                  (secret_value env (lit "app-admin-password")) inp st3)
        as (_ & Hw & Hc).
      split; [exact Hr|]. split.
      * destruct (refresh inp) eqn:Hf;
          [|rewrite (Hr (or_introl eq_refl)); discriminate].
        destruct (reports_stream env) as [[]|msg] eqn:Hrep;
          [rewrite (Hr (or_intror eq_refl)); discriminate|].
        rewrite (admin_dashboard_refresh_failure env _ inp st3 msg
                   Eauth Hl Hf Hrep).
        discriminate.
      * apply (quiet_trans st st3); [exact Hq|]. unfold quiet. auto.
    + rewrite (admin_dashboard_login_screen env _ inp st3 Eauth Ha).
      split; [reflexivity|]. split; [discriminate|].
      apply (quiet_trans st st3); [exact Hq|]. unfold quiet. cbn. auto.
Qed.

(** X23: a run with no button down only redraws the page.  With the buttons
    Process Record, Confirm Booking, Authenticate and Logout up, in either
    mode and whatever the services answer, a run leaves the session, the
    stores and the list of calls as they were; and unless Refresh is pressed
    and the read of the reports fails, the script ends without an
    exception. *)
Theorem X23_idle_run_is_quiet (env : Env) (inp : Inputs) (st : State) :
  process_record inp = false ->
  submitted (form inp) = false ->
  authenticate inp = false ->
  logout_button inp = false ->
  (refresh inp = false \/ reports_stream env = Answer tt ->
   snd (app env inp (clear_ui st)) = Ok tt)
  /\ session (run env inp st) = session st
  /\ world (run env inp st) = world st
  /\ calls (run env inp st) = calls st.
Proof.
  intros Hp Hs Ha Hl.
  destruct (app_idle env inp (clear_ui st) Hp Hs Ha Hl) as (Hr & Hn & Hq).
  split; [exact Hr|]. unfold run.
  destruct (app env inp (clear_ui st)) as [st1 r1]. cbn [fst snd] in Hn, Hq.
  destruct r1 as [u|e]; [exact Hq|].
  destruct e; try exact Hq. congruence.
Qed.

Lemma X23_idle_run_is_quiet_witness :
  let env := sample_env false false false in
  let st := analysed_state (sample_env true true true) in
  snd (app env (released analyse_inputs) (clear_ui st)) = Ok tt
  /\ session (run env (released analyse_inputs) st) = session st
  /\ world (run env (released analyse_inputs) st) = world st.
Proof.
  pose proof (X23_idle_run_is_quiet (sample_env false false false)
                (released analyse_inputs)
                (analysed_state (sample_env true true true))
                eq_refl eq_refl eq_refl eq_refl) as (Hr & Hs & Hw & _).
  split; [exact (Hr (or_introl eq_refl))|].
  split; [exact Hs | exact Hw].
Defined.
